(** * gbe: cartridge / MBC layer and PPU state machine

    A shallow embedding of [src/cartridge.cpp] and [src/display.cpp], and
    of the frame callback of [src/main.cpp], with the properties of the
    specification that concern them and further properties of the code.

    Conventions.  Every C++ integer is a [Z] kept inside the range of its
    type; a conversion to an unsigned type of [w] bits is written out as a
    reduction modulo [2^w].  Bit operations are the ones of [Z].  Byte
    buffers are [list Z].  Calls that leave the object (interrupt requests on
    [m_system], host callbacks) are recorded as lists of events. *)

From Stdlib Require Import String.
From Stdlib Require Import ZArith List Bool Lia Sorted Permutation.
Import ListNotations.
Open Scope Z_scope.

(* ================================================================== *)
(** * Machine integers *)

Module Int.

(** Conversion to [uint8], [uint16], [uint32], [uint64]. *)
Definition u8 (x : Z) : Z := x mod 256.
Definition u16 (x : Z) : Z := x mod 65536.
Definition u32 (x : Z) : Z := x mod 4294967296.
Definition u64 (x : Z) : Z := x mod 18446744073709551616.

(** Conversion to [int] (two's complement, 32 bits). *)
Definition s32 (x : Z) : Z :=
  let r := x mod 4294967296 in
  if r <? 2147483648 then r else r - 4294967296.

Definition is_u8 (x : Z) : Prop := 0 <= x < 256.
Definition is_u16 (x : Z) : Prop := 0 <= x < 65536.
Definition is_u32 (x : Z) : Prop := 0 <= x < 4294967296.
Definition is_u64 (x : Z) : Prop := 0 <= x < 18446744073709551616.

(** A C truth value: non-zero is true. *)
Definition truthy (x : Z) : bool := negb (x =? 0).

Definition of_bool (b : bool) : Z := if b then 1 else 0.

End Int.

(* ================================================================== *)
(** * Byte buffers *)

Module Buf.

(** [p[i]] for a buffer [p]; the sources only read inside the bounds. *)
Definition get (l : list Z) (i : Z) : Z := nth (Z.to_nat i) l 0.

(** [p[i] = v]; a store outside the buffer is left out. *)
Fixpoint store_nat (l : list Z) (i : nat) (v : Z) : list Z :=
  match l, i with
  | [], _ => []
  | _ :: t, O => v :: t
  | h :: t, S j => h :: store_nat t j v
  end.

Definition store (l : list Z) (i : Z) (v : Z) : list Z :=
  if i <? 0 then l else store_nat l (Z.to_nat i) v.

(** [Y_memset(p + off, v, len)]. *)
Fixpoint memset_nat (l : list Z) (off len : nat) (v : Z) : list Z :=
  match l with
  | [] => []
  | h :: t =>
      match off with
      | S o => h :: memset_nat t o len v
      | O =>
          match len with
          | O => l
          | S n => v :: memset_nat t O n v
          end
      end
  end.

Definition memset (l : list Z) (off len : Z) (v : Z) : list Z :=
  memset_nat l (Z.to_nat off) (Z.to_nat len) v.

End Buf.

(* ================================================================== *)
(** * The display ([display.cpp]) *)

Module Display.

(** The two interrupt lines the display raises through
    [m_system->CPUInterruptRequest]. *)
Inductive CPU_INT : Type := CPU_INT_VBLANK | CPU_INT_LCDSTAT.

Definition CPU_INT_eqb (a b : CPU_INT) : bool :=
  match a, b with
  | CPU_INT_VBLANK, CPU_INT_VBLANK => true
  | CPU_INT_LCDSTAT, CPU_INT_LCDSTAT => true
  | _, _ => false
  end.

(** Modelled from the spec: [OAM_ENTRY], whose declaration is in a header
    that is not part of these sources.  One sprite descriptor of four bytes
    (Y, X, tile, flags), with the fields [RenderScanline] reads; the flag
    bits are bit-fields of one bit each. *)
Record OAM_ENTRY : Type := mkOAM {
  y : Z;
  x : Z;
  tile : Z;
  priority : Z;
  vflip : Z;
  hflip : Z;
  palette : Z
}.

(** Modelled from the spec: the register file of the display (declared in
    [display.h], not part of these sources): bytes, under the names
    [display.cpp] uses. *)
Record Registers : Type := mkRegisters {
  LCDC : Z; STAT : Z; SCY : Z; SCX : Z; LY : Z; LYC : Z;
  BGP : Z; OBP0 : Z; OBP1 : Z; WY : Z; WX : Z
}.

(** Modelled from the spec: [SCREEN_WIDTH] and [SCREEN_HEIGHT] (declared
    in [display.h]): the frame buffer has 160 x 144 pixels of four bytes. *)
Definition SCREEN_WIDTH : Z := 160.
Definition SCREEN_HEIGHT : Z := 144.

(** The members of [Display] that [Reset], [Step] and [RenderScanline] use.
    [m_mode], [m_modeClocksRemaining] and [m_currentScanLine] are taken to
    be [uint32], the type of the parameters of [SetMode] and
    [SetScanline]. *)

Record Display : Type := mkDisplay {
  m_mode : Z;
  m_modeClocksRemaining : Z;
  m_currentScanLine : Z;
  m_registers : Registers;
  m_vramCopy : list Z;
  m_oamCopy : list OAM_ENTRY;
  m_frameBuffer : list Z
}.

(** What [Step] reads from [m_system]: [GetOAM()] and [GetVRAM()]. *)
Record System : Type := mkSystem {
  GetOAM : list OAM_ENTRY;
  GetVRAM : list Z
}.

(** ** Field updates *)

Definition set_STAT (v : Z) (r : Registers) : Registers :=
  mkRegisters (LCDC r) v (SCY r) (SCX r) (LY r) (LYC r)
              (BGP r) (OBP0 r) (OBP1 r) (WY r) (WX r).

Definition set_LY (v : Z) (r : Registers) : Registers :=
  mkRegisters (LCDC r) (STAT r) (SCY r) (SCX r) v (LYC r)
              (BGP r) (OBP0 r) (OBP1 r) (WY r) (WX r).

Definition set_mode (v : Z) (d : Display) : Display :=
  mkDisplay v (m_modeClocksRemaining d) (m_currentScanLine d)
            (m_registers d) (m_vramCopy d) (m_oamCopy d) (m_frameBuffer d).

Definition set_modeClocksRemaining (v : Z) (d : Display) : Display :=
  mkDisplay (m_mode d) v (m_currentScanLine d)
            (m_registers d) (m_vramCopy d) (m_oamCopy d) (m_frameBuffer d).

Definition set_currentScanLine (v : Z) (d : Display) : Display :=
  mkDisplay (m_mode d) (m_modeClocksRemaining d) v
            (m_registers d) (m_vramCopy d) (m_oamCopy d) (m_frameBuffer d).

Definition set_registers (v : Registers) (d : Display) : Display :=
  mkDisplay (m_mode d) (m_modeClocksRemaining d) (m_currentScanLine d)
            v (m_vramCopy d) (m_oamCopy d) (m_frameBuffer d).

Definition set_vramCopy (v : list Z) (d : Display) : Display :=
  mkDisplay (m_mode d) (m_modeClocksRemaining d) (m_currentScanLine d)
            (m_registers d) v (m_oamCopy d) (m_frameBuffer d).

Definition set_oamCopy (v : list OAM_ENTRY) (d : Display) : Display :=
  mkDisplay (m_mode d) (m_modeClocksRemaining d) (m_currentScanLine d)
            (m_registers d) (m_vramCopy d) v (m_frameBuffer d).

Definition set_frameBuffer (v : list Z) (d : Display) : Display :=
  mkDisplay (m_mode d) (m_modeClocksRemaining d) (m_currentScanLine d)
            (m_registers d) (m_vramCopy d) (m_oamCopy d) v.

(** ** Member functions as state transformers that emit interrupts

    A member function of [Display] that returns an [A] is a function from
    the object before the call to the result, the object after it and the
    interrupt requests it made, oldest first. *)

Definition M (A : Type) : Type := Display -> A * Display * list CPU_INT.

Definition ret {A : Type} (a : A) : M A := fun d => (a, d, []).

Definition bind {A B : Type} (m : M A) (k : A -> M B) : M B :=
  fun d =>
    let '(a, d1, l1) := m d in
    let '(b, d2, l2) := k a d1 in
    (b, d2, l1 ++ l2).

Definition get : M Display := fun d => (d, d, []).

Definition modify (f : Display -> Display) : M unit :=
  fun d => (tt, f d, []).

Definition CPUInterruptRequest (i : CPU_INT) : M unit :=
  fun d => (tt, d, [i]).

Definition when (b : bool) (m : M unit) : M unit :=
  if b then m else ret tt.

Notation "v <- m ;; k" := (bind m (fun v => k))
  (at level 61, m at next level, right associativity).
Notation "m ;; k" := (bind m (fun _ => k))
  (at level 61, right associativity).

(** ** [Display::SetMode] *)

Definition SetMode (mode : Z) : M unit :=
  modify (set_mode mode) ;;
  (* update lower two bits of STAT *)
  modify (fun d =>
    let r := m_registers d in
    set_registers
      (set_STAT (Int.u8 (Z.lor (Z.land (STAT r) (Z.lnot 3))
                               (Z.land (m_mode d) 3))) r) d) ;;
  d <- get ;;
  let r := m_registers d in
  (* trigger interrupts *)
  if mode =? 0 then
    when (Int.truthy (Z.land (STAT r) (Z.shiftl 1 3)))
         (CPUInterruptRequest CPU_INT_LCDSTAT)
  else if mode =? 1 then
    when (Int.truthy (Z.land (STAT r) (Z.shiftl 1 4)))
         (CPUInterruptRequest CPU_INT_LCDSTAT) ;;
    CPUInterruptRequest CPU_INT_VBLANK
  else if mode =? 2 then
    when (Int.truthy (Z.land (STAT r) (Z.shiftl 1 5)))
         (CPUInterruptRequest CPU_INT_LCDSTAT)
  else ret tt.

(** ** [Display::SetScanline] *)

Definition SetScanline (scanline : Z) : M unit :=
  modify (set_currentScanLine scanline) ;;
  modify (fun d =>
    set_registers (set_LY (Z.land scanline 255) (m_registers d)) d) ;;
  d <- get ;;
  let r := m_registers d in
  (* update coincidence flag *)
  let coincidence_flag :=
    if Int.truthy (Z.land (STAT r) (Z.shiftl 1 2))
    then (if LYC r =? LY r then 1 else 0)
    else (if negb (LYC r =? LY r) then 1 else 0) in
  modify (set_registers
    (set_STAT (Int.u8 (Z.lor (Z.land (STAT r) (Z.lnot (Z.shiftl 1 2)))
                             (Z.shiftl coincidence_flag 2))) r)) ;;
  d <- get ;;
  (* coincidence interrupts *)
  when (Int.truthy coincidence_flag &&
        Int.truthy (Z.land (STAT (m_registers d)) (Z.shiftl 1 6)))
       (CPUInterruptRequest CPU_INT_LCDSTAT).

(** ** [Display::ReadTile] *)

Definition ReadTile (d : Display) (high_tileset : bool) (tile x y : Z) : Z :=
  (* find the base address of this tile *)
  let BGTILEBASE := if high_tileset then 0x0800 else 0x0000 in
  let tilemem := BGTILEBASE + tile * 16 in
  let byteIndex := y * 2 in
  let bitIndex := x mod 8 in
  (* extract 2-bit palette index *)
  let colourBit :=
    Int.u8 (Z.land (Z.shiftr (Buf.get (m_vramCopy d) (tilemem + byteIndex))
                             (7 - bitIndex)) 1) in
  let colourBit :=
    Int.u8 (Z.lor colourBit
      (Z.shiftl (Z.land (Z.shiftr
                   (Buf.get (m_vramCopy d) (tilemem + byteIndex + 1))
                   (7 - bitIndex)) 1) 1)) in
  Z.land colourBit 3.

(** ** [Display::PutPixel] *)

Definition PutPixel (px py color : Z) (fb : list Z) : list Z :=
  let base := (py * SCREEN_WIDTH + px) * 4 in
  let fb := Buf.store fb base (Z.land color 255) in
  let fb := Buf.store fb (base + 1) (Z.land (Z.shiftr color 8) 255) in
  let fb := Buf.store fb (base + 2) (Z.land (Z.shiftr color 16) 255) in
  Buf.store fb (base + 3) (Z.land (Z.shiftr color 24) 255).

(** ** [Display::RenderScanline] *)

Definition grayscale_colors (i : Z) : Z :=
  if i =? 0 then 0xFFFFFFFF
  else if i =? 1 then 0xFFC0C0C0
  else if i =? 2 then 0xFF606060
  else 0xFF000000.

(** The culling loop over the forty entries of [m_oamCopy]. *)
Fixpoint cull_sprites (LINE SPRITE_HEIGHT : Z) (oam : list OAM_ENTRY)
  : list OAM_ENTRY :=
  match oam with
  | [] => []
  | attributes :: rest =>
      if (x attributes =? 0) || (y attributes =? 0)
         || (x attributes >=? 168) || (y attributes >=? 160)
      then cull_sprites LINE SPRITE_HEIGHT rest (* offscreen *)
      else
        (* translate to upper left/top, test if within our scanline *)
        let sprite_start_y := y attributes - 16 in
        let sprite_end_y := sprite_start_y + SPRITE_HEIGHT - 1 in
        if (LINE <? sprite_start_y) || (LINE >? sprite_end_y)
        then cull_sprites LINE SPRITE_HEIGHT rest
        else attributes :: cull_sprites LINE SPRITE_HEIGHT rest
  end.

(** [Y_qsort] with the comparator of [RenderScanline], which orders two
    entries by their [x] alone.  [Y_qsort] is a library routine; it is
    taken here to be an insertion sort that keeps entries of equal [x] in
    their order.  Any sort agrees with it on entries of distinct [x]. *)
Fixpoint insert_by_x (a : OAM_ENTRY) (l : list OAM_ENTRY) : list OAM_ENTRY :=
  match l with
  | [] => [a]
  | b :: t => if x b <? x a then b :: insert_by_x a t else a :: l
  end.

Fixpoint Y_qsort (l : list OAM_ENTRY) : list OAM_ENTRY :=
  match l with
  | [] => []
  | a :: t => insert_by_x a (Y_qsort t)
  end.

(** The local array [active_sprites[40]] and [num_active_sprites] after
    the "read sprites" block.  The array is not initialised: [stack] is
    what it holds on entry, and it keeps that beyond the entries the
    culling loop wrote. *)
Definition read_sprites (SPRITE_ENABLE : bool) (LINE SPRITE_HEIGHT : Z)
    (oam stack : list OAM_ENTRY) : list OAM_ENTRY * Z :=
  if SPRITE_ENABLE then
    let culled := cull_sprites LINE SPRITE_HEIGHT (firstn 40 oam) in
    let num_active_sprites := Z.of_nat (length culled) in
    if num_active_sprites >? 0 then
      (Y_qsort culled ++ skipn (length culled) stack,
       (* hardware can only draw 10 sprites, highest priority first *)
       Z.max num_active_sprites 10)
    else (stack, num_active_sprites)
  else (stack, 0).

(** The loop "find the first sprite with an x range including this
    pixel", over the entries [0 .. num_active_sprites - 1] of the array;
    it returns the value of [color] after the loop. *)
Fixpoint sprite_loop (d : Display) (LINE SPRITE_HEIGHT SPRITE_SIZE_BIT : Z)
    (obj_palette0 obj_palette1 : Z -> Z)
    (pixel_x bgcolor_index color : Z) (sprites : list OAM_ENTRY) : Z :=
  match sprites with
  | [] => color
  | sprite :: rest =>
      let sprite_start_x := x sprite - 8 in
      let sprite_end_x := sprite_start_x + 7 in
      let sprite_start_y := y sprite - 16 in
      if (pixel_x <? sprite_start_x) || (pixel_x >? sprite_end_x) then
        sprite_loop d LINE SPRITE_HEIGHT SPRITE_SIZE_BIT
                    obj_palette0 obj_palette1
                    pixel_x bgcolor_index color rest
      else if (priority sprite =? 1) && negb (bgcolor_index =? 0) then
        (* priority1 = behind bg color 1-3 *)
        color
      else
        (* turn the x position and scanline into tile-space coordinates *)
        let tile_x := pixel_x - sprite_start_x in
        let tile_y := LINE - sprite_start_y in
        (* handle flipped sprites *)
        let tile_x := if Int.truthy (hflip sprite) then 15 - tile_x
                      else tile_x in
        let tile_y := if Int.truthy (vflip sprite)
                      then SPRITE_HEIGHT - tile_y else tile_y in
        let tile_index :=
          if Int.truthy SPRITE_SIZE_BIT then
            (if tile_y <? 8 then Z.land (tile sprite) 0xFE
             else Z.lor (tile sprite) 0x01)
          else tile sprite in
        (* get palette index *)
        let palette_index :=
          ReadTile d false tile_index (Int.u8 tile_x) (Int.u8 tile_y) in
        if Int.truthy (palette sprite) then obj_palette1 palette_index
        else obj_palette0 palette_index
  end.

(** The state the pixel loop carries from one pixel to the next. *)
Record LineState : Type := mkLineState {
  ls_lineOffset : Z;
  ls_bg_x : Z;
  ls_bg_tile : Z;
  ls_frameBuffer : list Z
}.

Definition palette_of (reg : Z) (first : Z) (i : Z) : Z :=
  if i =? 0 then first
  else if i =? 1 then grayscale_colors (Z.land (Z.shiftr reg 2) 3)
  else if i =? 2 then grayscale_colors (Z.land (Z.shiftr reg 4) 3)
  else grayscale_colors (Z.land (Z.shiftr reg 6) 3).

(** The colour [RenderScanline] gives to pixel [pixel_x], and the
    background position after it. *)
Definition render_pixel (d : Display) (active_sprites : list OAM_ENTRY)
    (num_active_sprites : Z) (pixel_x : Z) (st : LineState)
  : Z * LineState :=
  let r := m_registers d in
  let LCDC := LCDC r in
  let LINE := LY r in
  let SCY := SCY r in
  let VRAM := m_vramCopy d in
  let BGENABLE := Int.truthy (Z.land LCDC 0x01) in
  let BGMAPBASE := if Int.truthy (Z.land LCDC 0x08) then 0x1C00 else 0x1800 in
  let BGTILESET_SELECT := Int.of_bool (Int.truthy (Z.land LCDC 0x10)) in
  let SPRITE_SIZE_BIT := Z.land (Z.shiftr LCDC 2) 0x1 in
  let SPRITE_HEIGHT := Int.u8 (8 + SPRITE_SIZE_BIT * 8) in
  let SPRITE_ENABLE := Int.truthy (Z.land LCDC 0x02) in
  let background_palette :=
    palette_of (BGP r) (grayscale_colors (Z.land (BGP r) 3)) in
  let BGMAPOFFSET :=
    Int.u16 (Z.shiftl (Z.shiftr (Z.land (LINE + SCY) 255) 3) 5) in
  let bg_y := Int.u8 (Z.land (LINE + SCY) 7) in
  let obj_palette0 := palette_of (OBP0 r) 0xFF555555 in
  let obj_palette1 := palette_of (OBP1 r) 0xFF555555 in
  let color := 0xFFFFFFFF in
  let bgcolor_index := 0 in
  (* background on? *)
  let '(bgcolor_index, color, st) :=
    if BGENABLE then
      (* read the tile pattern, access palette *)
      let bgcolor_index :=
        ReadTile d (BGTILESET_SELECT =? 0) (ls_bg_tile st) (ls_bg_x st) bg_y in
      let color := background_palette bgcolor_index in
      (* increment position *)
      let bg_x := Int.u8 (ls_bg_x st + 1) in
      if bg_x =? 8 then
        let lineOffset := Int.u8 (Z.land (ls_lineOffset st + 1) 31) in
        (bgcolor_index, color,
         mkLineState lineOffset 0
           (Buf.get VRAM (BGMAPBASE + BGMAPOFFSET + lineOffset))
           (ls_frameBuffer st))
      else
        (bgcolor_index, color,
         mkLineState (ls_lineOffset st) bg_x (ls_bg_tile st)
                     (ls_frameBuffer st))
    else (bgcolor_index, color, st) in
  (* sprites on? *)
  let color :=
    if SPRITE_ENABLE then
      sprite_loop d LINE SPRITE_HEIGHT SPRITE_SIZE_BIT
                  obj_palette0 obj_palette1 pixel_x bgcolor_index color
                  (firstn (Z.to_nat num_active_sprites) active_sprites)
    else color in
  (color, st).

(** The loop over [pixel_x], from [pixel_x] for [n] pixels. *)
Fixpoint pixel_loop (d : Display) (active_sprites : list OAM_ENTRY)
    (num_active_sprites : Z) (n : nat) (pixel_x : Z) (st : LineState)
  : LineState :=
  match n with
  | O => st
  | S n' =>
      let '(color, st) :=
        render_pixel d active_sprites num_active_sprites pixel_x st in
      (* write pixel to framebuffer *)
      let fb := PutPixel pixel_x (LY (m_registers d)) color
                         (ls_frameBuffer st) in
      pixel_loop d active_sprites num_active_sprites n' (pixel_x + 1)
        (mkLineState (ls_lineOffset st) (ls_bg_x st) (ls_bg_tile st) fb)
  end.

Definition RenderScanline (stack : list OAM_ENTRY) (d : Display) : Display :=
  (* blank the line *)
  let fb := Buf.memset (m_frameBuffer d)
              (m_currentScanLine d * SCREEN_WIDTH * 4) (SCREEN_WIDTH * 4)
              0xFF in
  let d := set_frameBuffer fb d in
  let r := m_registers d in
  (* if display disabled, skip entirely *)
  if negb (Int.truthy (Z.land (LCDC r) 0x80)) then d
  else
    let LINE := LY r in
    let SPRITE_SIZE_BIT := Z.land (Z.shiftr (LCDC r) 2) 0x1 in
    let SPRITE_HEIGHT := Int.u8 (8 + SPRITE_SIZE_BIT * 8) in
    let SPRITE_ENABLE := Int.truthy (Z.land (LCDC r) 0x02) in
    let BGMAPBASE :=
      if Int.truthy (Z.land (LCDC r) 0x08) then 0x1C00 else 0x1800 in
    let BGMAPOFFSET :=
      Int.u16 (Z.shiftl (Z.shiftr (Z.land (LINE + SCY r) 255) 3) 5) in
    (* background vars *)
    let lineOffset := Z.shiftr (SCX r) 3 in
    let bg_x := Z.land (SCX r) 7 in
    let bg_tile :=
      Buf.get (m_vramCopy d) (BGMAPBASE + BGMAPOFFSET + lineOffset) in
    (* read sprites *)
    let '(active_sprites, num_active_sprites) :=
      read_sprites SPRITE_ENABLE LINE SPRITE_HEIGHT (m_oamCopy d) stack in
    (* render the scanline *)
    let st := pixel_loop d active_sprites num_active_sprites 160 0
                (mkLineState lineOffset bg_x bg_tile (m_frameBuffer d)) in
    set_frameBuffer (ls_frameBuffer st) d.

(** ** [Display::Step]

    One call advances the display by one clock.  [sys] is what
    [m_system] holds at the call and [stack] what the local array of
    [RenderScanline] holds on entry.  The result is [pushFrameBuffer].
    The [DebugAssert]s are not part of a release build and are left out. *)

Definition dec_modeClocksRemaining : M unit :=
  modify (fun d =>
    set_modeClocksRemaining (Int.u32 (m_modeClocksRemaining d - 1)) d).

Definition Step (sys : System) (stack : list OAM_ENTRY) : M bool :=
  d <- get ;;
  if m_mode d =? 2 then
    (* oam read mode *)
    dec_modeClocksRemaining ;;
    d <- get ;;
    if m_modeClocksRemaining d =? 0 then
      (* read sprites *)
      modify (set_oamCopy (GetOAM sys)) ;;
      (* enter scanline mode 3 for 172 clocks *)
      modify (set_modeClocksRemaining 172) ;;
      SetMode 3 ;;
      ret false
    else ret false
  else if m_mode d =? 3 then
    (* vram read mode *)
    dec_modeClocksRemaining ;;
    d <- get ;;
    if m_modeClocksRemaining d =? 0 then
      (* read vram *)
      modify (set_vramCopy (GetVRAM sys)) ;;
      (* enter hblank *)
      SetMode 0 ;;
      modify (set_modeClocksRemaining 204) ;;
      (* render the scanline *)
      modify (RenderScanline stack) ;;
      ret false
    else ret false
  else if m_mode d =? 0 then
    (* hblank *)
    dec_modeClocksRemaining ;;
    d <- get ;;
    if m_modeClocksRemaining d =? 0 then
      (* move to the next line *)
      SetScanline (Int.u32 (m_currentScanLine d + 1)) ;;
      d <- get ;;
      if m_currentScanLine d =? 144 then
        (* enter vblank *)
        SetMode 1 ;;
        modify (set_modeClocksRemaining 456) ;;
        (* write framebuffer *)
        ret true
      else
        (* mode to oam for next line *)
        SetMode 2 ;;
        modify (set_modeClocksRemaining 80) ;;
        ret false
    else ret false
  else if m_mode d =? 1 then
    (* vblank *)
    dec_modeClocksRemaining ;;
    d <- get ;;
    if m_modeClocksRemaining d =? 0 then
      (* move to next line *)
      SetScanline (Int.u32 (m_currentScanLine d + 1)) ;;
      d <- get ;;
      if m_currentScanLine d =? 154 then
        (* return back to oam for first line *)
        SetMode 2 ;;
        SetScanline 0 ;;
        modify (set_modeClocksRemaining 80) ;;
        ret false
      else
        (* still in vblank *)
        modify (set_modeClocksRemaining 456) ;;
        ret false
    else ret false
  else ret false.

(** ** [Display::Reset] *)

Definition zero_registers : Registers :=
  mkRegisters 0 0 0 0 0 0 0 0 0 0 0.

Definition zero_OAM_ENTRY : OAM_ENTRY := mkOAM 0 0 0 0 0 0 0.

Definition Reset : M unit :=
  modify (fun d => set_frameBuffer (map (fun _ => 0xFF) (m_frameBuffer d)) d) ;;
  modify (set_registers zero_registers) ;;
  modify (fun d => set_vramCopy (map (fun _ => 0) (m_vramCopy d)) d) ;;
  modify (fun d => set_oamCopy (map (fun _ => zero_OAM_ENTRY) (m_oamCopy d)) d) ;;
  (* start at the end of vblank which is equal to starting fresh *)
  SetMode 2 ;;
  modify (set_modeClocksRemaining 80) ;;
  modify (set_currentScanLine 0).

(** The object a member function leaves behind, and what it requested. *)
Definition state_after {A : Type} (m : M A) (d : Display) : Display :=
  snd (fst (m d)).

Definition result_of {A : Type} (m : M A) (d : Display) : A :=
  fst (fst (m d)).

Definition requests_of {A : Type} (m : M A) (d : Display) : list CPU_INT :=
  snd (m d).

(** ** Runs of [Step]

    What is observed of one call: the value it returned, the interrupts
    it requested and the scanline counter after it. *)
Record StepEvent : Type := mkStepEvent {
  ev_pushFrameBuffer : bool;
  ev_requests : list CPU_INT;
  ev_scanline : Z
}.

(** [n] consecutive calls; the [k]-th call of the run (counted from
    [first]) reads its surroundings from [env k]. *)
Fixpoint run (n : nat) (env : nat -> System * list OAM_ENTRY) (first : nat)
    (d : Display) : list StepEvent * Display :=
  match n with
  | O => ([], d)
  | S n' =>
      let '(push, d1, irqs) := Step (fst (env first)) (snd (env first)) d in
      let '(evs, d2) := run n' env (S first) d1 in
      (mkStepEvent push irqs (m_currentScanLine d1) :: evs, d2)
  end.

Definition count_requests (i : CPU_INT) (l : list CPU_INT) : nat :=
  length (filter (CPU_INT_eqb i) l).

(** The numbers of the calls (the first call of the run is call [k]) at
    which something happened, each repeated as often as it happened at
    that call. *)
Fixpoint calls_from (k : Z) (happened : list nat) : list Z :=
  match happened with
  | [] => []
  | c :: t => repeat k c ++ calls_from (k + 1) t
  end.

Definition frame_ready_calls (tr : list StepEvent) : list Z :=
  calls_from 1
    (map (fun ev => if ev_pushFrameBuffer ev then 1%nat else 0%nat) tr).

Definition vblank_calls (tr : list StepEvent) : list Z :=
  calls_from 1
    (map (fun ev => count_requests CPU_INT_VBLANK (ev_requests ev)) tr).

Definition scanline_after_call (tr : list StepEvent) (k : Z) : option Z :=
  option_map ev_scanline (nth_error tr (Z.to_nat (k - 1))).

(** One frame: 154 scanlines of 456 clocks. *)
Definition FRAME_CLOCKS : Z := 456 * 154.

(** ** The timing skeleton of [Step]

    Mode, clock count and scanline counter evolve on their own: the next
    values, the returned flag and the number of VBlank requests of a call
    depend on nothing else. *)
Record Timing : Type := mkTiming {
  t_mode : Z;
  t_clocks : Z;
  t_line : Z
}.

Definition timing (d : Display) : Timing :=
  mkTiming (m_mode d) (m_modeClocksRemaining d) (m_currentScanLine d).

Definition timing_step (t : Timing) : Timing * bool * nat :=
  let c := Int.u32 (t_clocks t - 1) in
  let l := Int.u32 (t_line t + 1) in
  if t_mode t =? 2 then
    if c =? 0 then (mkTiming 3 172 (t_line t), false, 0%nat)
    else (mkTiming 2 c (t_line t), false, 0%nat)
  else if t_mode t =? 3 then
    if c =? 0 then (mkTiming 0 204 (t_line t), false, 0%nat)
    else (mkTiming 3 c (t_line t), false, 0%nat)
  else if t_mode t =? 0 then
    if c =? 0 then
      if l =? 144 then (mkTiming 1 456 l, true, 1%nat)
      else (mkTiming 2 80 l, false, 0%nat)
    else (mkTiming 0 c (t_line t), false, 0%nat)
  else if t_mode t =? 1 then
    if c =? 0 then
      if l =? 154 then (mkTiming 2 80 0, false, 0%nat)
      else (mkTiming 1 456 l, false, 0%nat)
    else (mkTiming 1 c (t_line t), false, 0%nat)
  else (t, false, 0%nat).

Fixpoint timing_run (n : nat) (t : Timing)
  : list (bool * nat * Z) * Timing :=
  match n with
  | O => ([], t)
  | S n' =>
      let '(t1, push, vb) := timing_step t in
      let '(evs, t2) := timing_run n' t1 in
      ((push, vb, t_line t1) :: evs, t2)
  end.

Definition abstract_event (ev : StepEvent) : bool * nat * Z :=
  (ev_pushFrameBuffer ev,
   count_requests CPU_INT_VBLANK (ev_requests ev),
   ev_scanline ev).

(** ** Displays of the examples *)

(** A display after [Reset], with buffers of the sizes of the hardware:
    160 x 144 pixels of four bytes, 8 KiB of video RAM, 40 sprites. *)
Definition power_on : Display :=
  state_after Reset
    (mkDisplay 0 0 0 zero_registers (repeat 0 (Z.to_nat 8192))
               (repeat zero_OAM_ENTRY 40)
               (repeat 0 (Z.to_nat (SCREEN_WIDTH * SCREEN_HEIGHT * 4)))).

(** The colour [PutPixel] stored at a pixel. *)
Definition GetPixel (px py : Z) (fb : list Z) : Z :=
  let base := (py * SCREEN_WIDTH + px) * 4 in
  Buf.get fb base + 256 * (Buf.get fb (base + 1)
    + 256 * (Buf.get fb (base + 2) + 256 * Buf.get fb (base + 3))).

(** Eleven sprites on line 0, side by side: the [k]-th (from 0) covers
    the pixels [8k .. 8k+7]. *)
Definition eleven_sprites : list OAM_ENTRY :=
  map (fun k => mkOAM 16 (8 * k + 8) 0 0 0 0 0)
      [0; 1; 2; 3; 4; 5; 6; 7; 8; 9; 10]
  ++ repeat zero_OAM_ENTRY 29.

(** One sprite on line 0 (pixels 0..7), and a stack whose second entry
    happens to look like a sprite on line 0 covering pixels 100..107. *)
Definition one_sprite : list OAM_ENTRY :=
  mkOAM 16 8 0 0 0 0 0 :: repeat zero_OAM_ENTRY 39.

Definition stale_stack : list OAM_ENTRY :=
  zero_OAM_ENTRY :: mkOAM 16 108 0 0 0 0 0 :: repeat zero_OAM_ENTRY 38.

Definition one_sprite_display : Display :=
  set_oamCopy one_sprite
    (set_registers (mkRegisters 0x82 0x00 0 0 0 0 0xE4 0xE4 0xE4 0 0)
                   power_on).

(** A display in the middle of line 4, with the coincidence interrupt
    enabled (STAT bit 6), the coincidence bit clear and LYC = 5. *)
Definition lyc_display : Display :=
  set_currentScanLine 4
    (set_registers (mkRegisters 0x80 0x42 0 0 4 5 0xE4 0xE4 0xE4 0 0)
                   power_on).

(** A display on line 0 with the LCD and the sprites on (LCDC = 0x82),
    the background off, and the eleven sprites in its copy of the OAM. *)
Definition sprite_display : Display :=
  set_oamCopy eleven_sprites
    (set_registers (mkRegisters 0x82 0x00 0 0 0 0 0xE4 0xE4 0xE4 0 0)
                   power_on).

(** ** Functions used to state the properties of the timing *)

(** The calls of a run of [k] frames at which a frame ends: call 65,664 of
    each frame of 70,224 calls. *)
Definition frame_marks (k : nat) : list Z :=
  map (fun j => 65664 + 70224 * Z.of_nat j) (seq 0 k).

(** An event of the timing skeleton with no [pushFrameBuffer] and no
    VBlank request. *)
Definition quiet (e : bool * nat * Z) : Prop :=
  fst (fst e) = false /\ snd (fst e) = 0%nat.

(** The timing states [Step] moves through: the clocks left in each mode
    and the lines on which the mode occurs. *)
Definition timing_ok (t : Timing) : Prop :=
  (t_mode t = 2 /\ 1 <= t_clocks t <= 80 /\ 0 <= t_line t <= 143)
  \/ (t_mode t = 3 /\ 1 <= t_clocks t <= 172 /\ 0 <= t_line t <= 143)
  \/ (t_mode t = 0 /\ 1 <= t_clocks t <= 204 /\ 0 <= t_line t <= 143)
  \/ (t_mode t = 1 /\ 1 <= t_clocks t <= 456 /\ 144 <= t_line t <= 153).

(** The invariant of the display: a timing state of [timing_ok], with
    LY and the low two bits of STAT following the line and the mode. *)
Definition display_ok (d : Display) : Prop :=
  timing_ok (timing d)
  /\ LY (m_registers d) = m_currentScanLine d
  /\ Z.land (STAT (m_registers d)) 3 = m_mode d.

(** The registers other than STAT and LY. *)
Definition other_registers (r : Registers) : list Z :=
  [LCDC r; SCY r; SCX r; LYC r; BGP r; OBP0 r; OBP1 r; WY r; WX r].

(** ** Functions used to state the properties of a rendered line *)

(** The byte of a tile row that holds bit [k] of the colour indices [cs]
    of its pixels, the leftmost pixel in the highest bit. *)
Definition bit_plane (k : Z) (cs : list Z) : Z :=
  fold_left (fun acc c => 2 * acc + Z.b2z (Z.testbit c k)) cs 0.

(** The colours [RenderScanline] can give a pixel: the four shades of
    [grayscale_colors] and the colour of sprite palette entry 0. *)
Definition shades : list Z :=
  [0xFFFFFFFF; 0xFFC0C0C0; 0xFF606060; 0xFF000000; 0xFF555555].

(** The background position [RenderScanline] starts the line with. *)
Definition line_start (d : Display) (fb : list Z) : LineState :=
  let r := m_registers d in
  let BGMAPBASE :=
    if Int.truthy (Z.land (LCDC r) 0x08) then 0x1C00 else 0x1800 in
  let BGMAPOFFSET :=
    Int.u16 (Z.shiftl (Z.shiftr (Z.land (LY r + SCY r) 255) 3) 5) in
  let lineOffset := Z.shiftr (SCX r) 3 in
  mkLineState lineOffset (Z.land (SCX r) 7)
    (Buf.get (m_vramCopy d) (BGMAPBASE + BGMAPOFFSET + lineOffset)) fb.

(** The colour of the background at pixel [pixel_x] of the line [LY], read
    off the tile map: the map is 32 x 32 tiles of 8 x 8 pixels and wraps
    around; the pixel lies at column [SCX + pixel_x] and row [LY + SCY] of
    it. *)
Definition background_colour (d : Display) (pixel_x : Z) : Z :=
  let r := m_registers d in
  let map_base :=
    if Int.truthy (Z.land (LCDC r) 0x08) then 0x1C00 else 0x1800 in
  let row := (LY r + SCY r) mod 256 in
  let column := SCX r + pixel_x in
  let tile :=
    Buf.get (m_vramCopy d)
            (map_base + 32 * (row / 8) + (column / 8) mod 32) in
  palette_of (BGP r) (grayscale_colors (Z.land (BGP r) 3))
    (ReadTile d (negb (Int.truthy (Z.land (LCDC r) 0x10))) tile
              (column mod 8) (row mod 8)).

(** What holds of the background position before pixel [x]. *)
Definition bg_position (d : Display) (x : Z) (st : LineState) : Prop :=
  let r := m_registers d in
  let map_base :=
    if Int.truthy (Z.land (LCDC r) 0x08) then 0x1C00 else 0x1800 in
  0 <= x
  /\ ls_bg_x st = (SCX r + x) mod 8
  /\ ls_lineOffset st = ((SCX r + x) / 8) mod 32
  /\ ls_bg_tile st
     = Buf.get (m_vramCopy d)
         (map_base + 32 * (((LY r + SCY r) mod 256) / 8) + ls_lineOffset st).

(** A display on line 0 with the LCD and the background on and the
    sprites off (LCDC = 0x91), scrolled three pixels to the right. *)
Definition background_display : Display :=
  set_registers (mkRegisters 0x91 0x00 0 3 0 0 0xE4 0xE4 0xE4 0 0) power_on.

End Display.

(* ================================================================== *)
(** * Binary streams ([BinaryWriter], [BinaryReader])

    The save state is a sequence of bytes.  The writer appends the fields in
    little-endian byte order; the reader consumes them from the front.  A
    read is [None] when the stream ends inside the field: what the library
    reader does then lies outside the cartridge code. *)

Module Stream.

Definition byte_of (x : Z) (k : Z) : Z := (x / 2 ^ (8 * k)) mod 256.

Definition WriteUInt8 (x : Z) : list Z := [byte_of x 0].
Definition WriteUInt16 (x : Z) : list Z := [byte_of x 0; byte_of x 1].
Definition WriteUInt32 (x : Z) : list Z :=
  [byte_of x 0; byte_of x 1; byte_of x 2; byte_of x 3].
Definition WriteUInt64 (x : Z) : list Z :=
  [byte_of x 0; byte_of x 1; byte_of x 2; byte_of x 3;
   byte_of x 4; byte_of x 5; byte_of x 6; byte_of x 7].
Definition WriteBool (b : bool) : list Z := [Int.of_bool b].
Definition WriteBytes (p : list Z) (n : Z) : list Z := firstn (Z.to_nat n) p.

Definition Reader (A : Type) : Type := list Z -> option (A * list Z).

Definition ReadUInt8 : Reader Z :=
  fun s => match s with
           | b0 :: s' => Some (b0, s')
           | _ => None
           end.

Definition ReadUInt16 : Reader Z :=
  fun s => match s with
           | b0 :: b1 :: s' => Some (b0 + 256 * b1, s')
           | _ => None
           end.

Definition ReadUInt32 : Reader Z :=
  fun s => match s with
           | b0 :: b1 :: b2 :: b3 :: s' =>
               Some (b0 + 256 * (b1 + 256 * (b2 + 256 * b3)), s')
           | _ => None
           end.

Definition ReadUInt64 : Reader Z :=
  fun s => match s with
           | b0 :: b1 :: b2 :: b3 :: b4 :: b5 :: b6 :: b7 :: s' =>
               Some (b0 + 256 * (b1 + 256 * (b2 + 256 * (b3 + 256 *
                    (b4 + 256 * (b5 + 256 * (b6 + 256 * b7)))))), s')
           | _ => None
           end.

Definition ReadBool : Reader bool :=
  fun s => match s with
           | b0 :: s' => Some (Int.truthy b0, s')
           | _ => None
           end.

Definition ReadBytes (n : Z) : Reader (list Z) :=
  fun s => if (Z.of_nat (length s) <? n) then None
           else Some (firstn (Z.to_nat n) s, skipn (Z.to_nat n) s).

End Stream.

(* ================================================================== *)
(** * The cartridge ([cartridge.cpp]) *)

Module Cartridge.

(** ** Cartridge types *)

(** The memory bank controllers, in the order of [MBC_NAME_STRINGS]; the
    position is the value the save state stores. *)
Inductive MBC : Type :=
| MBC_NONE | MBC_MBC1 | MBC_MBC2 | MBC_MBC3 | MBC_MBC4 | MBC_MBC5 | MBC_MMM01.

Definition MBC_value (m : MBC) : Z :=
  match m with
  | MBC_NONE => 0 | MBC_MBC1 => 1 | MBC_MBC2 => 2 | MBC_MBC3 => 3
  | MBC_MBC4 => 4 | MBC_MBC5 => 5 | MBC_MMM01 => 6
  end.

Record CartridgeTypeInfo : Type := mkTypeInfo {
  id : Z;
  mbc : MBC;
  ram : bool;
  battery : bool;
  timer : bool;
  rumble : bool;
  description : String.string
}.

Definition CART_TYPEINFOS : list CartridgeTypeInfo :=
  [ mkTypeInfo 0x00 MBC_NONE false false false false "ROM ONLY";
    mkTypeInfo 0x01 MBC_MBC1 false false false false "MBC1";
    mkTypeInfo 0x02 MBC_MBC1 true false false false "MBC1+RAM";
    mkTypeInfo 0x03 MBC_MBC1 true true false false "MBC1+RAM+BATTERY";
    mkTypeInfo 0x05 MBC_MBC2 false false false false "MBC2";
    mkTypeInfo 0x06 MBC_MBC2 false true false false "MBC2+BATTERY";
    mkTypeInfo 0x08 MBC_NONE true false false false "ROM+RAM";
    mkTypeInfo 0x09 MBC_NONE true true false false "ROM+RAM+BATTERY";
    mkTypeInfo 0x0B MBC_MMM01 false false false false "MMM01";
    mkTypeInfo 0x0C MBC_MMM01 true false false false "MMM01+RAM";
    mkTypeInfo 0x0D MBC_MMM01 true true false false "MMM01+RAM+BATTERY";
    mkTypeInfo 0x0F MBC_MBC3 false true true false "MBC3+TIMER+BATTERY";
    mkTypeInfo 0x10 MBC_MBC3 true true true false "MBC3+TIMER+RAM+BATTERY";
    mkTypeInfo 0x11 MBC_MBC3 false false false false "MBC3";
    mkTypeInfo 0x12 MBC_MBC3 true false false false "MBC3+RAM";
    mkTypeInfo 0x13 MBC_MBC3 true true false false "MBC3+RAM+BATTERY";
    mkTypeInfo 0x15 MBC_MBC4 false false false false "MBC4";
    mkTypeInfo 0x16 MBC_MBC4 true false false false "MBC4+RAM";
    mkTypeInfo 0x17 MBC_MBC4 true true false false "MBC4+RAM+BATTERY";
    mkTypeInfo 0x19 MBC_MBC5 false false false false "MBC5";
    mkTypeInfo 0x1A MBC_MBC5 true false false false "MBC5+RAM";
    mkTypeInfo 0x1B MBC_MBC5 true true false false "MBC5+RAM+BATTERY";
    mkTypeInfo 0x1C MBC_MBC5 false false false true "MBC5+RUMBLE";
    mkTypeInfo 0x1D MBC_MBC5 true false false true "MBC5+RUMBLE+RAM";
    mkTypeInfo 0x1E MBC_MBC5 true true false true "MBC5+RUMBLE+RAM+BATTERY"
  ].

Definition CART_EXTERNAL_RAM_SIZES : list Z :=
  [0; 2048; 8192; 32768; 65536; 131072].

Definition CART_ROM_BANK_COUNT : list (Z * Z) :=
  [ (0x00, 2); (0x01, 4); (0x02, 8); (0x03, 16); (0x04, 32); (0x05, 64);
    (0x06, 128); (0x07, 256); (0x52, 72); (0x53, 80); (0x54, 96) ].

(** Modelled from the spec: [ROM_BANK_SIZE] (declared in [cartridge.h], not
    part of these sources).  A ROM bank is 16 KiB, the size of the window
    [address & 0x3FFF]. *)
Definition ROM_BANK_SIZE : Z := 16384.

Inductive SYSTEM_MODE : Type := SYSTEM_MODE_DMG | SYSTEM_MODE_CGB.

(** ** Controller registers ([m_mbc_data])

    Modelled from the spec: the widths of the fields, declared in
    [cartridge.h].  They are the widths the save state functions write:
    bytes for MBC1 and MBC3, and for MBC5 a [uint16] for [rom_bank_number]
    and [active_rom_bank]. *)

Module MBC1.
Record data : Type := mk {
  ram_enable : bool;
  bank_mode : Z;
  rom_bank_number : Z;
  ram_bank_number : Z;
  active_rom_bank : Z;
  active_ram_bank : Z
}.
Definition zero : data := mk false 0 0 0 0 0.
End MBC1.

Module MBC3.
Record data : Type := mk {
  ram_rtc_enable : bool;
  rom_bank_number : Z;
  ram_bank_number : Z;
  rtc_latch : Z;
  rtc_latch_data : list Z
}.
Definition zero : data := mk false 0 0 0 [0; 0; 0; 0; 0].
End MBC3.

Module MBC5.
Record data : Type := mk {
  ram_enable : bool;
  rom_bank_number : Z;
  ram_bank_number : Z;
  active_rom_bank : Z
}.
Definition zero : data := mk false 0 0 0.
End MBC5.

(** [m_mbc_data] is a union of the three structures; only the member of
    the cartridge's own controller is ever read or written, so the members
    are kept side by side. *)
Record MBCData : Type := mkMBCData {
  mbc1 : MBC1.data;
  mbc3 : MBC3.data;
  mbc5 : MBC5.data
}.

(** ** The real-time clock ([m_rtc_data], [RTCValue]) *)

Record RTCData : Type := mkRTCData {
  base_time : Z;
  offset_seconds : Z;
  offset_minutes : Z;
  offset_hours : Z;
  offset_days : Z;
  active : bool
}.

Record RTCValue : Type := mkRTCValue {
  seconds : Z;
  minutes : Z;
  hours : Z;
  days : Z
}.

(** ** Calls on the host ([m_system->m_callbacks]) *)

Inductive HostCall : Type :=
| SaveCartridgeRAM (data : list Z)
| SaveCartridgeRTC (data : list Z).

(** ** The cartridge object, after its header has been parsed *)

Record Cartridge : Type := mkCartridge {
  m_mbc : MBC;
  m_crc : Z;
  m_typeinfo : CartridgeTypeInfo;
  m_system_mode : SYSTEM_MODE;
  m_rom_banks : list (list Z);
  m_num_rom_banks : Z;
  m_external_ram : option (list Z);  (* [None] is [nullptr] *)
  m_external_ram_size : Z;
  m_external_ram_modified : bool;
  m_rtc_data : RTCData;
  m_mbc_data : MBCData;
  m_callbacks : list HostCall         (* calls made so far, oldest first *)
}.

Definition set_external_ram (v : option (list Z)) (c : Cartridge) : Cartridge :=
  mkCartridge (m_mbc c) (m_crc c) (m_typeinfo c) (m_system_mode c)
    (m_rom_banks c) (m_num_rom_banks c) v (m_external_ram_size c)
    (m_external_ram_modified c) (m_rtc_data c) (m_mbc_data c) (m_callbacks c).

Definition set_external_ram_modified (v : bool) (c : Cartridge) : Cartridge :=
  mkCartridge (m_mbc c) (m_crc c) (m_typeinfo c) (m_system_mode c)
    (m_rom_banks c) (m_num_rom_banks c) (m_external_ram c)
    (m_external_ram_size c) v (m_rtc_data c) (m_mbc_data c) (m_callbacks c).

Definition set_rtc_data (v : RTCData) (c : Cartridge) : Cartridge :=
  mkCartridge (m_mbc c) (m_crc c) (m_typeinfo c) (m_system_mode c)
    (m_rom_banks c) (m_num_rom_banks c) (m_external_ram c)
    (m_external_ram_size c) (m_external_ram_modified c) v (m_mbc_data c)
    (m_callbacks c).

Definition set_mbc_data (v : MBCData) (c : Cartridge) : Cartridge :=
  mkCartridge (m_mbc c) (m_crc c) (m_typeinfo c) (m_system_mode c)
    (m_rom_banks c) (m_num_rom_banks c) (m_external_ram c)
    (m_external_ram_size c) (m_external_ram_modified c) (m_rtc_data c) v
    (m_callbacks c).

Definition call_host (h : HostCall) (c : Cartridge) : Cartridge :=
  mkCartridge (m_mbc c) (m_crc c) (m_typeinfo c) (m_system_mode c)
    (m_rom_banks c) (m_num_rom_banks c) (m_external_ram c)
    (m_external_ram_size c) (m_external_ram_modified c) (m_rtc_data c)
    (m_mbc_data c) (m_callbacks c ++ [h]).

Definition set_mbc1 (v : MBC1.data) (c : Cartridge) : Cartridge :=
  set_mbc_data (mkMBCData v (mbc3 (m_mbc_data c)) (mbc5 (m_mbc_data c))) c.

Definition set_mbc3 (v : MBC3.data) (c : Cartridge) : Cartridge :=
  set_mbc_data (mkMBCData (mbc1 (m_mbc_data c)) v (mbc5 (m_mbc_data c))) c.

Definition set_mbc5 (v : MBC5.data) (c : Cartridge) : Cartridge :=
  set_mbc_data (mkMBCData (mbc1 (m_mbc_data c)) (mbc3 (m_mbc_data c)) v) c.

Definition get_mbc1 (c : Cartridge) : MBC1.data := mbc1 (m_mbc_data c).
Definition get_mbc3 (c : Cartridge) : MBC3.data := mbc3 (m_mbc_data c).
Definition get_mbc5 (c : Cartridge) : MBC5.data := mbc5 (m_mbc_data c).

(** ** Results of fallible member functions

    [Failed code description] is a [false] return with [pError] set by
    [SetErrorUser]; formatted messages keep their format string. *)
Inductive Result (A : Type) : Type :=
| Done (a : A)
| Failed (code : Z) (description : String.string).
Arguments Done {A} a.
Arguments Failed {A} code description.

(** ** [Cartridge::SaveRAM], [Cartridge::SaveRTC] *)

Definition SaveRAM (c : Cartridge) : Cartridge :=
  let c :=
    if (m_external_ram_size c >? 0) && battery (m_typeinfo c) then
      call_host
        (SaveCartridgeRAM
           (match m_external_ram c with
            | Some p => Stream.WriteBytes p (m_external_ram_size c)
            | None => []
            end)) c
    else c in
  set_external_ram_modified false c.

Definition SaveRTC (c : Cartridge) : Cartridge :=
  if negb (timer (m_typeinfo c)) then c
  else
    let r := m_rtc_data c in
    (* save offset *)
    call_host
      (SaveCartridgeRTC
         (Stream.WriteUInt64 (base_time r) ++
          Stream.WriteUInt16 (offset_days r) ++
          Stream.WriteUInt8 (offset_hours r) ++
          Stream.WriteUInt8 (offset_minutes r) ++
          Stream.WriteUInt8 (offset_seconds r) ++
          Stream.WriteUInt8 0 ++ Stream.WriteUInt8 0 ++ Stream.WriteUInt8 0))
      c.

(** ** [Cartridge::GetCurrentRTCTime]

    [current_time_unix] is [Timestamp::Now().AsUnixTimestamp()].  The
    products are computed in [int] and then converted to [uint64]. *)
Definition GetCurrentRTCTime (current_time_unix : Z) (c : Cartridge)
  : RTCValue :=
  let r := m_rtc_data c in
  let diff_time := Int.u64 (current_time_unix - base_time r) in
  let diff_time := Int.u64 (diff_time + Int.u64 (offset_seconds r)) in
  let diff_time :=
    Int.u64 (diff_time + Int.u64 (Int.s32 (offset_minutes r * 60))) in
  let diff_time :=
    Int.u64 (diff_time + Int.u64 (Int.s32 (offset_hours r * 3600))) in
  let diff_time :=
    Int.u64 (diff_time + Int.u64 (Int.s32 (offset_days r * 86400))) in
  (* convert to format *)
  mkRTCValue (Int.u32 (diff_time mod 60))
             (Int.u32 ((diff_time / 60) mod 60))
             (Int.u32 ((diff_time / 3600) mod 24))
             (Int.u32 (diff_time / 86400)).

(** ** Shared pieces of the read and write functions *)

(** [m_rom_banks[bank][offset]].  For a bank or an offset that the cartridge
    does not hold the C++ reads outside the array; the list lookup gives 0
    there, and nothing is to be concluded from it. *)
Definition rom_byte (c : Cartridge) (bank offset : Z) : Z :=
  Buf.get (nth (Z.to_nat bank) (m_rom_banks c) []) offset.

(** [(uint16)bank * (uint16)8192 + (address - 0xA000)], as a [uint16]. *)
Definition eram_offset_of (bank address : Z) : Z :=
  Int.u16 (bank * 8192 + (address - 0xA000)).

(** [m_external_ram[eram_offset]]. *)
Definition eram_get (c : Cartridge) (eram_offset : Z) : Z :=
  match m_external_ram c with
  | Some p => Buf.get p eram_offset
  | None => 0
  end.

(** The guarded store of the write functions:
    [if (eram_offset < m_external_ram_size) { ... }]. *)
Definition eram_put (eram_offset value : Z) (c : Cartridge) : Cartridge :=
  if eram_offset <? m_external_ram_size c then
    match m_external_ram c with
    | Some p =>
        let c := if negb (Buf.get p eram_offset =? value)
                 then set_external_ram_modified true c else c in
        set_external_ram (Some (Buf.store p eram_offset value)) c
    | None => c
    end
  else c.

Definition in_low_rom (address : Z) : bool :=
  let w := Z.land address 0xF000 in
  (w =? 0x0000) || (w =? 0x1000) || (w =? 0x2000) || (w =? 0x3000).

Definition in_high_rom (address : Z) : bool :=
  let w := Z.land address 0xF000 in
  (w =? 0x4000) || (w =? 0x5000) || (w =? 0x6000) || (w =? 0x7000).

Definition in_eram (address : Z) : bool :=
  let w := Z.land address 0xF000 in
  (w =? 0xA000) || (w =? 0xB000).

(** ** No controller *)

Definition MBC_NONE_Reset (c : Cartridge) : Cartridge := c.

Definition MBC_NONE_Read (address : Z) (c : Cartridge) : Z :=
  if in_low_rom address then rom_byte c 0 address
  else if in_high_rom address then rom_byte c 1 (Z.land address 0x3FFF)
  else if in_eram address then
    match m_external_ram c with
    | Some p =>
        let eram_offset := Int.u16 (address - 0xA000) in
        if eram_offset <? m_external_ram_size c then Buf.get p eram_offset
        else 0
    | None => 0
    end
  else 0.

Definition MBC_NONE_Write (address value : Z) (c : Cartridge) : Cartridge :=
  if (address >=? 0xA000) && (address <? 0xC000) then
    match m_external_ram c with
    | Some p =>
        let eram_offset := Int.u16 (address - 0xA000) in
        if eram_offset <? m_external_ram_size c
        then set_external_ram (Some (Buf.store p eram_offset value)) c
        else c
    | None => c
    end
  else c.

(** ** MBC1 *)

Definition MBC_MBC1_UpdateActiveBanks (c : Cartridge) : Cartridge :=
  let m := get_mbc1 c in
  let '(ram, rom) :=
    if MBC1.bank_mode m =? 0 then
      (0, Int.u8 (Z.lor (Z.shiftl (MBC1.ram_bank_number m) 5)
                        (Z.land (MBC1.rom_bank_number m) 0x1F)))
    else
      (Int.u8 (Z.land (MBC1.ram_bank_number m) 0x03),
       MBC1.rom_bank_number m) in
  let rom :=
    if (rom =? 0x00) || (rom =? 0x20) || (rom =? 0x40) || (rom =? 0x60)
    then Int.u8 (rom + 1) else rom in
  (* check ranges *)
  let rom :=
    if rom >=? m_num_rom_banks c
    then Int.u8 (Int.u8 (m_num_rom_banks c) - 1) else rom in
  set_mbc1 (MBC1.mk (MBC1.ram_enable m) (MBC1.bank_mode m)
                    (MBC1.rom_bank_number m) (MBC1.ram_bank_number m)
                    rom ram) c.

Definition MBC_MBC1_Reset (c : Cartridge) : Cartridge :=
  let m := get_mbc1 c in
  MBC_MBC1_UpdateActiveBanks
    (set_mbc1 (MBC1.mk false 0 1 0
                       (MBC1.active_rom_bank m) (MBC1.active_ram_bank m)) c).

Definition MBC_MBC1_Read (address : Z) (c : Cartridge) : Z :=
  let m := get_mbc1 c in
  if in_low_rom address then rom_byte c 0 address
  else if in_high_rom address then
    rom_byte c (MBC1.active_rom_bank m) (Z.land address 0x3FFF)
  else if in_eram address then
    match m_external_ram c with
    | Some p =>
        if MBC1.ram_enable m then
          let eram_offset :=
            eram_offset_of (MBC1.active_ram_bank m) address in
          if eram_offset <? m_external_ram_size c
          then Buf.get p eram_offset else 0
        else 0
    | None => 0
    end
  else 0.

Definition MBC_MBC1_Write (address value : Z) (c : Cartridge) : Cartridge :=
  let m := get_mbc1 c in
  let w := Z.land address 0xF000 in
  if (w =? 0x0000) || (w =? 0x1000) then
    let ram_enable := (value =? 0x0A) in
    let c := set_mbc1 (MBC1.mk ram_enable (MBC1.bank_mode m)
                         (MBC1.rom_bank_number m) (MBC1.ram_bank_number m)
                         (MBC1.active_rom_bank m) (MBC1.active_ram_bank m)) c in
    if negb ram_enable && m_external_ram_modified c then SaveRAM c else c
  else if (w =? 0x2000) || (w =? 0x3000) then
    MBC_MBC1_UpdateActiveBanks
      (set_mbc1 (MBC1.mk (MBC1.ram_enable m) (MBC1.bank_mode m)
                   value (MBC1.ram_bank_number m)
                   (MBC1.active_rom_bank m) (MBC1.active_ram_bank m)) c)
  else if (w =? 0x4000) || (w =? 0x5000) then
    MBC_MBC1_UpdateActiveBanks
      (set_mbc1 (MBC1.mk (MBC1.ram_enable m) (MBC1.bank_mode m)
                   (MBC1.rom_bank_number m) value
                   (MBC1.active_rom_bank m) (MBC1.active_ram_bank m)) c)
  else if (w =? 0x6000) || (w =? 0x7000) then
    MBC_MBC1_UpdateActiveBanks
      (set_mbc1 (MBC1.mk (MBC1.ram_enable m) value
                   (MBC1.rom_bank_number m) (MBC1.ram_bank_number m)
                   (MBC1.active_rom_bank m) (MBC1.active_ram_bank m)) c)
  else if (address >=? 0xA000) && (address <? 0xC000) then
    match m_external_ram c with
    | Some _ =>
        if MBC1.ram_enable m then
          eram_put (eram_offset_of (MBC1.active_ram_bank m) address) value c
        else c
    | None => c
    end
  else c.

(** ** MBC3 *)

Definition MBC_MBC3_UpdateActiveBanks (c : Cartridge) : Cartridge :=
  let m := get_mbc3 c in
  let rom := MBC3.rom_bank_number m in
  let rom := if rom =? 0x00 then Int.u8 (rom + 1) else rom in
  (* check ranges *)
  let rom :=
    if rom >=? m_num_rom_banks c
    then Int.u8 (Int.u8 (m_num_rom_banks c) - 1) else rom in
  set_mbc3 (MBC3.mk (MBC3.ram_rtc_enable m) rom (MBC3.ram_bank_number m)
                    (MBC3.rtc_latch m) (MBC3.rtc_latch_data m)) c.

Definition MBC_MBC3_Reset (c : Cartridge) : Cartridge :=
  let m := get_mbc3 c in
  MBC_MBC3_UpdateActiveBanks
    (set_mbc3 (MBC3.mk false 1 0 (MBC3.rtc_latch m) (MBC3.rtc_latch_data m))
              c).

Definition MBC_MBC3_Read (address : Z) (c : Cartridge) : Z :=
  let m := get_mbc3 c in
  if in_low_rom address then rom_byte c 0 address
  else if in_high_rom address then
    rom_byte c (MBC3.rom_bank_number m) (Z.land address 0x3FFF)
  else if in_eram address then
    if MBC3.ram_rtc_enable m then
      if MBC3.ram_bank_number m <=? 0x07 then
        let eram_offset := eram_offset_of (MBC3.ram_bank_number m) address in
        if eram_offset <? m_external_ram_size c
        then eram_get c eram_offset
        else 0
      else if (MBC3.ram_bank_number m >=? 0x08)
              && (MBC3.ram_bank_number m <=? 0x0C) then
        let rtc_register := Int.u8 (MBC3.ram_bank_number m - 0x08) in
        Buf.get (MBC3.rtc_latch_data m) rtc_register
      else 0
    else 0 (* ram not enabled *)
  else 0.

(** The five bytes the latch takes from an [RTCValue]. *)
Definition latch_bytes (current_time : RTCValue) : list Z :=
  let d4 := Int.u8 (Z.land (Z.shiftr (days current_time) 8) 0x01) in
  [ Int.u8 (seconds current_time);                       (* 0x08 *)
    Int.u8 (minutes current_time);                       (* 0x09 *)
    Int.u8 (hours current_time);                         (* 0x0A *)
    Int.u8 (Z.land (days current_time) 0xFF);            (* 0x0B *)
    Int.u8 (Z.lor d4
              (Z.shiftl (Int.u8 (Int.of_bool (days current_time >=? 512)))
                        7)) ].                           (* 0x0C *)

(** A write to an RTC register: [set] when the new value differs, and
    then [SaveRTC]. *)
Definition rtc_offset_write (differs : bool) (r : RTCData) (c : Cartridge)
  : Cartridge :=
  if differs then SaveRTC (set_rtc_data r c) else c.

Definition MBC_MBC3_Write (current_time_unix : Z) (address value : Z)
    (c : Cartridge) : Cartridge :=
  let m := get_mbc3 c in
  let w := Z.land address 0xF000 in
  if (w =? 0x0000) || (w =? 0x1000) then
    let ram_rtc_enable := (value =? 0x0A) in
    let c := set_mbc3 (MBC3.mk ram_rtc_enable (MBC3.rom_bank_number m)
                         (MBC3.ram_bank_number m) (MBC3.rtc_latch m)
                         (MBC3.rtc_latch_data m)) c in
    if negb ram_rtc_enable && m_external_ram_modified c then SaveRAM c else c
  else if (w =? 0x2000) || (w =? 0x3000) then
    MBC_MBC3_UpdateActiveBanks
      (set_mbc3 (MBC3.mk (MBC3.ram_rtc_enable m) (Z.land value 0x7F)
                   (MBC3.ram_bank_number m) (MBC3.rtc_latch m)
                   (MBC3.rtc_latch_data m)) c)
  else if (w =? 0x4000) || (w =? 0x5000) then
    MBC_MBC3_UpdateActiveBanks
      (set_mbc3 (MBC3.mk (MBC3.ram_rtc_enable m) (MBC3.rom_bank_number m)
                   value (MBC3.rtc_latch m) (MBC3.rtc_latch_data m)) c)
  else if (w =? 0x6000) || (w =? 0x7000) then
    (* When writing 00h, and then 01h to this register, the current time
       becomes latched into the RTC registers. *)
    let latch_data :=
      if negb (MBC3.rtc_latch m =? 0x01) && (value =? 0x01) then
        (* Latch the current time *)
        latch_bytes (GetCurrentRTCTime current_time_unix c)
      else MBC3.rtc_latch_data m in
    (* Update value *)
    set_mbc3 (MBC3.mk (MBC3.ram_rtc_enable m) (MBC3.rom_bank_number m)
                (MBC3.ram_bank_number m) value latch_data) c
  else if (address >=? 0xA000) && (address <? 0xC000) then
    if MBC3.ram_rtc_enable m then
      let sel := MBC3.ram_bank_number m in
      let r := m_rtc_data c in
      if sel <=? 0x07 then
        eram_put (eram_offset_of sel address) value c
      else if (sel >=? 0x08) && (sel <=? 0x0C) then
        (* RTC *)
        if sel =? 0x08 then
          rtc_offset_write (negb (offset_seconds r =? value))
            (mkRTCData (base_time r) value (offset_minutes r)
                       (offset_hours r) (offset_days r) (active r)) c
        else if sel =? 0x09 then
          rtc_offset_write (negb (offset_minutes r =? value))
            (mkRTCData (base_time r) (offset_seconds r) value
                       (offset_hours r) (offset_days r) (active r)) c
        else if sel =? 0x0A then
          rtc_offset_write (negb (offset_hours r =? value))
            (mkRTCData (base_time r) (offset_seconds r) (offset_minutes r)
                       value (offset_days r) (active r)) c
        else if sel =? 0x0B then
          let new_offset_days :=
            Int.u16 (Z.lor (Z.land (offset_days r) 0x300) value) in
          rtc_offset_write (negb (new_offset_days =? offset_days r))
            (mkRTCData (base_time r) (offset_seconds r) (offset_minutes r)
                       (offset_hours r) new_offset_days (active r)) c
        else
          let new_offset_days :=
            Int.u16 (Z.lor (Z.lor (Z.land (offset_days r) 0xFF)
                              (Z.shiftl (Int.u16 (Z.land value 0x01)) 8))
                           (Z.shiftl (Int.u16 (Z.land value 0x80)) 2)) in
          let c :=
            rtc_offset_write (negb (new_offset_days =? offset_days r))
              (mkRTCData (base_time r) (offset_seconds r) (offset_minutes r)
                         (offset_hours r) new_offset_days (active r)) c in
          (* disabling of timer not currently implemented. *)
          let new_active := negb (Int.truthy (Z.land value (Z.shiftl 1 6))) in
          let r := m_rtc_data c in
          set_rtc_data
            (mkRTCData (base_time r) (offset_seconds r) (offset_minutes r)
                       (offset_hours r) (offset_days r) new_active) c
      else c
    else c (* ram not enabled *)
  else c.

(** ** MBC5 *)

Definition MBC_MBC5_UpdateActiveBanks (c : Cartridge) : Cartridge :=
  let m := get_mbc5 c in
  let active := MBC5.rom_bank_number m in
  let active :=
    if active >=? m_num_rom_banks c
    then Int.u16 (Int.u8 (m_num_rom_banks c) - 1) else active in
  set_mbc5 (MBC5.mk (MBC5.ram_enable m) (MBC5.rom_bank_number m)
                    (MBC5.ram_bank_number m) active) c.

Definition MBC_MBC5_Reset (c : Cartridge) : Cartridge :=
  let m := get_mbc5 c in
  MBC_MBC5_UpdateActiveBanks
    (set_mbc5 (MBC5.mk false 1 0 (MBC5.active_rom_bank m)) c).

Definition MBC_MBC5_Read (address : Z) (c : Cartridge) : Z :=
  let m := get_mbc5 c in
  if in_low_rom address then rom_byte c 0 address
  else if in_high_rom address then
    rom_byte c (MBC5.active_rom_bank m) (Z.land address 0x3FFF)
  else if in_eram address then
    if MBC5.ram_enable m then
      let eram_offset := eram_offset_of (MBC5.ram_bank_number m) address in
      if eram_offset <? m_external_ram_size c
      then eram_get c eram_offset
      else 0
    else 0 (* ram not enabled *)
  else 0.

Definition MBC_MBC5_Write (address value : Z) (c : Cartridge) : Cartridge :=
  let m := get_mbc5 c in
  let w := Z.land address 0xF000 in
  if (w =? 0x0000) || (w =? 0x1000) then
    let ram_enable := (value =? 0x0A) in
    let c := set_mbc5 (MBC5.mk ram_enable (MBC5.rom_bank_number m)
                         (MBC5.ram_bank_number m) (MBC5.active_rom_bank m)) c in
    if negb ram_enable && m_external_ram_modified c then SaveRAM c else c
  else if w =? 0x2000 then
    MBC_MBC5_UpdateActiveBanks
      (set_mbc5 (MBC5.mk (MBC5.ram_enable m)
                   (Int.u16 (Z.lor (Z.land (MBC5.rom_bank_number m) 0x100)
                                   value))
                   (MBC5.ram_bank_number m) (MBC5.active_rom_bank m)) c)
  else if w =? 0x3000 then
    MBC_MBC5_UpdateActiveBanks
      (set_mbc5 (MBC5.mk (MBC5.ram_enable m)
                   (Int.u16 (Z.lor (Z.land (MBC5.rom_bank_number m) 0xFF)
                              (Z.shiftl (Int.u16 (Z.land value 0x01)) 8)))
                   (MBC5.ram_bank_number m) (MBC5.active_rom_bank m)) c)
  else if (w =? 0x4000) || (w =? 0x5000) then
    MBC_MBC5_UpdateActiveBanks
      (set_mbc5 (MBC5.mk (MBC5.ram_enable m) (MBC5.rom_bank_number m)
                   value (MBC5.active_rom_bank m)) c)
  else if (address >=? 0xA000) && (address <? 0xC000) then
    if MBC5.ram_enable m then
      eram_put (eram_offset_of (MBC5.ram_bank_number m) address) value c
    else c (* ram not enabled *)
  else c.

(** ** [Cartridge::Reset], [Cartridge::CPURead], [Cartridge::CPUWrite] *)

Definition Reset (c : Cartridge) : Cartridge :=
  match m_mbc c with
  | MBC_NONE => MBC_NONE_Reset c
  | MBC_MBC1 => MBC_MBC1_Reset c
  | MBC_MBC3 => MBC_MBC3_Reset c
  | MBC_MBC5 => MBC_MBC5_Reset c
  | _ => c
  end.

Definition CPURead (address : Z) (c : Cartridge) : Z :=
  match m_mbc c with
  | MBC_NONE => MBC_NONE_Read address c
  | MBC_MBC1 => MBC_MBC1_Read address c
  | MBC_MBC3 => MBC_MBC3_Read address c
  | MBC_MBC5 => MBC_MBC5_Read address c
  | _ => 0x00
  end.

(** [current_time_unix] is the host clock at the time of the write. *)
Definition CPUWrite (current_time_unix : Z) (address value : Z)
    (c : Cartridge) : Cartridge :=
  match m_mbc c with
  | MBC_NONE => MBC_NONE_Write address value c
  | MBC_MBC1 => MBC_MBC1_Write address value c
  | MBC_MBC3 => MBC_MBC3_Write current_time_unix address value c
  | MBC_MBC5 => MBC_MBC5_Write address value c
  | _ => c
  end.

(** ** Save states

    [SaveState] appends to the stream; it does not change the cartridge. *)

Definition MBC_NONE_SaveState (c : Cartridge) : list Z := [].

Definition MBC_MBC1_SaveState (c : Cartridge) : list Z :=
  let m := get_mbc1 c in
  Stream.WriteUInt8 (MBC1.active_rom_bank m) ++
  Stream.WriteUInt8 (MBC1.active_ram_bank m) ++
  Stream.WriteBool (MBC1.ram_enable m) ++
  Stream.WriteUInt8 (MBC1.bank_mode m) ++
  Stream.WriteUInt8 (MBC1.rom_bank_number m) ++
  Stream.WriteUInt8 (MBC1.ram_bank_number m).

Definition MBC_MBC3_SaveState (c : Cartridge) : list Z :=
  let m := get_mbc3 c in
  Stream.WriteUInt8 (MBC3.rom_bank_number m) ++
  Stream.WriteUInt8 (MBC3.ram_bank_number m) ++
  Stream.WriteBool (MBC3.ram_rtc_enable m).

Definition MBC_MBC5_SaveState (c : Cartridge) : list Z :=
  let m := get_mbc5 c in
  Stream.WriteUInt16 (MBC5.active_rom_bank m) ++
  Stream.WriteUInt16 (MBC5.rom_bank_number m) ++
  Stream.WriteUInt8 (MBC5.ram_bank_number m) ++
  Stream.WriteBool (MBC5.ram_enable m).

Definition SaveState (c : Cartridge) : list Z :=
  let r := m_rtc_data c in
  Stream.WriteUInt32 (m_crc c) ++
  Stream.WriteUInt32 (m_external_ram_size c) ++
  (* sram *)
  (if m_external_ram_size c >? 0 then
     match m_external_ram c with
     | Some p => Stream.WriteBytes p (m_external_ram_size c)
     | None => []
     end
   else []) ++
  (* timer *)
  Stream.WriteBool (timer (m_typeinfo c)) ++
  (if timer (m_typeinfo c) then
     Stream.WriteUInt64 (base_time r) ++
     Stream.WriteUInt16 (offset_days r) ++
     Stream.WriteUInt8 (offset_hours r) ++
     Stream.WriteUInt8 (offset_minutes r) ++
     Stream.WriteUInt8 (offset_seconds r) ++
     Stream.WriteBool (active r)
   else []) ++
  (* MBC specific stuff follows *)
  Stream.WriteUInt32 (MBC_value (m_mbc c)) ++
  (match m_mbc c with
   | MBC_NONE => MBC_NONE_SaveState c
   | MBC_MBC1 => MBC_MBC1_SaveState c
   | MBC_MBC3 => MBC_MBC3_SaveState c
   | MBC_MBC5 => MBC_MBC5_SaveState c
   | _ => []
   end) ++
  Stream.WriteUInt32 (Int.u32 (Z.lnot (MBC_value (m_mbc c)))).

(** [LoadState] reads from the stream and writes into the cartridge as
    it goes: a computation over the rest of the stream and the object. *)
Definition Loader (A : Type) : Type :=
  list Z -> Cartridge -> option (A * list Z * Cartridge).

Definition lret {A : Type} (a : A) : Loader A :=
  fun s c => Some (a, s, c).

Definition lbind {A B : Type} (m : Loader A) (k : A -> Loader B) : Loader B :=
  fun s c =>
    match m s c with
    | Some (a, s1, c1) => k a s1 c1
    | None => None
    end.

Definition read {A : Type} (r : Stream.Reader A) : Loader A :=
  fun s c =>
    match r s with
    | Some (a, s1) => Some (a, s1, c)
    | None => None
    end.

Definition this : Loader Cartridge := fun s c => Some (c, s, c).

Definition update (f : Cartridge -> Cartridge) : Loader unit :=
  fun s c => Some (tt, s, f c).

Notation "v <- m ;; k" := (lbind m (fun v => k))
  (at level 61, m at next level, right associativity).
Notation "m ;; k" := (lbind m (fun _ => k))
  (at level 61, right associativity).

Definition MBC_NONE_LoadState : Loader bool := lret true.

Definition MBC_MBC1_LoadState : Loader bool :=
  active_rom_bank <- read Stream.ReadUInt8 ;;
  active_ram_bank <- read Stream.ReadUInt8 ;;
  ram_enable <- read Stream.ReadBool ;;
  bank_mode <- read Stream.ReadUInt8 ;;
  rom_bank_number <- read Stream.ReadUInt8 ;;
  ram_bank_number <- read Stream.ReadUInt8 ;;
  update (set_mbc1 (MBC1.mk ram_enable bank_mode rom_bank_number
                            ram_bank_number active_rom_bank active_ram_bank)) ;;
  c <- this ;;
  if active_rom_bank >=? m_num_rom_banks c then lret false else lret true.

Definition MBC_MBC3_LoadState : Loader bool :=
  rom_bank_number <- read Stream.ReadUInt8 ;;
  ram_bank_number <- read Stream.ReadUInt8 ;;
  ram_rtc_enable <- read Stream.ReadBool ;;
  update (fun c =>
    let m := get_mbc3 c in
    set_mbc3 (MBC3.mk ram_rtc_enable rom_bank_number ram_bank_number
                      (MBC3.rtc_latch m) (MBC3.rtc_latch_data m)) c) ;;
  c <- this ;;
  if rom_bank_number >=? m_num_rom_banks c then lret false else lret true.

Definition MBC_MBC5_LoadState : Loader bool :=
  active_rom_bank <- read Stream.ReadUInt16 ;;
  rom_bank_number <- read Stream.ReadUInt16 ;;
  ram_bank_number <- read Stream.ReadUInt8 ;;
  ram_enable <- read Stream.ReadBool ;;
  update (set_mbc5 (MBC5.mk ram_enable rom_bank_number ram_bank_number
                            active_rom_bank)) ;;
  c <- this ;;
  if active_rom_bank >=? m_num_rom_banks c then lret false else lret true.

Definition LoadState : Loader (Result unit) :=
  crc <- read Stream.ReadUInt32 ;;
  c <- this ;;
  if negb (crc =? m_crc c) then
    lret (Failed 1
      "CRC mismatch between save state cartridge and this cartridge")
  else
  external_ram_size <- read Stream.ReadUInt32 ;;
  if negb (m_external_ram_size c =? external_ram_size) then
    lret (Failed 1 "External ram size mismatch.")
  else
  (if external_ram_size >? 0 then
     bytes <- read (Stream.ReadBytes (m_external_ram_size c)) ;;
     update (fun c =>
       match m_external_ram c with
       | Some _ => set_external_ram (Some bytes) c
       | None => c
       end)
   else lret tt) ;;
  has_timer <- read Stream.ReadBool ;;
  (if has_timer then
     base_time <- read Stream.ReadUInt64 ;;
     offset_days <- read Stream.ReadUInt16 ;;
     offset_hours <- read Stream.ReadUInt8 ;;
     offset_minutes <- read Stream.ReadUInt8 ;;
     offset_seconds <- read Stream.ReadUInt8 ;;
     active <- read Stream.ReadBool ;;
     update (set_rtc_data
       (mkRTCData base_time offset_seconds offset_minutes offset_hours
                  offset_days active))
   else lret tt) ;;
  (* MBC specific stuff follows *)
  ss_mbc <- read Stream.ReadUInt32 ;;
  if negb (ss_mbc =? MBC_value (m_mbc c)) then
    lret (Failed 1 "MBC type mismatch")
  else
  loadResult <- match m_mbc c with
                | MBC_NONE => MBC_NONE_LoadState
                | MBC_MBC1 => MBC_MBC1_LoadState
                | MBC_MBC3 => MBC_MBC3_LoadState
                | MBC_MBC5 => MBC_MBC5_LoadState
                | _ => lret false
                end ;;
  if negb loadResult then
    lret (Failed 1 "MBC state load error")
  else
  ss_mbc <- read Stream.ReadUInt32 ;;
  if negb (ss_mbc =? Int.u32 (Z.lnot (MBC_value (m_mbc c)))) then
    lret (Failed 1 "MBC trailing type mismatch")
  else lret (Done tt).

(** ** Loading a cartridge

    [ParseHeader] and [Load] are given the file as its 16 KiB pieces
    ([banks]: every piece but the last has [ROM_BANK_SIZE] bytes, and
    [Read2] of a bank fails on a piece that has not), its size and its
    CRC32, and what the host answers to
    [LoadCartridgeRAM] and [LoadCartridgeRTC] ([None]: the callback returned
    [false]). *)

(** Modelled from the spec: [CART_HEADER] and [CART_HEADER_OFFSET], declared
    in a header that is not part of these sources.  The structure is the
    0x50 bytes at file offset 0x0100; of its fields [ParseHeader] uses, apart
    from logging, the CGB flag (0x0143), the type code (0x0147), the ROM
    size code (0x0148) and the RAM size code (0x0149). *)
Record CART_HEADER : Type := mkHeader {
  cgb_flag : Z;
  type : Z;
  rom_size : Z;
  ram_size : Z
}.

Definition CART_HEADER_OFFSET : Z := 0x0100.
Definition sizeof_CART_HEADER : Z := 0x50.

(** [SeekAbsolute(CART_HEADER_OFFSET)] and [Read2(&header, sizeof(header))]
    on a file whose first piece is [bank0]; [None] when the file ends
    before the end of the header. *)
Definition read_header (bank0 : list Z) : option CART_HEADER :=
  if Z.of_nat (length bank0) <? CART_HEADER_OFFSET + sizeof_CART_HEADER
  then None
  else Some (mkHeader (Buf.get bank0 0x0143) (Buf.get bank0 0x0147)
                      (Buf.get bank0 0x0148) (Buf.get bank0 0x0149)).

Definition zero_RTCData : RTCData := mkRTCData 0 0 0 0 0 false.

Definition zero_MBCData : MBCData :=
  mkMBCData MBC1.zero MBC3.zero MBC5.zero.

Definition ParseHeader (crc : Z) (banks : list (list Z)) (stream_size : Z)
  : Result Cartridge :=
  match read_header (nth 0 banks []) with
  | None => Failed 1 "Failed to read cartridge header"
  | Some header =>
  (* get info *)
  match find (fun t => id t =? type header) CART_TYPEINFOS with
  | None => Failed 1 "Unknown cartridge type: 0x%02X"
  | Some typeinfo =>
      (* parse rom banks *)
      let num_rom_banks :=
        match find (fun e => fst e =? rom_size header) CART_ROM_BANK_COUNT with
        | Some e => snd e
        | None => 0
        end in
      if num_rom_banks =? 0 then Failed 1 "Unknown rom size code: 0x%02X"
      (* parse ram *)
      else if (ram_size header >=? Z.of_nat (length CART_EXTERNAL_RAM_SIZES))
              || ((ram_size header >? 0) && negb (ram typeinfo))
      then Failed 1 "Unknown ram size code: %02X"
      else
        let external_ram_size :=
          nth (Z.to_nat (ram_size header)) CART_EXTERNAL_RAM_SIZES 0 in
        (* choose system mode *)
        let system_mode :=
          if Int.truthy (Z.land (cgb_flag header) 0x80)
          then SYSTEM_MODE_CGB else SYSTEM_MODE_DMG in
        let extra_bytes := stream_size in
        let num_rom_banks :=
          if extra_bytes >? ROM_BANK_SIZE * num_rom_banks then
            match mbc typeinfo with
            | MBC_NONE => num_rom_banks
            | _ => Int.u32 (extra_bytes / ROM_BANK_SIZE)
            end
          else num_rom_banks in
        Done (mkCartridge (mbc typeinfo) crc typeinfo system_mode []
                num_rom_banks None external_ram_size false
                zero_RTCData zero_MBCData [])
  end
  end.

Definition set_rom_banks (v : list (list Z)) (c : Cartridge) : Cartridge :=
  mkCartridge (m_mbc c) (m_crc c) (m_typeinfo c) (m_system_mode c)
    v (m_num_rom_banks c) (m_external_ram c) (m_external_ram_size c)
    (m_external_ram_modified c) (m_rtc_data c) (m_mbc_data c) (m_callbacks c).

(** The common start of the [Init] functions: create external ram. *)
Definition create_external_ram (c : Cartridge) : Cartridge :=
  if m_external_ram_size c >? 0
  then set_external_ram
         (Some (repeat 0 (Z.to_nat (m_external_ram_size c)))) c
  else c.

Definition MBC_NONE_Init (c : Cartridge) : option Cartridge :=
  if negb (m_num_rom_banks c =? 2) then None
  else Some (MBC_NONE_Reset (create_external_ram c)).

Definition MBC_MBC1_Init (c : Cartridge) : option Cartridge :=
  Some (MBC_MBC1_Reset (create_external_ram c)).

Definition MBC_MBC3_Init (c : Cartridge) : option Cartridge :=
  Some (MBC_MBC3_Reset (create_external_ram c)).

Definition MBC_MBC5_Init (c : Cartridge) : option Cartridge :=
  Some (MBC_MBC5_Reset (create_external_ram c)).

Definition LoadRAM (host_ram : option (list Z)) (c : Cartridge) : Cartridge :=
  (* if no battery, we assume the contents is lost at power-down *)
  if (m_external_ram_size c =? 0) || negb (battery (m_typeinfo c)) then c
  else
    match host_ram with
    | Some p => set_external_ram (Some p) c
    | None =>
        set_external_ram
          (Some (repeat 0 (Z.to_nat (m_external_ram_size c)))) c
    end.

Definition LoadRTC (current_time_unix : Z) (host_rtc : option (list Z))
    (c : Cartridge) : Cartridge :=
  let c := set_rtc_data zero_RTCData c in
  if negb (timer (m_typeinfo c)) then c
  else
    (* set defaults *)
    let c := set_rtc_data (mkRTCData current_time_unix 0 0 0 0 false) c in
    (* load data *)
    match host_rtc with
    | Some buffer =>
        match (Stream.ReadUInt64 buffer) with
        | Some (base_time, s1) =>
        match Stream.ReadUInt8 s1 with
        | Some (offset_seconds, s2) =>
        match Stream.ReadUInt8 s2 with
        | Some (offset_minutes, s3) =>
        match Stream.ReadUInt8 s3 with
        | Some (offset_hours, s4) =>
        match Stream.ReadUInt16 s4 with
        | Some (offset_days, s5) =>
        match Stream.ReadBool s5 with
        | Some (active, _) =>
            set_rtc_data (mkRTCData base_time offset_seconds offset_minutes
                                    offset_hours offset_days active) c
        | None => c end
        | None => c end
        | None => c end
        | None => c end
        | None => c end
        | None => c end
    | None =>
        (* new file - save the rtc state *)
        SaveRTC c
    end.

Definition Load (crc : Z) (stream_size : Z)
    (banks : list (list Z)) (host_ram host_rtc : option (list Z))
    (current_time_unix : Z) : Result Cartridge :=
  (* parse header *)
  match ParseHeader crc banks stream_size with
  | Failed code d => Failed code d
  | Done c =>
      (* read rom banks *)
      let rom_banks := firstn (Z.to_nat (m_num_rom_banks c)) banks in
      if (Z.of_nat (length banks) <? m_num_rom_banks c)
         || negb (forallb (fun bank =>
                             Nat.eqb (length bank) (Z.to_nat ROM_BANK_SIZE))
                          rom_banks)
      then Failed 1 "Failed to read ROM bank %u"
      else
        let c := set_rom_banks rom_banks c in
        (* handle mappers *)
        let mbc_init_result :=
          match m_mbc c with
          | MBC_NONE => Done (MBC_NONE_Init c)
          | MBC_MBC1 => Done (MBC_MBC1_Init c)
          | MBC_MBC3 => Done (MBC_MBC3_Init c)
          | MBC_MBC5 => Done (MBC_MBC5_Init c)
          | _ => Failed 1 "MBC %s not implemented"
          end in
        match mbc_init_result with
        | Failed code d => Failed code d
        | Done None => Failed 1 "MBC %s failed initialization"
        | Done (Some c) =>
            (* load sram/rtc *)
            Done (LoadRTC current_time_unix host_rtc (LoadRAM host_ram c))
        end
  end.

(** ** Bus traffic

    A read leaves the cartridge as it is; a write happens at some time of
    the host clock. *)
Inductive BusOp : Type :=
| BusRead (address : Z)
| BusWrite (current_time_unix : Z) (address value : Z).

Definition bus_step (c : Cartridge) (op : BusOp) : Cartridge :=
  match op with
  | BusRead address => let _ := CPURead address c in c
  | BusWrite t address value => CPUWrite t address value c
  end.

Definition bus_run (ops : list BusOp) (c : Cartridge) : Cartridge :=
  fold_left bus_step ops c.

(** ** Cartridges of the examples *)

Definition is_done {A : Type} (r : Result A) : bool :=
  match r with
  | Done _ => true
  | Failed _ _ => false
  end.

(** The object before [Load]: what the constructor leaves. *)
Definition unloaded : Cartridge :=
  mkCartridge MBC_NONE 0 (mkTypeInfo 0x00 MBC_NONE false false false false "")
              SYSTEM_MODE_DMG [] 0 None 0 false zero_RTCData zero_MBCData [].

Definition cart (r : Result Cartridge) : Cartridge :=
  match r with
  | Done c => c
  | Failed _ _ => unloaded
  end.

Definition blank_bank : list Z := repeat 0xFF (Z.to_nat ROM_BANK_SIZE).

(** A file of [n] banks, blank except for the four header bytes that
    [ParseHeader] uses. *)
Definition rom_file (cgb_flag type rom_size ram_size : Z) (n : Z)
  : list (list Z) :=
  Buf.store (Buf.store (Buf.store (Buf.store blank_bank
    0x0143 cgb_flag) 0x0147 type) 0x0148 rom_size) 0x0149 ram_size
  :: repeat blank_bank (Z.to_nat (n - 1)).

(** An MBC1 cartridge of 64 banks (1 MiB), no RAM. *)
Definition load_mbc1 : Result Cartridge :=
  Load 0x1234ABCD (64 * ROM_BANK_SIZE)
       (rom_file 0x00 0x01 0x05 0x00 64) None None 0.

(** An MBC3 cartridge with timer and battery, 64 banks, no RAM, first
    loaded when the host clock shows 1000. *)
Definition load_mbc3 : Result Cartridge :=
  Load 0x0BADF00D (64 * ROM_BANK_SIZE)
       (rom_file 0x00 0x0F 0x05 0x00 64) None None 1000.

(** An MBC5 cartridge of 256 banks (4 MiB), no RAM. *)
Definition load_mbc5 : Result Cartridge :=
  Load 0x5EED5EED (256 * ROM_BANK_SIZE)
       (rom_file 0x80 0x19 0x07 0x00 256) None None 0.

(** ** Functions used to state the properties *)

(** The active ROM bank [MBC_MBC1_UpdateActiveBanks] computes from the
    three selector registers and the number of banks. *)
Definition mbc1_bank (bank_mode rom_bank_number ram_bank_number num : Z) : Z :=
  let rom :=
    if bank_mode =? 0
    then Int.u8 (Z.lor (Z.shiftl ram_bank_number 5)
                       (Z.land rom_bank_number 0x1F))
    else rom_bank_number in
  let rom :=
    if (rom =? 0x00) || (rom =? 0x20) || (rom =? 0x40) || (rom =? 0x60)
    then Int.u8 (rom + 1) else rom in
  if rom >=? num then Int.u8 (Int.u8 num - 1) else rom.

(** A bus operation that makes an MBC3 latch the clock: a write of 1 to
    0x6000-0x7FFF while [rtc_latch] is not 1. *)
Definition latch_edge (c : Cartridge) (op : BusOp) : bool :=
  match op with
  | BusRead _ => false
  | BusWrite _ address value =>
      ((Z.land address 0xF000 =? 0x6000) || (Z.land address 0xF000 =? 0x7000))
      && negb (MBC3.rtc_latch (get_mbc3 c) =? 0x01) && (value =? 0x01)
  end.

(** No operation of the run latches the clock. *)
Fixpoint latch_free (c : Cartridge) (ops : list BusOp) : bool :=
  match ops with
  | [] => true
  | op :: rest => negb (latch_edge c op) && latch_free (bus_step c op) rest
  end.

(** The clock reading: the seconds from the base time to now, plus the
    offset fields. *)
Definition rtc_seconds (now : Z) (r : RTCData) : Z :=
  (now - base_time r) + offset_seconds r + 60 * offset_minutes r
  + 3600 * offset_hours r + 86400 * offset_days r.

(** The invariant of an MBC1 cartridge on the bus. *)
Definition mbc1_ok (c : Cartridge) : Prop :=
  m_mbc c = MBC_MBC1 /\ 1 <= m_num_rom_banks c
  /\ Int.is_u8 (MBC1.rom_bank_number (get_mbc1 c))
  /\ 0 <= MBC1.active_rom_bank (get_mbc1 c) < m_num_rom_banks c.

(** The invariant of an MBC3 cartridge on the bus. *)
Definition mbc3_ok (c : Cartridge) : Prop :=
  m_mbc c = MBC_MBC3 /\ 1 <= m_num_rom_banks c
  /\ 0 <= MBC3.rom_bank_number (get_mbc3 c) < m_num_rom_banks c.

(** A bus operation whose data byte is a byte. *)
Definition byte_op (op : BusOp) : Prop :=
  match op with
  | BusRead _ => True
  | BusWrite _ _ value => Int.is_u8 value
  end.

(** Little-endian decoding of a list of bytes. *)
Fixpoint le_decode (l : list Z) : Z :=
  match l with
  | [] => 0
  | b :: t => b + 256 * le_decode t
  end.

(** The [n] bytes of [x] from byte [k] on. *)
Fixpoint bytes_from (x k : Z) (n : nat) : list Z :=
  match n with
  | O => []
  | S n' => Stream.byte_of x k :: bytes_from x (k + 1) n'
  end.

(** The state is one the C++ object can be in: its fields are in the
    ranges of their types, the external RAM buffer has its size, the
    controller is one of the four implemented, the active bank exists. *)
Definition state_ok (c : Cartridge) : Prop :=
  let r := m_rtc_data c in
  Int.is_u32 (m_crc c) /\ Int.is_u32 (m_external_ram_size c)
  /\ (0 < m_external_ram_size c ->
      exists p, m_external_ram c = Some p
                /\ Z.of_nat (length p) = m_external_ram_size c)
  /\ (Int.is_u64 (base_time r) /\ Int.is_u16 (offset_days r)
      /\ Int.is_u8 (offset_hours r) /\ Int.is_u8 (offset_minutes r)
      /\ Int.is_u8 (offset_seconds r))
  /\ match m_mbc c with
     | MBC_NONE => True
     | MBC_MBC1 =>
         let m := get_mbc1 c in
         Int.is_u8 (MBC1.active_rom_bank m) /\ Int.is_u8 (MBC1.active_ram_bank m)
         /\ Int.is_u8 (MBC1.bank_mode m) /\ Int.is_u8 (MBC1.rom_bank_number m)
         /\ Int.is_u8 (MBC1.ram_bank_number m)
         /\ MBC1.active_rom_bank m < m_num_rom_banks c
     | MBC_MBC3 =>
         let m := get_mbc3 c in
         Int.is_u8 (MBC3.rom_bank_number m) /\ Int.is_u8 (MBC3.ram_bank_number m)
         /\ MBC3.rom_bank_number m < m_num_rom_banks c
     | MBC_MBC5 =>
         let m := get_mbc5 c in
         Int.is_u16 (MBC5.active_rom_bank m) /\ Int.is_u16 (MBC5.rom_bank_number m)
         /\ Int.is_u8 (MBC5.ram_bank_number m)
         /\ MBC5.active_rom_bank m < m_num_rom_banks c
     | _ => False
     end.

(** [c] is an object for the same ROM as [S]. *)
Definition same_rom (S c : Cartridge) : Prop :=
  m_crc c = m_crc S /\ m_mbc c = m_mbc S
  /\ m_num_rom_banks c = m_num_rom_banks S
  /\ m_external_ram_size c = m_external_ram_size S
  /\ (0 < m_external_ram_size c -> m_external_ram c <> None).

(** What [c] becomes when it loads the state saved from [S]. *)
Definition loaded_from (S c : Cartridge) : Cartridge :=
  let c := if m_external_ram_size S >? 0
           then set_external_ram (m_external_ram S) c else c in
  let c := if timer (m_typeinfo S) then set_rtc_data (m_rtc_data S) c else c in
  match m_mbc S with
  | MBC_MBC1 => set_mbc1 (get_mbc1 S) c
  | MBC_MBC3 =>
      set_mbc3 (MBC3.mk (MBC3.ram_rtc_enable (get_mbc3 S))
                        (MBC3.rom_bank_number (get_mbc3 S))
                        (MBC3.ram_bank_number (get_mbc3 S))
                        (MBC3.rtc_latch (get_mbc3 c))
                        (MBC3.rtc_latch_data (get_mbc3 c))) c
  | MBC_MBC5 => set_mbc5 (get_mbc5 S) c
  | _ => c
  end.

(** The MBC3 cartridge after a latch at 4661 (3661 seconds after its base
    time), and after a second latch at 8322. *)
Definition latched_once : Cartridge :=
  bus_run [BusWrite 4661 0x6000 0; BusWrite 4661 0x6000 1] (cart load_mbc3).

Definition latched_twice : Cartridge :=
  bus_run [BusWrite 8322 0x6000 0; BusWrite 8322 0x6000 1] latched_once.

(** The MBC3 cartridge with RAM/RTC access enabled and the seconds
    register (0x08) selected. *)
Definition rtc_selected : Cartridge :=
  bus_run [BusWrite 1000 0x0000 0x0A; BusWrite 1000 0x4000 0x08]
          (cart load_mbc3).

(** The same after the game has written 98 to the seconds register, the
    clock file [SaveRTC] handed to the host at that write, and the
    cartridge loaded again, at 2000, with that file. *)
Definition clock_written : Cartridge := CPUWrite 1000 0xA000 98 rtc_selected.

Definition clock_file : list Z :=
  match last (m_callbacks clock_written) (SaveCartridgeRAM []) with
  | SaveCartridgeRTC data => data
  | SaveCartridgeRAM _ => []
  end.

Definition reload_mbc3 : Result Cartridge :=
  Load 0x0BADF00D (64 * ROM_BANK_SIZE)
       (rom_file 0x00 0x0F 0x05 0x00 64) None (Some clock_file) 2000.

(** ** Functions used to state the properties of the bus *)

(** What [Load] fixes for the life of the object: the ROM and what the
    header said. *)
Record Identity : Type := mkIdentity {
  id_mbc : MBC;
  id_crc : Z;
  id_typeinfo : CartridgeTypeInfo;
  id_system_mode : SYSTEM_MODE;
  id_rom_banks : list (list Z);
  id_num_rom_banks : Z;
  id_external_ram_size : Z;
  id_external_ram_length : option nat
}.

Definition identity (c : Cartridge) : Identity :=
  mkIdentity (m_mbc c) (m_crc c) (m_typeinfo c) (m_system_mode c)
             (m_rom_banks c) (m_num_rom_banks c) (m_external_ram_size c)
             (option_map (@length Z) (m_external_ram c)).

(** Whether the bus gets through to the external RAM at 0xA000-0xBFFF:
    the enable flag of the controller.  A cartridge without controller
    has no flag, [MBC_NONE_Read] and [MBC_NONE_Write] always reach its
    RAM; for the controllers that are not implemented [CPURead] returns 0
    and [CPUWrite] does nothing. *)
Definition ram_enabled (c : Cartridge) : bool :=
  match m_mbc c with
  | MBC_NONE => true
  | MBC_MBC1 => MBC1.ram_enable (get_mbc1 c)
  | MBC_MBC3 => MBC3.ram_rtc_enable (get_mbc3 c)
  | MBC_MBC5 => MBC5.ram_enable (get_mbc5 c)
  | _ => false
  end.

(** The bank of external RAM the bus reaches at 0xA000-0xBFFF, if it
    reaches one. *)
Definition ram_bank (c : Cartridge) : option Z :=
  match m_mbc c with
  | MBC_NONE => Some 0
  | MBC_MBC1 =>
      if MBC1.ram_enable (get_mbc1 c)
      then Some (MBC1.active_ram_bank (get_mbc1 c)) else None
  | MBC_MBC3 =>
      if MBC3.ram_rtc_enable (get_mbc3 c)
         && (MBC3.ram_bank_number (get_mbc3 c) <=? 0x07)
      then Some (MBC3.ram_bank_number (get_mbc3 c)) else None
  | MBC_MBC5 =>
      if MBC5.ram_enable (get_mbc5 c)
      then Some (MBC5.ram_bank_number (get_mbc5 c)) else None
  | _ => None
  end.

(** The ROM bank the bus reaches at 0x4000-0x7FFF with one of the four
    controllers that [CPURead] serves: the active bank of the controller,
    bank 1 without one.  The other controller types have no read routine,
    and the value given for them stands for nothing in the code. *)
Definition switched_bank (c : Cartridge) : Z :=
  match m_mbc c with
  | MBC_MBC1 => MBC1.active_rom_bank (get_mbc1 c)
  | MBC_MBC3 => MBC3.rom_bank_number (get_mbc3 c)
  | MBC_MBC5 => MBC5.active_rom_bank (get_mbc5 c)
  | _ => 1
  end.

(** The invariant of an MBC5 cartridge whose number of banks is not a
    multiple of 256. *)
Definition mbc5_ok (c : Cartridge) : Prop :=
  m_mbc c = MBC_MBC5 /\ 1 <= m_num_rom_banks c
  /\ m_num_rom_banks c mod 256 <> 0
  /\ 0 <= MBC5.rom_bank_number (get_mbc5 c)
  /\ 0 <= MBC5.active_rom_bank (get_mbc5 c) < m_num_rom_banks c.

(** What [SaveRAM] hands to the host. *)
Definition ram_image (c : Cartridge) : list Z :=
  match m_external_ram c with
  | Some p => firstn (Z.to_nat (m_external_ram_size c)) p
  | None => []
  end.

(** The bytes the last call of the host gave to [SaveCartridgeRTC]. *)
Definition saved_rtc (c : Cartridge) : list Z :=
  match last (m_callbacks c) (SaveCartridgeRAM []) with
  | SaveCartridgeRTC data => data
  | SaveCartridgeRAM _ => []
  end.

(** The offset field behind the clock register [sel] (0x08 seconds, 0x09
    minutes, 0x0A hours), and the seconds one unit of it is worth. *)
Definition rtc_offset (sel : Z) (r : RTCData) : Z :=
  if sel =? 0x08 then offset_seconds r
  else if sel =? 0x09 then offset_minutes r
  else offset_hours r.

Definition rtc_unit (sel : Z) : Z :=
  if sel =? 0x08 then 1 else if sel =? 0x09 then 60 else 3600.

(** A computation of [LoadState] that keeps a relation between the object
    before and after. *)
Definition keeps {A : Type} (R : Cartridge -> Cartridge -> Prop)
    (m : Loader A) : Prop :=
  forall s c a s' c', R c c -> m s c = Some (a, s', c') -> R c c'.

(** What [LoadState] never touches. *)
Definition load_state_frame (c c' : Cartridge) : Prop :=
  m_mbc c' = m_mbc c /\ m_crc c' = m_crc c /\ m_typeinfo c' = m_typeinfo c
  /\ m_system_mode c' = m_system_mode c /\ m_rom_banks c' = m_rom_banks c
  /\ m_num_rom_banks c' = m_num_rom_banks c
  /\ m_external_ram_size c' = m_external_ram_size c
  /\ m_external_ram_modified c' = m_external_ram_modified c
  /\ m_callbacks c' = m_callbacks c.

(** ** Cartridges with RAM *)

(** An MBC1 cartridge of 64 banks with 8 KiB of RAM and a battery. *)
Definition load_mbc1_ram : Result Cartridge :=
  Load 0x0DDBA11 (64 * ROM_BANK_SIZE)
       (rom_file 0x00 0x03 0x05 0x02 64) None None 0.

(** The same with its RAM enabled. *)
Definition mbc1_ram_open : Cartridge :=
  CPUWrite 0 0x0000 0x0A (cart load_mbc1_ram).

(** A cartridge without controller: 2 banks, 8 KiB of RAM, battery. *)
Definition load_rom_ram : Result Cartridge :=
  Load 0x0DDBA12 (2 * ROM_BANK_SIZE)
       (rom_file 0x00 0x09 0x00 0x02 2) None None 0.

(** An MBC5 cartridge of 64 banks with 32 KiB of RAM and a battery. *)
Definition load_mbc5_ram : Result Cartridge :=
  Load 0x0DDBA15 (64 * ROM_BANK_SIZE)
       (rom_file 0x00 0x1B 0x05 0x03 64) None None 0.

End Cartridge.

(* ================================================================== *)
(** * Showing a frame ([main.cpp]) *)

Module Main.

(** ** [State::PresentDisplayBuffer]

    The callback that shows a frame: it copies the frame buffer [pixels],
    whose lines are [row_stride] bytes apart, into the pixels of
    [write_surface], whose lines are [pitch] bytes apart.  The surface is
    its bytes; locking it, the scaled blit of the offscreen surface and
    the update of the window are SDL's and are not part of the copy. *)

(** The loop over [x]: [n] pixels from [inLine] to [outLine]. *)
Fixpoint copy_line (n : nat) (pBytePixels : list Z) (inLine outLine : Z)
    (surface : list Z) : list Z :=
  match n with
  | O => surface
  | S n' =>
      let surface := Buf.store surface outLine
                               (Buf.get pBytePixels (inLine + 2)) in
      let surface := Buf.store surface (outLine + 1)
                               (Buf.get pBytePixels (inLine + 1)) in
      let surface := Buf.store surface (outLine + 2)
                               (Buf.get pBytePixels inLine) in
      copy_line n' pBytePixels (inLine + 4) (outLine + 4) surface
  end.

(** The loop over [y]: [n] lines from line [y] on. *)
Fixpoint copy_lines (n : nat) (y : Z) (pBytePixels : list Z)
    (row_stride pitch : Z) (surface : list Z) : list Z :=
  match n with
  | O => surface
  | S n' =>
      let inLine := Int.u32 (y * row_stride) in
      let outLine := Int.u32 (y * Int.u32 pitch) in
      copy_lines n' (y + 1) pBytePixels row_stride pitch
        (copy_line (Z.to_nat Display.SCREEN_WIDTH) pBytePixels inLine outLine
                   surface)
  end.

Definition PresentDisplayBuffer (pixels : list Z) (row_stride : Z)
    (pitch : Z) (surface : list Z) : list Z :=
  copy_lines (Z.to_nat Display.SCREEN_HEIGHT) 0 pixels row_stride pitch
             surface.

End Main.

(* ================================================================== *)
(** * Properties of the display *)

Section DisplayFacts.

Import Display.

(** ** Frame timing

    [Step] is compared with [timing_step], call by call: what the two
    helpers and the renderer do to the three timing fields, and how many
    VBlank requests they make. *)

Lemma SetMode_timing (mode : Z) (d : Display) :
  timing (state_after (SetMode mode) d)
  = mkTiming mode (m_modeClocksRemaining d) (m_currentScanLine d)
  /\ count_requests CPU_INT_VBLANK (requests_of (SetMode mode) d)
     = (if mode =? 1 then 1%nat else 0%nat).
Proof.
  unfold SetMode, state_after, requests_of, bind, modify, get, when,
    CPUInterruptRequest, ret.
  cbn [fst snd set_mode set_registers m_registers m_mode STAT set_STAT].
  destruct (Z.eqb_spec mode 0) as [-> | N0];
    [ | destruct (Z.eqb_spec mode 1) as [-> | N1];
        [ | destruct (Z.eqb_spec mode 2) as [-> | N2] ] ].
  all: match goal with
       | |- context [ Int.truthy ?e ] => destruct (Int.truthy e)
       | _ => idtac
       end; cbn; split; reflexivity.
Qed.

Lemma SetScanline_timing (l : Z) (d : Display) :
  timing (state_after (SetScanline l) d)
  = mkTiming (m_mode d) (m_modeClocksRemaining d) l
  /\ count_requests CPU_INT_VBLANK (requests_of (SetScanline l) d) = 0%nat.
Proof.
  unfold SetScanline, state_after, requests_of, bind, modify, get, when,
    CPUInterruptRequest, ret.
  cbn [fst snd set_currentScanLine set_registers m_registers STAT set_STAT set_LY LY LYC].
  match goal with
  | |- context [ if ?b then CPUInterruptRequest _ else _ ] => destruct b
  | |- context [ if ?b then (fun d => (tt, d, [?i])) else _ ] => destruct b
  end; cbn; split; reflexivity.
Qed.

Lemma RenderScanline_timing (stack : list OAM_ENTRY) (d : Display) :
  timing (RenderScanline stack d) = timing d.
Proof.
  unfold RenderScanline.
  cbn [m_registers set_frameBuffer].
  destruct (negb _); [ reflexivity | ].
  destruct (read_sprites _ _ _ _ _). reflexivity.
Qed.

(** Running a sequence of member calls. *)

Lemma bind_run {A B : Type} (m : M A) (k : A -> M B) (d : Display) :
  bind m k d =
  (result_of (k (result_of m d)) (state_after m d),
   state_after (k (result_of m d)) (state_after m d),
   requests_of m d ++ requests_of (k (result_of m d)) (state_after m d)).
Proof.
  unfold bind, result_of, state_after, requests_of.
  destruct (m d) as [[a d1] l1]. cbn.
  destruct (k a d1) as [[b d2] l2]. reflexivity.
Qed.

Lemma state_after_bind {A B : Type} (m : M A) (k : A -> M B) (d : Display) :
  state_after (bind m k) d = state_after (k (result_of m d)) (state_after m d).
Proof. unfold state_after at 1. rewrite bind_run. reflexivity. Qed.

Lemma result_of_bind {A B : Type} (m : M A) (k : A -> M B) (d : Display) :
  result_of (bind m k) d = result_of (k (result_of m d)) (state_after m d).
Proof. unfold result_of at 1. rewrite bind_run. reflexivity. Qed.

Lemma requests_of_bind {A B : Type} (m : M A) (k : A -> M B) (d : Display) :
  requests_of (bind m k) d
  = requests_of m d ++ requests_of (k (result_of m d)) (state_after m d).
Proof. unfold requests_of at 1. rewrite bind_run. reflexivity. Qed.

Lemma count_requests_app (i : CPU_INT) (l1 l2 : list CPU_INT) :
  count_requests i (l1 ++ l2) = (count_requests i l1 + count_requests i l2)%nat.
Proof. unfold count_requests. rewrite filter_app, length_app. reflexivity. Qed.

Lemma run_modify (f : Display -> Display) (d : Display) :
  state_after (modify f) d = f d /\ requests_of (modify f) d = [].
Proof. split; reflexivity. Qed.

Lemma run_ret {A : Type} (a : A) (d : Display) :
  state_after (ret a) d = d /\ result_of (ret a) d = a
  /\ requests_of (ret a) d = [].
Proof. repeat split. Qed.

Lemma run_get (d : Display) :
  state_after get d = d /\ result_of get d = d /\ requests_of get d = [].
Proof. repeat split. Qed.

Lemma timing_fields (d : Display) (m c l : Z) :
  timing d = mkTiming m c l ->
  m_mode d = m /\ m_modeClocksRemaining d = c /\ m_currentScanLine d = l.
Proof. unfold timing. intros H. injection H as -> -> ->. repeat split. Qed.

Ltac step_bind :=
  repeat (rewrite ?state_after_bind, ?result_of_bind, ?requests_of_bind,
            ?count_requests_app,
            ?(fun f d => proj1 (run_modify f d)),
            ?(fun f d => proj2 (run_modify f d)),
            ?(fun d => proj1 (run_get d)),
            ?(fun d => proj1 (proj2 (run_get d))),
            ?(fun d => proj2 (proj2 (run_get d))),
            ?(fun A (a : A) d => proj1 (run_ret a d)),
            ?(fun A (a : A) d => proj1 (proj2 (run_ret a d))),
            ?(fun A (a : A) d => proj2 (proj2 (run_ret a d)))).

Ltac timing_of_calls :=
  repeat match goal with
    | |- context [ state_after (SetMode ?m) ?d ] =>
        let H := fresh in let V := fresh in
        destruct (SetMode_timing m d) as [H V];
        apply timing_fields in H; destruct H as (? & ? & ?);
        rewrite ?V; clear V;
        generalize dependent (state_after (SetMode m) d); intros
    | |- context [ state_after (SetScanline ?l) ?d ] =>
        let H := fresh in let V := fresh in
        destruct (SetScanline_timing l d) as [H V];
        apply timing_fields in H; destruct H as (? & ? & ?);
        rewrite ?V; clear V;
        generalize dependent (state_after (SetScanline l) d); intros
    end.

(** One call of [Step] is one step of the timing skeleton. *)
Lemma Step_timing (sys : System) (stack : list OAM_ENTRY) (d : Display) :
  timing_step (timing d) =
  (timing (state_after (Step sys stack) d),
   result_of (Step sys stack) d,
   count_requests CPU_INT_VBLANK (requests_of (Step sys stack) d)).
Proof.
  unfold timing_step, Step. step_bind.
  cbn [timing t_mode t_clocks t_line app].
  destruct (m_mode d =? 2) eqn:E2;
    [ | destruct (m_mode d =? 3) eqn:E3;
        [ | destruct (m_mode d =? 0) eqn:E0;
            [ | destruct (m_mode d =? 1) eqn:E1 ] ] ].
  5: reflexivity.
  all: unfold dec_modeClocksRemaining; step_bind.
  all: cbn [set_modeClocksRemaining m_modeClocksRemaining m_mode m_currentScanLine].
  all: destruct (Int.u32 (m_modeClocksRemaining d - 1) =? 0) eqn:Ec; step_bind.
  all: repeat match goal with
         | H : (_ =? _) = true |- _ => apply Z.eqb_eq in H
         end.
  all: timing_of_calls;
       cbn [set_modeClocksRemaining set_vramCopy set_oamCopy m_mode
            m_modeClocksRemaining m_currentScanLine] in *.
  all: rewrite ?RenderScanline_timing.
  all: try (unfold timing; cbn; congruence).
  all: match goal with
       | H : m_currentScanLine ?d0 = _ |- context [ m_currentScanLine ?d0 =? ?k ] =>
           rewrite H;
           destruct (Int.u32 (m_currentScanLine d + 1) =? k)
       end.
  all: step_bind; timing_of_calls;
       cbn [set_modeClocksRemaining set_vramCopy set_oamCopy m_mode
            m_modeClocksRemaining m_currentScanLine] in *.
  all: try (unfold timing; cbn; congruence).

Qed.

(** So is a run of [n] calls. *)
Lemma run_timing (n : nat) (env : nat -> System * list OAM_ENTRY) :
  forall (k : nat) (d : Display),
    map abstract_event (fst (run n env k d)) = fst (timing_run n (timing d))
    /\ timing (snd (run n env k d)) = snd (timing_run n (timing d)).
Proof.
  induction n as [ | n IH ]; intros k d; [ split; reflexivity | ].
  cbn [run timing_run].
  rewrite (Step_timing (fst (env k)) (snd (env k)) d).
  unfold state_after, result_of, requests_of.
  destruct (Step (fst (env k)) (snd (env k)) d) as [[push d1] irqs].
  cbn [fst snd].
  specialize (IH (S k) d1).
  destruct (run n env (S k) d1) as [evs d2].
  destruct (timing_run n (timing d1)) as [tevs t2].
  cbn [fst snd] in *. destruct IH as [IH1 IH2].
  split; [ | exact IH2 ].
  cbn [map]. rewrite IH1. reflexivity.
Qed.

Lemma Reset_timing (d0 : Display) :
  timing (state_after Reset d0) = mkTiming 2 80 0
  /\ requests_of Reset d0 = [].
Proof.
  unfold Reset. step_bind.
  split.
  - timing_of_calls. unfold timing. cbn. congruence.
  - cbn [app].
    unfold SetMode. step_bind. cbn. reflexivity.
Qed.

(** One frame of the timing skeleton, evaluated. *)
Lemma timing_frame :
  let tr := fst (timing_run (Z.to_nat FRAME_CLOCKS) (mkTiming 2 80 0)) in
  Z.of_nat (length tr) = 70224
  /\ calls_from 1 (map (fun e : bool * nat * Z =>
                          if fst (fst e) then 1%nat else 0%nat) tr) = [65664]
  /\ calls_from 1 (map (fun e : bool * nat * Z => snd (fst e)) tr) = [65664]
  /\ option_map (@snd (bool * nat) Z) (nth_error tr (Z.to_nat (65663 - 1)))
     = Some 143
  /\ option_map (@snd (bool * nat) Z) (nth_error tr (Z.to_nat (65664 - 1)))
     = Some 144.
Proof. vm_compute. repeat split. Qed.

(** C1.  From the state [Reset] leaves (mode 2, 80 clocks remaining,
    scanline 0), whatever the object held before and whatever the system
    memory holds at each call: a run of 70,224 = 456 * 154 calls of [Step]
    returns [pushFrameBuffer = true] at exactly one call, the 65,664th; the
    VBlank interrupt is requested exactly once in the run, at that same
    call; the scanline counter is 143 after call 65,663 and 144 after call
    65,664. *)
Theorem frame_timing (d0 : Display) (env : nat -> System * list OAM_ENTRY) :
  let d := state_after Reset d0 in
  let tr := fst (run (Z.to_nat FRAME_CLOCKS) env 0 d) in
  FRAME_CLOCKS = 70224
  /\ m_mode d = 2 /\ m_modeClocksRemaining d = 80 /\ m_currentScanLine d = 0
  /\ Z.of_nat (length tr) = 70224
  /\ frame_ready_calls tr = [65664]
  /\ vblank_calls tr = [65664]
  /\ scanline_after_call tr 65663 = Some 143
  /\ scanline_after_call tr 65664 = Some 144.
Proof.
  intros d tr.
  destruct (Reset_timing d0) as [Ht _]. fold d in Ht.
  destruct (run_timing (Z.to_nat FRAME_CLOCKS) env 0 d) as [Hr _].
  fold tr in Hr. rewrite Ht in Hr.
  destruct timing_frame as (Hlen & Hp & Hv & Hs1 & Hs2).
  rewrite <- Hr in Hlen, Hp, Hv, Hs1, Hs2.
  rewrite length_map in Hlen. rewrite map_map in Hp, Hv.
  rewrite nth_error_map in Hs1, Hs2.
  apply timing_fields in Ht. destruct Ht as (Hm & Hc & Hl).
  split; [ reflexivity | ].
  split; [ exact Hm | ]. split; [ exact Hc | ]. split; [ exact Hl | ].
  split; [ exact Hlen | ]. split; [ exact Hp | ]. split; [ exact Hv | ].
  unfold scanline_after_call.
  split.
  - destruct (nth_error tr (Z.to_nat (65663 - 1))); exact Hs1.
  - destruct (nth_error tr (Z.to_nat (65664 - 1))); exact Hs2.
Qed.

(** ** The coincidence flag *)

(** C5.  [SetScanline] gives STAT bit 2 the wrong value when the bit was
    clear before.  From reset, with no register ever written: after the 456
    calls of [Step] of scanline 0, LY is 1 and LYC is 0, yet bit 2 is set.
    And on a display whose STAT has bit 2 clear and bit 6 set, with
    LYC = 5: moving to line 5 makes LY equal to LYC, yet bit 2 stays clear
    and no interrupt is requested; moving on to line 6 makes LY differ from
    LYC, yet bit 2 is set and LCDSTAT is requested. *)
Theorem SetScanline_coincidence_inverted
    (env : nat -> System * list OAM_ENTRY) :
  let d1 := snd (run (Z.to_nat 456) env 0 power_on) in
  let d := lyc_display in
  let d5 := state_after (SetScanline 5) d in
  let d6 := state_after (SetScanline 6) d5 in
  (m_currentScanLine d1 = 1
   /\ LY (m_registers d1) = 1
   /\ LYC (m_registers d1) = 0
   /\ Z.testbit (STAT (m_registers d1)) 2 = true)
  /\ (Z.testbit (STAT (m_registers d)) 2 = false
      /\ Z.testbit (STAT (m_registers d)) 6 = true
      /\ LYC (m_registers d) = 5)
  /\ (LY (m_registers d5) = LYC (m_registers d5)
      /\ Z.testbit (STAT (m_registers d5)) 2 = false
      /\ requests_of (SetScanline 5) d = [])
  /\ (LY (m_registers d6) <> LYC (m_registers d6)
      /\ Z.testbit (STAT (m_registers d6)) 2 = true
      /\ requests_of (SetScanline 6) d5 = [CPU_INT_LCDSTAT]).
Proof. vm_compute. repeat split. discriminate. Qed.

(** Testing one bit with a mask. *)
Lemma land_bit (a n : Z) :
  0 <= n -> Z.land a (Z.shiftl 1 n) = if Z.testbit a n then Z.shiftl 1 n else 0.
Proof.
  intros Hn. apply Z.bits_inj'. intros k Hk.
  rewrite Z.land_spec, Z.shiftl_spec by lia.
  destruct (Z.eq_dec k n) as [-> | Ne].
  - replace (n - n) with 0 by lia. cbn [Z.testbit Z.odd andb].
    rewrite andb_true_r.
    destruct (Z.testbit a n); [ | apply eq_sym, Z.bits_0 ].
    rewrite Z.shiftl_spec by lia. replace (n - n) with 0 by lia. reflexivity.
  - replace (Z.testbit 1 (k - n)) with false.
    + rewrite andb_false_r.
      destruct (Z.testbit a n); [ | apply eq_sym, Z.bits_0 ].
      rewrite Z.shiftl_spec by lia.
      destruct (Z.ltb_spec (k - n) 0).
      * symmetry. apply Z.testbit_neg_r. lia.
      * symmetry. change 1 with (2 ^ 0). apply Z.pow2_bits_false. lia.
    + destruct (Z.ltb_spec (k - n) 0).
      * symmetry. apply Z.testbit_neg_r. lia.
      * symmetry. change 1 with (2 ^ 0). apply Z.pow2_bits_false. lia.
Qed.

Lemma truthy_bit (a n : Z) :
  0 <= n -> Int.truthy (Z.land a (Z.shiftl 1 n)) = Z.testbit a n.
Proof.
  intros Hn. rewrite land_bit by lia. unfold Int.truthy.
  destruct (Z.testbit a n); [ | reflexivity ].
  rewrite Z.shiftl_1_l.
  destruct (Z.eqb_spec (2 ^ n) 0) as [E | _]; [ | reflexivity ].
  pose proof (Z.pow_pos_nonneg 2 n ltac:(lia) Hn). lia.
Qed.

Lemma run_when_request (b : bool) (i : CPU_INT) (d : Display) :
  state_after (when b (CPUInterruptRequest i)) d = d
  /\ requests_of (when b (CPUInterruptRequest i)) d = (if b then [i] else []).
Proof. destruct b; split; reflexivity. Qed.

(** What [SetScanline] does to bit 2 of STAT, whatever the registers. *)
Lemma SetScanline_coincidence_flag (scanline : Z) (d : Display) :
  let r := m_registers d in
  let r' := m_registers (state_after (SetScanline scanline) d) in
  LY r' = Z.land scanline 255
  /\ LYC r' = LYC r
  /\ Z.testbit (STAT r') 2
     = (if Z.testbit (STAT r) 2 then LYC r =? LY r' else negb (LYC r =? LY r'))
  /\ count_requests CPU_INT_LCDSTAT (requests_of (SetScanline scanline) d)
     = (if Z.testbit (STAT r') 2 && Z.testbit (STAT r') 6 then 1%nat else 0%nat).
Proof.
  unfold SetScanline. step_bind.
  cbn [set_currentScanLine set_registers m_registers set_LY set_STAT LY LYC
       STAT app].
  set (S := STAT (m_registers d)).
  set (ly := Z.land scanline 255).
  set (lyc := LYC (m_registers d)).
  rewrite (truthy_bit S 2) by lia.
  set (f := if Z.testbit S 2
            then (if lyc =? ly then 1 else 0)
            else (if negb (lyc =? ly) then 1 else 0)).
  set (S' := Int.u8 (Z.lor (Z.land S (Z.lnot (Z.shiftl 1 2))) (Z.shiftl f 2))).
  assert (F : f = 0 \/ f = 1).
  { subst f. destruct (Z.testbit S 2), (lyc =? ly); cbn; auto. }
  assert (B2 : Z.testbit S' 2 = Int.truthy f).
  { subst S'. unfold Int.u8. change 256 with (2 ^ 8).
    rewrite Z.mod_pow2_bits_low by lia.
    rewrite Z.lor_spec, Z.land_spec, Z.shiftl_spec by lia.
    change (Z.testbit (Z.lnot (Z.shiftl 1 2)) 2) with false.
    rewrite andb_false_r. cbn [orb Z.sub Z.add Z.opp Z.pos_sub].
    destruct F as [-> | ->]; reflexivity. }
  rewrite (proj1 (run_when_request _ _ _)), (proj2 (run_when_request _ _ _)).
  cbn [set_currentScanLine set_registers m_registers set_LY set_STAT LY LYC
       STAT app].
  split; [ reflexivity | ]. split; [ reflexivity | ].
  split.
  - rewrite B2. subst f.
    destruct (Z.testbit S 2), (lyc =? ly); reflexivity.
  - rewrite (truthy_bit S' 6) by lia. rewrite B2.
    destruct (Int.truthy f && Z.testbit S' 6); reflexivity.
Qed.

(** ** Sprites on a scanline *)

(** C6.  [RenderScanline] on line 0 with eleven sprites side by side in X
    order: the count kept after the sort is 11, not 10, and the eleventh
    sprite in X order (X = 88, pixels 80..87) gives the pixels it covers
    their colour; pixel 88, which no sprite covers, stays white. *)
Theorem eleventh_sprite_is_drawn (stack : list OAM_ENTRY) :
  let d := sprite_display in
  let sprites := read_sprites true 0 8 (m_oamCopy d) stack in
  let fb := m_frameBuffer (RenderScanline stack d) in
  m_currentScanLine d = 0
  /\ snd sprites = 11
  /\ map x (firstn 11 (fst sprites)) = [8; 16; 24; 32; 40; 48; 56; 64; 72; 80; 88]
  /\ GetPixel 72 0 fb = 0xFF555555
  /\ GetPixel 80 0 fb = 0xFF555555
  /\ GetPixel 87 0 fb = 0xFF555555
  /\ GetPixel 88 0 fb = 0xFFFFFFFF.
Proof. vm_compute. repeat split. Qed.


(** With fewer than ten sprites on the line the same count makes the pixel
    loop read entries of the array that were never written: what the
    stack held decides the picture. *)
Lemma stale_stack_entry_is_drawn :
  let d := one_sprite_display in
  snd (read_sprites true 0 8 (m_oamCopy d) stale_stack) = 10
  /\ GetPixel 100 0 (m_frameBuffer (RenderScanline stale_stack d)) = 0xFF555555
  /\ GetPixel 100 0
       (m_frameBuffer (RenderScanline (repeat zero_OAM_ENTRY 40) d))
     = 0xFFFFFFFF.
Proof. vm_compute. repeat split. Qed.

(** The count kept after the sort, in general. *)
Lemma read_sprites_count (LINE SPRITE_HEIGHT : Z) (oam stack : list OAM_ENTRY) :
  let n := Z.of_nat (length (cull_sprites LINE SPRITE_HEIGHT (firstn 40 oam))) in
  snd (read_sprites true LINE SPRITE_HEIGHT oam stack)
  = (if n >? 0 then Z.max n 10 else 0).
Proof.
  unfold read_sprites. cbv zeta.
  destruct (Z.gtb_spec
              (Z.of_nat (length (cull_sprites LINE SPRITE_HEIGHT (firstn 40 oam))))
              0) as [Pos | Zero]; cbn [snd]; [ reflexivity | lia ].
Qed.

(** The sort puts the entries in ascending order of X and keeps them all. *)
Lemma insert_by_x_sorted (a : OAM_ENTRY) (l : list OAM_ENTRY) :
  Sorted (fun p q => x p <= x q) l ->
  Sorted (fun p q => x p <= x q) (insert_by_x a l).
Proof.
  induction l as [ | b t IH ]; intros Hs; cbn [insert_by_x].
  - constructor; constructor.
  - destruct (Z.ltb_spec (x b) (x a)) as [Lt | Ge].
    + inversion Hs as [ | ? ? Ht Hb ]; subst.
      constructor; [ apply IH; exact Ht | ].
      destruct t as [ | c t ]; cbn [insert_by_x].
      * constructor. lia.
      * destruct (Z.ltb_spec (x c) (x a)); constructor;
          [ inversion Hb; assumption | lia ].
    + constructor; [ exact Hs | constructor; lia ].
Qed.

Lemma Y_qsort_sorted (l : list OAM_ENTRY) :
  Sorted (fun p q => x p <= x q) (Y_qsort l).
Proof.
  induction l as [ | a t IH ]; cbn [Y_qsort];
    [ constructor | apply insert_by_x_sorted; exact IH ].
Qed.

Lemma insert_by_x_perm (a : OAM_ENTRY) (l : list OAM_ENTRY) :
  Permutation (a :: l) (insert_by_x a l).
Proof.
  induction l as [ | b t IH ]; cbn [insert_by_x]; [ apply Permutation_refl | ].
  destruct (x b <? x a); [ | apply Permutation_refl ].
  apply perm_trans with (b :: a :: t); [ apply perm_swap | ].
  apply perm_skip. exact IH.
Qed.

Lemma Y_qsort_perm (l : list OAM_ENTRY) : Permutation l (Y_qsort l).
Proof.
  induction l as [ | a t IH ]; cbn [Y_qsort]; [ apply perm_nil | ].
  apply perm_trans with (a :: Y_qsort t);
    [ apply perm_skip; exact IH | apply insert_by_x_perm ].
Qed.

(** ** Buffers *)

Lemma store_nat_length (l : list Z) :
  forall (i : nat) (v : Z), length (Buf.store_nat l i v) = length l.
Proof.
  induction l as [ | h t IH ]; intros i v; [ reflexivity | ].
  destruct i as [ | j ]; cbn [Buf.store_nat length]; [ reflexivity | ].
  rewrite IH. reflexivity.
Qed.

Lemma store_nat_same (l : list Z) :
  forall (i : nat) (v : Z),
    (i < length l)%nat -> nth i (Buf.store_nat l i v) 0 = v.
Proof.
  induction l as [ | h t IH ]; intros i v Hi; cbn [length] in Hi; [ lia | ].
  destruct i as [ | j ]; cbn [Buf.store_nat nth]; [ reflexivity | ].
  apply IH. lia.
Qed.

Lemma store_nat_other (l : list Z) :
  forall (i j : nat) (v : Z),
    i <> j -> nth j (Buf.store_nat l i v) 0 = nth j l 0.
Proof.
  induction l as [ | h t IH ]; intros i j v Hij.
  - destruct i; reflexivity.
  - destruct i as [ | i' ], j as [ | j' ]; cbn [Buf.store_nat nth];
      try reflexivity; try lia.
    apply IH. lia.
Qed.

Lemma store_length (l : list Z) (i v : Z) :
  length (Buf.store l i v) = length l.
Proof.
  unfold Buf.store. destruct (i <? 0); [ reflexivity | ].
  apply store_nat_length.
Qed.

Lemma get_store_same (l : list Z) (i v : Z) :
  0 <= i < Z.of_nat (length l) -> Buf.get (Buf.store l i v) i = v.
Proof.
  intros Hi. unfold Buf.get, Buf.store.
  replace (i <? 0) with false by (symmetry; apply Z.ltb_ge; lia).
  apply store_nat_same. lia.
Qed.

Lemma get_store_other (l : list Z) (i j v : Z) :
  0 <= j -> i <> j -> Buf.get (Buf.store l i v) j = Buf.get l j.
Proof.
  intros Hj Hij. unfold Buf.get, Buf.store.
  destruct (Z.ltb_spec i 0); [ reflexivity | ].
  apply store_nat_other. lia.
Qed.

Lemma memset_nat_length (l : list Z) :
  forall (off len : nat) (v : Z),
    length (Buf.memset_nat l off len v) = length l.
Proof.
  induction l as [ | h t IH ]; intros off len v; [ reflexivity | ].
  cbn [Buf.memset_nat].
  destruct off as [ | o ]; [ destruct len as [ | n ] | ];
    cbn [length]; rewrite ?IH; reflexivity.
Qed.

Lemma memset_nat_nth (l : list Z) :
  forall (off len j : nat) (v : Z),
    nth j (Buf.memset_nat l off len v) 0
    = if (off <=? j)%nat && (j <? off + len)%nat && (j <? length l)%nat
      then v else nth j l 0.
Proof.
  induction l as [ | h t IH ]; intros off len j v.
  - cbn [Buf.memset_nat length]. rewrite andb_false_r. reflexivity.
  - cbn [Buf.memset_nat].
    destruct off as [ | o ].
    + destruct len as [ | n ].
      * replace (j <? 0 + 0)%nat with false
          by (symmetry; apply Nat.ltb_ge; lia).
        rewrite andb_false_r. reflexivity.
      * destruct j as [ | j' ]; [ reflexivity | ].
        cbn [nth length]. rewrite IH.
        cbn [Nat.leb Nat.add].
        change (S j' <? S n)%nat with (j' <? n)%nat.
        change (S j' <? S (length t))%nat with (j' <? length t)%nat.
        reflexivity.
    + destruct j as [ | j' ]; [ reflexivity | ].
      cbn [nth length]. rewrite IH.
      change (S o <=? S j')%nat with (o <=? j')%nat.
      change (S j' <? S o + len)%nat with (j' <? o + len)%nat.
      change (S j' <? S (length t))%nat with (j' <? length t)%nat.
      reflexivity.
Qed.

Lemma memset_length (l : list Z) (off len v : Z) :
  length (Buf.memset l off len v) = length l.
Proof. apply memset_nat_length. Qed.

Lemma get_memset_in (l : list Z) (off len v j : Z) :
  0 <= off -> off <= j < off + len -> j < Z.of_nat (length l) ->
  Buf.get (Buf.memset l off len v) j = v.
Proof.
  intros Ho Hj Hl. unfold Buf.get, Buf.memset. rewrite memset_nat_nth.
  replace (Z.to_nat off <=? Z.to_nat j)%nat with true
    by (symmetry; apply Nat.leb_le; lia).
  replace (Z.to_nat j <? Z.to_nat off + Z.to_nat len)%nat with true
    by (symmetry; apply Nat.ltb_lt; lia).
  replace (Z.to_nat j <? length l)%nat with true
    by (symmetry; apply Nat.ltb_lt; lia).
  reflexivity.
Qed.

Lemma get_memset_out (l : list Z) (off len v j : Z) :
  0 <= off -> 0 <= j -> (j < off \/ off + len <= j) ->
  Buf.get (Buf.memset l off len v) j = Buf.get l j.
Proof.
  intros Ho Hj Hout. unfold Buf.get, Buf.memset. rewrite memset_nat_nth.
  destruct (Z.to_nat off <=? Z.to_nat j)%nat eqn:E1; [ | reflexivity ].
  destruct (Z.to_nat j <? Z.to_nat off + Z.to_nat len)%nat eqn:E2;
    [ | reflexivity ].
  apply Nat.leb_le in E1. apply Nat.ltb_lt in E2. lia.
Qed.

(** ** Frame after frame *)

Lemma timing_run_app (n m : nat) :
  forall t : Timing,
    timing_run (n + m) t
    = (fst (timing_run n t) ++ fst (timing_run m (snd (timing_run n t))),
       snd (timing_run m (snd (timing_run n t)))).
Proof.
  induction n as [ | n IH ]; intros t.
  - cbn [Nat.add timing_run fst snd app].
    destruct (timing_run m t). reflexivity.
  - cbn [Nat.add timing_run].
    destruct (timing_step t) as [[t1 push] vb].
    rewrite (IH t1).
    destruct (timing_run n t1) as [evs t2]. cbn [fst snd].
    reflexivity.
Qed.

Lemma calls_from_app (l1 l2 : list nat) :
  forall k : Z,
    calls_from k (l1 ++ l2)
    = calls_from k l1 ++ calls_from (k + Z.of_nat (length l1)) l2.
Proof.
  induction l1 as [ | c l1 IH ]; intros k.
  - cbn [app calls_from length Z.of_nat]. rewrite Z.add_0_r. reflexivity.
  - cbn [app calls_from length]. rewrite IH, <- app_assoc.
    replace (k + 1 + Z.of_nat (length l1))
      with (k + Z.of_nat (S (length l1))) by lia.
    reflexivity.
Qed.

Lemma calls_from_shift (o : Z) (l : list nat) :
  forall k : Z, calls_from (k + o) l = map (Z.add o) (calls_from k l).
Proof.
  induction l as [ | c l IH ]; intros k; [ reflexivity | ].
  cbn [calls_from]. rewrite map_app.
  replace (k + o + 1) with (k + 1 + o) by lia. rewrite IH.
  f_equal.
  induction c as [ | c IHc ]; [ reflexivity | ].
  cbn [repeat map]. rewrite IHc. f_equal. lia.
Qed.

(** The timing skeleton is back where it started after one frame. *)
Lemma timing_frame_end :
  snd (timing_run (Z.to_nat FRAME_CLOCKS) (mkTiming 2 80 0)) = mkTiming 2 80 0.
Proof. vm_compute. reflexivity. Qed.

Lemma frame_marks_S (k : nat) :
  frame_marks (S k) = 65664 :: map (Z.add 70224) (frame_marks k).
Proof.
  unfold frame_marks. cbn [seq map]. f_equal.
  rewrite <- seq_shift, !map_map. apply map_ext. intros j. lia.
Qed.

Lemma timing_frames (k : nat) :
  let r := timing_run (k * Z.to_nat FRAME_CLOCKS) (mkTiming 2 80 0) in
  snd r = mkTiming 2 80 0
  /\ Z.of_nat (length (fst r)) = 70224 * Z.of_nat k
  /\ calls_from 1 (map (fun e : bool * nat * Z =>
                          if fst (fst e) then 1%nat else 0%nat) (fst r))
     = frame_marks k
  /\ calls_from 1 (map (fun e : bool * nat * Z => snd (fst e)) (fst r))
     = frame_marks k.
Proof.
  induction k as [ | k IH ]; [ repeat split | ].
  cbv zeta in *. cbn [Nat.mul]. rewrite timing_run_app.
  rewrite timing_frame_end. cbn [fst snd].
  destruct IH as (He & Hl & Hp & Hv).
  destruct timing_frame as (Flen & Fp & Fv & _).
  cbv zeta in Flen, Fp, Fv.
  split; [ exact He | ].
  split; [ rewrite length_app; lia | ].
  rewrite !map_app, !calls_from_app, !length_map, Fp, Fv, frame_marks_S.
  cbn [app].
  replace (1 + Z.of_nat (length (fst (timing_run (Z.to_nat FRAME_CLOCKS)
                                         (mkTiming 2 80 0)))))
    with (1 + 70224) by lia.
  rewrite !calls_from_shift, Hp, Hv. split; reflexivity.
Qed.

(** X1.  Frame after frame: from the state [Reset] leaves, a run of [k] frames
    of 70,224 calls ends in the timing state it started from, and returns
    [pushFrameBuffer] and requests the VBlank interrupt once per frame, at
    call 65,664 of each. *)
Theorem frames_repeat (d0 : Display) (env : nat -> System * list OAM_ENTRY)
    (k : nat) :
  let r := run (k * Z.to_nat FRAME_CLOCKS) env 0 (state_after Reset d0) in
  timing (snd r) = mkTiming 2 80 0
  /\ Z.of_nat (length (fst r)) = 70224 * Z.of_nat k
  /\ frame_ready_calls (fst r) = frame_marks k
  /\ vblank_calls (fst r) = frame_marks k.
Proof.
  intros r.
  destruct (Reset_timing d0) as [Ht _].
  destruct (run_timing (k * Z.to_nat FRAME_CLOCKS) env 0 (state_after Reset d0))
    as [Hr He].
  fold r in Hr, He. rewrite Ht in Hr, He.
  destruct (timing_frames k) as (Te & Tl & Tp & Tv). cbv zeta in *.
  rewrite <- Hr in Tl, Tp, Tv. rewrite <- He in Te.
  rewrite length_map in Tl. rewrite map_map in Tp, Tv.
  repeat split; assumption.
Qed.

(** ** The phases of a scanline *)

(** While more than [n] clocks remain, [n] calls only count down. *)
Lemma timing_countdown (n : nat) :
  forall m c l : Z,
    0 <= m <= 3 -> Z.of_nat n < c < 4294967296 ->
    snd (timing_run n (mkTiming m c l)) = mkTiming m (c - Z.of_nat n) l
    /\ Forall quiet (fst (timing_run n (mkTiming m c l))).
Proof.
  induction n as [ | n IH ]; intros m c l Hm Hc.
  - cbn [timing_run fst snd Z.of_nat]. rewrite Z.sub_0_r. split; constructor.
  - cbn [timing_run].
    assert (E : timing_step (mkTiming m c l) = (mkTiming m (c - 1) l, false, 0%nat)).
    { unfold timing_step. cbn [t_mode t_clocks t_line]. unfold Int.u32.
      rewrite (Z.mod_small (c - 1)) by lia.
      replace (c - 1 =? 0) with false by (symmetry; apply Z.eqb_neq; lia).
      assert (M : m = 0 \/ m = 1 \/ m = 2 \/ m = 3) by lia.
      destruct M as [-> | [-> | [-> | ->]]]; reflexivity. }
    rewrite E.
    destruct (IH m (c - 1) l Hm ltac:(lia)) as [Hs Hq].
    destruct (timing_run n (mkTiming m (c - 1) l)) as [evs t2].
    cbn [fst snd] in *. split.
    + rewrite Hs. f_equal. lia.
    + constructor; [ split; reflexivity | exact Hq ].
Qed.

(** The last clock of a phase. *)
Lemma timing_phase (n : nat) (m c l : Z) :
  0 <= m <= 3 -> c = Z.of_nat (S n) -> c < 4294967296 ->
  timing_run (n + 1) (mkTiming m c l)
  = (fst (timing_run n (mkTiming m c l))
       ++ [(snd (fst (timing_step (mkTiming m 1 l))),
            snd (timing_step (mkTiming m 1 l)),
            t_line (fst (fst (timing_step (mkTiming m 1 l)))))],
     fst (fst (timing_step (mkTiming m 1 l)))).
Proof.
  intros Hm Hc Hr. rewrite timing_run_app.
  destruct (timing_countdown n m c l Hm ltac:(lia)) as [Hs _].
  rewrite Hs. replace (c - Z.of_nat n) with 1 by lia.
  cbn [timing_run fst snd].
  destruct (timing_step (mkTiming m 1 l)) as [[t1 p] v]. reflexivity.
Qed.

Lemma Forall_quiet_app (l1 l2 : list (bool * nat * Z)) :
  Forall quiet l1 -> Forall quiet l2 -> Forall quiet (l1 ++ l2).
Proof. intros H1 H2. apply Forall_app. split; assumption. Qed.

Lemma timing_scanline (l : Z) :
  0 <= l <= 142 ->
  snd (timing_run 80 (mkTiming 2 80 l)) = mkTiming 3 172 l
  /\ snd (timing_run 252 (mkTiming 2 80 l)) = mkTiming 0 204 l
  /\ snd (timing_run 456 (mkTiming 2 80 l)) = mkTiming 2 80 (l + 1)
  /\ Forall quiet (fst (timing_run 456 (mkTiming 2 80 l))).
Proof.
  intros Hl.
  assert (P1 := timing_phase 79 2 80 l ltac:(lia) eq_refl ltac:(lia)).
  assert (P2 := timing_phase 171 3 172 l ltac:(lia) eq_refl ltac:(lia)).
  assert (P3 := timing_phase 203 0 204 l ltac:(lia) eq_refl ltac:(lia)).
  assert (Q1 := proj2 (timing_countdown 79 2 80 l ltac:(lia) ltac:(lia))).
  assert (Q2 := proj2 (timing_countdown 171 3 172 l ltac:(lia) ltac:(lia))).
  assert (Q3 := proj2 (timing_countdown 203 0 204 l ltac:(lia) ltac:(lia))).
  assert (S1 : timing_step (mkTiming 2 1 l) = (mkTiming 3 172 l, false, 0%nat))
    by reflexivity.
  assert (S2 : timing_step (mkTiming 3 1 l) = (mkTiming 0 204 l, false, 0%nat))
    by reflexivity.
  assert (S3 : timing_step (mkTiming 0 1 l)
               = (mkTiming 2 80 (l + 1), false, 0%nat)).
  { unfold timing_step. cbn [t_mode t_clocks t_line Z.eqb]. unfold Int.u32.
    rewrite (Z.mod_small (l + 1)) by lia.
    replace (l + 1 =? 144) with false by (symmetry; apply Z.eqb_neq; lia).
    reflexivity. }
  rewrite S1 in P1. rewrite S2 in P2. rewrite S3 in P3.
  cbn [fst snd t_line] in P1, P2, P3.
  change (79 + 1)%nat with 80%nat in P1.
  change (171 + 1)%nat with 172%nat in P2.
  change (203 + 1)%nat with 204%nat in P3.
  assert (A : timing_run 252 (mkTiming 2 80 l)
              = (fst (timing_run 80 (mkTiming 2 80 l))
                 ++ fst (timing_run 172 (mkTiming 3 172 l)),
                 mkTiming 0 204 l)).
  { change 252%nat with (80 + 172)%nat. rewrite timing_run_app.
    rewrite P1. cbn [fst snd]. rewrite P2. reflexivity. }
  assert (B : timing_run 456 (mkTiming 2 80 l)
              = (fst (timing_run 252 (mkTiming 2 80 l))
                 ++ fst (timing_run 204 (mkTiming 0 204 l)),
                 mkTiming 2 80 (l + 1))).
  { change 456%nat with (252 + 204)%nat. rewrite timing_run_app.
    rewrite A. cbn [fst snd]. rewrite P3. reflexivity. }
  split; [ rewrite P1; reflexivity | ].
  split; [ rewrite A; reflexivity | ].
  split; [ rewrite B; reflexivity | ].
  rewrite B, A, P1, P2, P3. cbn [fst snd].
  assert (One : forall e, quiet e -> Forall quiet [e])
    by (intros e He; constructor; [ exact He | constructor ]).
  apply Forall_quiet_app; [ apply Forall_quiet_app | ];
    (apply Forall_quiet_app; [ | apply One; split; reflexivity ]).
  - exact Q1.
  - exact Q2.
  - exact Q3.
Qed.

(** X2.  Every visible scanline but the last takes 456 calls of [Step]: 80 in
    mode 2, 172 in mode 3 and 204 in mode 0; then the next line starts in
    mode 2.  None of these calls returns [pushFrameBuffer] or requests the
    VBlank interrupt. *)
Theorem scanline_phases (d : Display) (env : nat -> System * list OAM_ENTRY)
    (k : nat) (l : Z) :
  timing d = mkTiming 2 80 l -> 0 <= l <= 142 ->
  timing (snd (run 80 env k d)) = mkTiming 3 172 l
  /\ timing (snd (run 252 env k d)) = mkTiming 0 204 l
  /\ timing (snd (run 456 env k d)) = mkTiming 2 80 (l + 1)
  /\ Forall (fun ev => ev_pushFrameBuffer ev = false
                       /\ count_requests CPU_INT_VBLANK (ev_requests ev) = 0%nat)
            (fst (run 456 env k d)).
Proof.
  intros Ht Hl.
  destruct (timing_scanline l Hl) as (T1 & T2 & T3 & Q).
  rewrite <- Ht in T1, T2, T3, Q.
  rewrite <- (proj2 (run_timing 80 env k d)) in T1.
  rewrite <- (proj2 (run_timing 252 env k d)) in T2.
  rewrite <- (proj2 (run_timing 456 env k d)) in T3.
  rewrite <- (proj1 (run_timing 456 env k d)) in Q.
  repeat split; try assumption.
  rewrite Forall_map in Q. exact Q.
Qed.

Lemma scanline_phases_witness :
  timing (snd (run 456 (fun _ => (mkSystem [] [], [])) 0 power_on))
  = mkTiming 2 80 1.
Proof.
  refine (proj1 (proj2 (proj2
    (scanline_phases power_on (fun _ => (mkSystem [] [], [])) 0 0 _ _))));
    [ vm_compute; reflexivity | lia ].
Defined.

(** ** The invariant of the display *)

(** What the two helpers leave behind. *)
Lemma SetMode_state (mode : Z) (d : Display) :
  state_after (SetMode mode) d
  = set_registers
      (set_STAT (Int.u8 (Z.lor (Z.land (STAT (m_registers d)) (Z.lnot 3))
                               (Z.land mode 3))) (m_registers d))
      (set_mode mode d).
Proof.
  unfold SetMode. step_bind.
  cbn [set_mode set_registers m_registers m_mode STAT set_STAT].
  destruct (mode =? 0); [ | destruct (mode =? 1); [ | destruct (mode =? 2) ] ].
  all: unfold when; step_bind;
       repeat match goal with
         | |- context [ if ?b then _ else _ ] => destruct b
         end; reflexivity.
Qed.

Lemma SetScanline_state (scanline : Z) (d : Display) :
  let r := set_LY (Z.land scanline 255) (m_registers d) in
  let coincidence_flag :=
    if Int.truthy (Z.land (STAT r) (Z.shiftl 1 2))
    then (if LYC r =? LY r then 1 else 0)
    else (if negb (LYC r =? LY r) then 1 else 0) in
  state_after (SetScanline scanline) d
  = set_registers
      (set_STAT (Int.u8 (Z.lor (Z.land (STAT r) (Z.lnot (Z.shiftl 1 2)))
                               (Z.shiftl coincidence_flag 2))) r)
      (set_currentScanLine scanline d).
Proof.
  cbv zeta. unfold SetScanline. step_bind.
  cbn [set_currentScanLine set_registers m_registers STAT set_STAT set_LY LY LYC].
  unfold when.
  match goal with
  | |- context [ if ?b then CPUInterruptRequest _ else _ ] => destruct b
  end; reflexivity.
Qed.

Lemma land3_bits (a b : Z) :
  Z.testbit a 0 = Z.testbit b 0 -> Z.testbit a 1 = Z.testbit b 1 ->
  Z.land a 3 = Z.land b 3.
Proof.
  intros H0 H1. apply Z.bits_inj'. intros n Hn.
  rewrite !Z.land_spec. change 3 with (Z.ones 2).
  destruct (Z.lt_ge_cases n 2) as [Lt | Ge].
  - assert (E : n = 0 \/ n = 1) by lia.
    destruct E as [-> | ->]; [ rewrite H0 | rewrite H1 ]; reflexivity.
  - rewrite Z.ones_spec_high by lia. rewrite !andb_false_r. reflexivity.
Qed.

Lemma u8_bit (a n : Z) : n < 8 -> Z.testbit (Int.u8 a) n = Z.testbit a n.
Proof.
  intros Hn. unfold Int.u8. change 256 with (2 ^ 8).
  apply Z.mod_pow2_bits_low. exact Hn.
Qed.

Lemma STAT_mode_bits (s mode : Z) :
  0 <= mode <= 3 ->
  Z.land (Int.u8 (Z.lor (Z.land s (Z.lnot 3)) (Z.land mode 3))) 3 = mode.
Proof.
  intros Hm.
  transitivity (Z.land mode 3).
  - apply land3_bits; rewrite u8_bit by lia;
      rewrite Z.lor_spec, !Z.land_spec; cbn [Z.lnot Z.testbit Z.pred Z.add Z.opp Pos.add Pos.succ Z.pos_sub Pos.pred_double Z.succ_double Z.pred_double Z.double];
      rewrite ?andb_false_r, ?andb_true_r; reflexivity.
  - assert (M : mode = 0 \/ mode = 1 \/ mode = 2 \/ mode = 3) by lia.
    destruct M as [-> | [-> | [-> | ->]]]; reflexivity.
Qed.

Lemma STAT_coincidence_bits (s f : Z) :
  Z.land (Int.u8 (Z.lor (Z.land s (Z.lnot (Z.shiftl 1 2))) (Z.shiftl f 2))) 3
  = Z.land s 3.
Proof.
  apply land3_bits; rewrite u8_bit by lia;
    rewrite Z.lor_spec, Z.land_spec, Z.shiftl_spec_low by lia;
    rewrite orb_false_r; change (Z.lnot (Z.shiftl 1 2)) with (-5);
    [ change (Z.testbit (-5) 0) with true
    | change (Z.testbit (-5) 1) with true ];
    apply andb_true_r.
Qed.

Lemma timing_step_ok (t : Timing) :
  timing_ok t -> timing_ok (fst (fst (timing_step t))).
Proof.
  unfold timing_ok, timing_step. destruct t as [m c l].
  cbn [t_mode t_clocks t_line]. unfold Int.u32.
  intros [(-> & Hc & Hl) | [(-> & Hc & Hl) | [(-> & Hc & Hl) | (-> & Hc & Hl)]]].
  all: cbn [Z.eqb Pos.eqb];
       rewrite (Z.mod_small (c - 1)) by lia;
       rewrite ?(Z.mod_small (l + 1)) by lia;
       destruct (Z.eqb_spec (c - 1) 0);
       try destruct (Z.eqb_spec (l + 1) 144);
       try destruct (Z.eqb_spec (l + 1) 154);
       cbn [fst t_mode t_clocks t_line]; lia.
Qed.

Lemma RenderScanline_registers (stack : list OAM_ENTRY) (d : Display) :
  m_registers (RenderScanline stack d) = m_registers d.
Proof.
  unfold RenderScanline.
  cbn [m_registers set_frameBuffer].
  destruct (negb _); [ reflexivity | ].
  destruct (read_sprites _ _ _ _ _). reflexivity.
Qed.

Lemma RenderScanline_copies (stack : list OAM_ENTRY) (d : Display) :
  m_oamCopy (RenderScanline stack d) = m_oamCopy d
  /\ m_vramCopy (RenderScanline stack d) = m_vramCopy d.
Proof.
  unfold RenderScanline.
  cbn [m_registers set_frameBuffer].
  destruct (negb _); [ split; reflexivity | ].
  destruct (read_sprites _ _ _ _ _). split; reflexivity.
Qed.

Lemma RenderScanline_fields (stack : list OAM_ENTRY) (d : Display) :
  m_mode (RenderScanline stack d) = m_mode d
  /\ m_modeClocksRemaining (RenderScanline stack d) = m_modeClocksRemaining d
  /\ m_currentScanLine (RenderScanline stack d) = m_currentScanLine d.
Proof.
  apply timing_fields. rewrite RenderScanline_timing. reflexivity.
Qed.

Lemma land_255_small (a : Z) : 0 <= a < 256 -> Z.land a 255 = a.
Proof.
  intros H. change 255 with (Z.ones 8). rewrite Z.land_ones by lia.
  apply Z.mod_small. exact H.
Qed.

(** One call of [Step] keeps the display well formed. *)
Lemma Step_ok (sys : System) (stack : list OAM_ENTRY) (d : Display) :
  display_ok d -> display_ok (state_after (Step sys stack) d).
Proof.
  intros (Ht & Hly & Hst).
  split.
  { assert (E := Step_timing sys stack d).
    apply timing_step_ok in Ht. rewrite E in Ht. exact Ht. }
  unfold timing_ok, timing in Ht. cbn [t_mode t_clocks t_line] in Ht.
  unfold Step. step_bind.
  destruct Ht as [(Hm & Hc & Hl) | [(Hm & Hc & Hl) | [(Hm & Hc & Hl) | (Hm & Hc & Hl)]]].
  all: rewrite Hm; cbn [Z.eqb Pos.eqb].
  all: unfold dec_modeClocksRemaining; step_bind.
  all: cbn [set_modeClocksRemaining m_modeClocksRemaining m_mode m_currentScanLine].
  all: destruct (Int.u32 (m_modeClocksRemaining d - 1) =? 0) eqn:Ec; step_bind.
  all: rewrite ?SetMode_state, ?SetScanline_state; cbv zeta.
  all: cbn [set_modeClocksRemaining set_vramCopy set_oamCopy set_mode
            set_registers set_currentScanLine set_STAT set_LY
            m_mode m_modeClocksRemaining m_currentScanLine m_registers
            LY STAT LYC].
  all: rewrite ?RenderScanline_registers,
         ?(fun s d => proj1 (RenderScanline_fields s d)),
         ?(fun s d => proj2 (proj2 (RenderScanline_fields s d))).
  all: cbn [set_modeClocksRemaining set_vramCopy set_oamCopy set_mode
            set_registers set_currentScanLine set_STAT set_LY
            m_mode m_modeClocksRemaining m_currentScanLine m_registers
            LY STAT LYC].
  all: try (split; [ exact Hly | exact Hst ]).
  all: try (split; [ exact Hly | apply STAT_mode_bits; lia ]).
  all: unfold Int.u32; rewrite !(Z.mod_small (m_currentScanLine d + 1)) by lia.
  all: match goal with
       | |- context [ m_currentScanLine ?x + 1 =? ?k ] =>
           destruct (Z.eqb_spec (m_currentScanLine x + 1) k)
       end; step_bind.
  all: rewrite ?SetMode_state, ?SetScanline_state; cbv zeta.
  all: cbn [set_modeClocksRemaining set_vramCopy set_oamCopy set_mode
            set_registers set_currentScanLine set_STAT set_LY
            m_mode m_modeClocksRemaining m_currentScanLine m_registers
            LY STAT LYC].
  all: unfold Int.u32; rewrite ?(Z.mod_small (m_currentScanLine d + 1)) by lia.
  all: split; [ apply land_255_small; lia | ].
  all: rewrite ?STAT_coincidence_bits, ?STAT_mode_bits by lia;
       try reflexivity.
  all: rewrite ?STAT_coincidence_bits; exact Hst.
Qed.

Lemma Reset_ok (d0 : Display) : display_ok (state_after Reset d0).
Proof.
  unfold Reset. step_bind. rewrite SetMode_state.
  unfold display_ok, timing_ok, timing.
  cbn [set_modeClocksRemaining set_vramCopy set_oamCopy set_mode
       set_registers set_currentScanLine set_STAT set_LY set_frameBuffer
       m_mode m_modeClocksRemaining m_currentScanLine m_registers
       LY STAT LYC zero_registers t_mode t_clocks t_line].
  split; [ left; lia | ].
  split; reflexivity.
Qed.

Lemma run_ok (n : nat) (env : nat -> System * list OAM_ENTRY) :
  forall (k : nat) (d : Display),
    display_ok d -> display_ok (snd (run n env k d)).
Proof.
  induction n as [ | n IH ]; intros k d Ok; [ exact Ok | ].
  cbn [run].
  assert (S1 := Step_ok (fst (env k)) (snd (env k)) d Ok).
  unfold state_after in S1.
  destruct (Step (fst (env k)) (snd (env k)) d) as [[push d1] irqs].
  cbn [fst snd] in S1.
  specialize (IH (S k) d1 S1).
  destruct (run n env (S k) d1) as [evs d2]. exact IH.
Qed.

(** X3.  After [Reset] and any number of calls of [Step], whatever the system
    memory holds: the mode is 0..3 and is what the low two bits of STAT
    say, between 1 and 456 clocks remain (so the assertions of [Step] on
    the clock count hold), the scanline counter is at most 153 and equals
    the LY register, and the display is in mode 1 exactly on the lines
    144..153. *)
Theorem display_well_formed (d0 : Display)
    (env : nat -> System * list OAM_ENTRY) (n : nat) :
  let d := snd (run n env 0 (state_after Reset d0)) in
  0 <= m_mode d <= 3
  /\ Z.land (STAT (m_registers d)) 3 = m_mode d
  /\ 1 <= m_modeClocksRemaining d <= 456
  /\ 0 <= m_currentScanLine d <= 153
  /\ LY (m_registers d) = m_currentScanLine d
  /\ (m_mode d = 1 <-> 144 <= m_currentScanLine d).
Proof.
  intros d.
  destruct (run_ok n env 0 (state_after Reset d0) (Reset_ok d0))
    as (Ht & Hly & Hst).
  fold d in Ht, Hly, Hst.
  unfold timing_ok, timing in Ht. cbn [t_mode t_clocks t_line] in Ht.
  repeat split; try assumption; lia.
Qed.

(** ** What a call of [Step] leaves alone *)

Lemma SetMode_keeps (mode : Z) (d : Display) :
  let d' := state_after (SetMode mode) d in
  m_frameBuffer d' = m_frameBuffer d /\ m_vramCopy d' = m_vramCopy d
  /\ m_oamCopy d' = m_oamCopy d.
Proof. rewrite SetMode_state. repeat split. Qed.

Lemma SetScanline_keeps (l : Z) (d : Display) :
  let d' := state_after (SetScanline l) d in
  m_frameBuffer d' = m_frameBuffer d /\ m_vramCopy d' = m_vramCopy d
  /\ m_oamCopy d' = m_oamCopy d.
Proof.
  assert (E := SetScanline_state l d). cbv zeta in *. rewrite E.
  repeat split.
Qed.

(** X4.  [Step] writes no register but STAT and LY.  It takes its copy of the
    OAM from the system at the call that ends mode 2 and its copy of the
    video RAM at the call that ends mode 3, and at no other call; it
    touches the frame buffer only at the call that ends mode 3. *)
Theorem Step_leaves_alone (sys : System) (stack : list OAM_ENTRY)
    (d : Display) :
  let d' := state_after (Step sys stack) d in
  let last := Int.u32 (m_modeClocksRemaining d - 1) =? 0 in
  other_registers (m_registers d') = other_registers (m_registers d)
  /\ m_oamCopy d'
     = (if (m_mode d =? 2) && last then GetOAM sys else m_oamCopy d)
  /\ m_vramCopy d'
     = (if (m_mode d =? 3) && last then GetVRAM sys else m_vramCopy d)
  /\ ((m_mode d =? 3) && last = false -> m_frameBuffer d' = m_frameBuffer d).
Proof.
  cbv zeta. unfold Step. step_bind.
  destruct (Z.eqb_spec (m_mode d) 2) as [E2 | N2];
    [ | destruct (Z.eqb_spec (m_mode d) 3) as [E3 | N3];
        [ | destruct (Z.eqb_spec (m_mode d) 0) as [E0 | N0];
            [ | destruct (Z.eqb_spec (m_mode d) 1) as [E1 | N1] ] ] ].
  5: step_bind; repeat split.
  all: try rewrite E2; try rewrite E3; try rewrite E0; try rewrite E1.
  all: cbn [Z.eqb Pos.eqb andb].
  all: unfold dec_modeClocksRemaining; step_bind.
  all: cbn [set_modeClocksRemaining m_modeClocksRemaining m_mode m_currentScanLine].
  all: destruct (Int.u32 (m_modeClocksRemaining d - 1) =? 0); step_bind.
  all: rewrite ?SetMode_state, ?SetScanline_state; cbv zeta.
  all: cbn [set_modeClocksRemaining set_vramCopy set_oamCopy set_mode
            set_registers set_currentScanLine set_STAT set_LY
            m_mode m_modeClocksRemaining m_currentScanLine m_registers].
  all: try match goal with
       | |- context [ Int.u32 (m_currentScanLine ?x + 1) =? ?k ] =>
           destruct (Int.u32 (m_currentScanLine x + 1) =? k)
       end; step_bind.
  all: rewrite ?SetMode_state, ?SetScanline_state; cbv zeta.
  all: rewrite ?RenderScanline_registers,
         ?(fun s d => proj1 (RenderScanline_copies s d)),
         ?(fun s d => proj2 (RenderScanline_copies s d)).
  all: cbn [set_modeClocksRemaining set_vramCopy set_oamCopy set_mode
            set_registers set_currentScanLine set_STAT set_LY
            m_mode m_modeClocksRemaining m_currentScanLine m_registers
            m_frameBuffer m_vramCopy m_oamCopy other_registers
            LCDC SCY SCX LYC BGP OBP0 OBP1 WY WX].
  all: repeat split; try reflexivity; try (intros H; discriminate H).
Qed.

(** ** Mode changes *)

(** X5.  [SetMode] for a mode 0..3: the mode is stored and copied into the low
    two bits of STAT, the other bits of STAT and all other registers stay;
    LCDSTAT is requested exactly when the STAT enable bit of the mode (bit
    3 for mode 0, 4 for mode 1, 5 for mode 2) is set, never for mode 3; and
    VBlank is requested exactly on entering mode 1, whatever STAT holds. *)
Theorem SetMode_effect (mode : Z) (d : Display) :
  0 <= mode <= 3 -> Int.is_u8 (STAT (m_registers d)) ->
  let d' := state_after (SetMode mode) d in
  m_mode d' = mode
  /\ Z.land (STAT (m_registers d')) 3 = mode
  /\ (forall n, 2 <= n ->
        Z.testbit (STAT (m_registers d')) n
        = Z.testbit (STAT (m_registers d)) n)
  /\ LY (m_registers d') = LY (m_registers d)
  /\ other_registers (m_registers d') = other_registers (m_registers d)
  /\ requests_of (SetMode mode) d
     = (if (mode <? 3) && Z.testbit (STAT (m_registers d)) (mode + 3)
        then [CPU_INT_LCDSTAT] else [])
       ++ (if mode =? 1 then [CPU_INT_VBLANK] else []).
Proof.
  intros Hm Hs. cbv zeta. unfold Int.is_u8 in Hs.
  assert (Hb : forall n, 2 <= n ->
             Z.testbit (Int.u8 (Z.lor (Z.land (STAT (m_registers d)) (Z.lnot 3))
                                      (Z.land mode 3))) n
             = Z.testbit (STAT (m_registers d)) n).
  { intros n Hn. unfold Int.u8. change 256 with (2 ^ 8).
    rewrite Z.testbit_mod_pow2 by lia.
    rewrite Z.lor_spec, !Z.land_spec, Z.lnot_spec by lia.
    change 3 with (Z.ones 2). rewrite Z.ones_spec_high by lia.
    rewrite andb_false_r, orb_false_r, andb_true_r.
    destruct (Z.ltb_spec n 8) as [Lt | Ge]; [ reflexivity | ].
    symmetry. cbn [andb].
    apply (Z.bits_above_log2 (STAT (m_registers d)) n); [ lia | ].
    destruct (Z.eq_dec (STAT (m_registers d)) 0) as [-> | Nz];
      [ cbn; lia | ].
    apply Z.log2_lt_pow2; [ lia | ].
    apply Z.lt_le_trans with (2 ^ 8); [ cbn; lia | ].
    apply Z.pow_le_mono_r; lia. }
  rewrite SetMode_state.
  cbn [set_registers set_mode set_STAT m_registers m_mode STAT LY
       other_registers LCDC SCY SCX LYC BGP OBP0 OBP1 WY WX].
  split; [ reflexivity | ].
  split; [ apply STAT_mode_bits; exact Hm | ].
  split; [ exact Hb | ].
  split; [ reflexivity | ].
  split; [ reflexivity | ].
  unfold SetMode. step_bind.
  cbn [set_registers set_mode set_STAT m_registers m_mode STAT app].
  assert (M : mode = 0 \/ mode = 1 \/ mode = 2 \/ mode = 3) by lia.
  destruct M as [-> | [-> | [-> | ->]]]; cbn [Z.eqb Pos.eqb Z.ltb Z.compare
    Pos.compare Pos.compare_cont andb Z.add Pos.add]; step_bind;
    rewrite ?(fun b i d => proj2 (run_when_request b i d));
    rewrite ?truthy_bit by lia; rewrite ?Hb by lia;
    rewrite ?app_nil_r; try reflexivity.
Qed.

Lemma SetMode_effect_witness :
  requests_of (SetMode 1) power_on
  = (if (1 <? 3) && Z.testbit (STAT (m_registers power_on)) (1 + 3)
     then [CPU_INT_LCDSTAT] else [])
    ++ (if 1 =? 1 then [CPU_INT_VBLANK] else []).
Proof.
  refine (proj2 (proj2 (proj2 (proj2 (proj2
    (SetMode_effect 1 power_on _ _))))));
    [ lia | unfold Int.is_u8; vm_compute; split; [ discriminate | reflexivity ] ].
Defined.

(** ** Tiles *)

Lemma land_shiftr_1 (a k : Z) :
  0 <= k -> Z.land (Z.shiftr a k) 1 = Z.b2z (Z.testbit a k).
Proof.
  intros Hk. change 1 with (Z.ones 1). rewrite Z.land_ones by lia.
  change (2 ^ 1) with 2. rewrite <- Z.bit0_mod, Z.shiftr_spec by lia.
  rewrite Z.add_0_l. reflexivity.
Qed.

(** [ReadTile] in terms of bits: bit 0 of the result comes from the even
    byte of the tile row and bit 1 from the odd byte, both at bit
    [7 - x mod 8]. *)
Lemma ReadTile_bit_planes (d : Display) (high_tileset : bool)
    (tile x y : Z) :
  let base := (if high_tileset then 0x0800 else 0x0000) + tile * 16 + y * 2 in
  ReadTile d high_tileset tile x y
  = Z.b2z (Z.testbit (Buf.get (m_vramCopy d) base) (7 - x mod 8))
    + 2 * Z.b2z (Z.testbit (Buf.get (m_vramCopy d) (base + 1)) (7 - x mod 8)).
Proof.
  cbv zeta. unfold ReadTile. cbv zeta.
  assert (Hk : 0 <= 7 - x mod 8).
  { pose proof (Z.mod_pos_bound x 8 ltac:(lia)). lia. }
  rewrite !land_shiftr_1 by exact Hk.
  destruct (Z.testbit _ _), (Z.testbit _ _); reflexivity.
Qed.

Lemma bit_plane_snoc (k : Z) (cs : list Z) (c : Z) :
  bit_plane k (cs ++ [c]) = 2 * bit_plane k cs + Z.b2z (Z.testbit c k).
Proof. unfold bit_plane. rewrite fold_left_app. reflexivity. Qed.

Lemma testbit_double_add (a : Z) (b : bool) (n : Z) :
  0 <= n ->
  Z.testbit (2 * a + Z.b2z b) n = if n =? 0 then b else Z.testbit a (n - 1).
Proof.
  intros Hn. destruct (Z.eqb_spec n 0) as [-> | Nz].
  - apply Z.testbit_0_r.
  - replace n with (Z.succ (n - 1)) at 1 by lia.
    apply Z.testbit_succ_r. lia.
Qed.

(** Bit [i] of a plane is the bit of the pixel [i] places from the right. *)
Lemma bit_plane_testbit (k : Z) (cs : list Z) :
  forall i : nat,
    (i < length cs)%nat ->
    Z.testbit (bit_plane k cs) (Z.of_nat i)
    = Z.testbit (nth (length cs - 1 - i) cs 0) k.
Proof.
  induction cs as [ | c cs IH ] using rev_ind; intros i Hi;
    [ cbn [length] in Hi; lia | ].
  rewrite length_app in Hi. cbn [length] in Hi.
  rewrite bit_plane_snoc, length_app. cbn [length].
  rewrite testbit_double_add by lia.
  destruct i as [ | j ].
  - cbn [Z.of_nat Z.eqb].
    replace (length cs + 1 - 1 - 0)%nat with (length cs) by lia.
    rewrite nth_middle. reflexivity.
  - replace (Z.of_nat (S j) =? 0) with false
      by (symmetry; apply Z.eqb_neq; lia).
    replace (Z.of_nat (S j) - 1) with (Z.of_nat j) by lia.
    rewrite IH by lia.
    rewrite app_nth1 by lia.
    f_equal. f_equal. lia.
Qed.

(** X6.  [ReadTile] decodes the tile format: when the two bytes of row [y] of
    the tile hold the low bits and the high bits of eight colour indices
    0..3, the leftmost pixel in bit 7, [ReadTile] returns the colour index
    of pixel [x mod 8], counted from the left. *)
Theorem ReadTile_decodes (d : Display) (high_tileset : bool)
    (tile x y : Z) (cs : list Z) :
  length cs = 8%nat ->
  Forall (fun c => 0 <= c <= 3) cs ->
  let base := (if high_tileset then 0x0800 else 0x0000) + tile * 16 + y * 2 in
  Buf.get (m_vramCopy d) base = bit_plane 0 cs ->
  Buf.get (m_vramCopy d) (base + 1) = bit_plane 1 cs ->
  ReadTile d high_tileset tile x y = nth (Z.to_nat (x mod 8)) cs 0.
Proof.
  intros Hl Hc base H0 H1.
  pose proof (ReadTile_bit_planes d high_tileset tile x y) as E.
  cbv zeta in E. fold base in E. rewrite E, H0, H1. clear E.
  pose proof (Z.mod_pos_bound x 8 ltac:(lia)) as Hx.
  set (j := Z.to_nat (x mod 8)).
  assert (Hj : (j < 8)%nat) by (unfold j; lia).
  replace (7 - x mod 8) with (Z.of_nat (7 - j)) by (unfold j; lia).
  rewrite !bit_plane_testbit by (rewrite Hl; lia).
  rewrite Hl. replace (8 - 1 - (7 - j))%nat with j by lia.
  assert (R : 0 <= nth j cs 0 <= 3).
  { rewrite Forall_forall in Hc. apply Hc. apply nth_In. rewrite Hl. exact Hj. }
  set (c := nth j cs 0) in *.
  assert (C : c = 0 \/ c = 1 \/ c = 2 \/ c = 3) by lia.
  destruct C as [-> | [-> | [-> | ->]]]; reflexivity.
Qed.

Lemma ReadTile_decodes_witness :
  ReadTile (set_vramCopy (Buf.store (Buf.store (m_vramCopy power_on) 32 0xA5)
                                    33 0x0F) power_on)
           false 2 5 0
  = nth (Z.to_nat (5 mod 8)) [1; 0; 1; 0; 2; 3; 2; 3] 0.
Proof.
  apply (ReadTile_decodes _ false 2 5 0 [1; 0; 1; 0; 2; 3; 2; 3]).
  - reflexivity.
  - repeat constructor; lia.
  - vm_compute. reflexivity.
  - vm_compute. reflexivity.
Defined.

(** ** Pixels *)

Lemma colour_bytes (color : Z) :
  0 <= color < 4294967296 ->
  Z.land color 255
  + 256 * (Z.land (Z.shiftr color 8) 255
           + 256 * (Z.land (Z.shiftr color 16) 255
                    + 256 * Z.land (Z.shiftr color 24) 255)) = color.
Proof.
  intros Hc. change 255 with (Z.ones 8).
  rewrite !Z.land_ones, !Z.shiftr_div_pow2 by lia.
  change (2 ^ 8) with 256. change (2 ^ 16) with (256 * 256).
  change (2 ^ 24) with (256 * 256 * 256).
  rewrite <- !Z.div_div by lia.
  assert (H1 := Z.div_mod color 256 ltac:(lia)).
  assert (H2 := Z.div_mod (color / 256) 256 ltac:(lia)).
  assert (H3 := Z.div_mod (color / 256 / 256) 256 ltac:(lia)).
  assert (H4 : color / 256 / 256 / 256 < 256).
  { rewrite !Z.div_div by lia. apply Z.div_lt_upper_bound; lia. }
  assert (H5 : 0 <= color / 256 / 256 / 256).
  { repeat apply Z.div_pos; lia. }
  rewrite (Z.mod_small (color / 256 / 256 / 256)) by lia.
  lia.
Qed.

Lemma PutPixel_length (px py color : Z) (fb : list Z) :
  length (PutPixel px py color fb) = length fb.
Proof. unfold PutPixel. cbv zeta. rewrite !store_length. reflexivity. Qed.

Lemma PutPixel_other (px py color : Z) (fb : list Z) (i : Z) :
  0 <= i ->
  i < (py * SCREEN_WIDTH + px) * 4 \/ (py * SCREEN_WIDTH + px) * 4 + 4 <= i ->
  Buf.get (PutPixel px py color fb) i = Buf.get fb i.
Proof.
  intros Hi Hout. unfold PutPixel. cbv zeta.
  rewrite !get_store_other by lia. reflexivity.
Qed.

Lemma PutPixel_GetPixel (px py color : Z) (fb : list Z) :
  0 <= (py * SCREEN_WIDTH + px) * 4 ->
  (py * SCREEN_WIDTH + px) * 4 + 4 <= Z.of_nat (length fb) ->
  0 <= color < 4294967296 ->
  GetPixel px py (PutPixel px py color fb) = color.
Proof.
  intros Hb Hl Hc. unfold GetPixel, PutPixel. cbv zeta.
  set (base := (py * SCREEN_WIDTH + px) * 4) in *.
  rewrite (get_store_same _ (base + 3)) by (rewrite !store_length; lia).
  rewrite (get_store_other _ (base + 3) (base + 2)) by lia.
  rewrite (get_store_same _ (base + 2)) by (rewrite !store_length; lia).
  rewrite (get_store_other _ (base + 3) (base + 1)),
          (get_store_other _ (base + 2) (base + 1)) by lia.
  rewrite (get_store_same _ (base + 1)) by (rewrite !store_length; lia).
  rewrite (get_store_other _ (base + 3) base),
          (get_store_other _ (base + 2) base),
          (get_store_other _ (base + 1) base) by lia.
  rewrite (get_store_same _ base) by lia.
  apply colour_bytes. exact Hc.
Qed.

Lemma GetPixel_ext (px py : Z) (fb fb' : list Z) :
  (forall i, (py * SCREEN_WIDTH + px) * 4 <= i < (py * SCREEN_WIDTH + px) * 4 + 4 ->
             Buf.get fb' i = Buf.get fb i) ->
  GetPixel px py fb' = GetPixel px py fb.
Proof.
  intros H. unfold GetPixel. cbv zeta.
  rewrite !H by lia. reflexivity.
Qed.

(** X7.  A pixel written by [PutPixel] reads back as the colour written, and no
    other pixel of the frame buffer changes. *)
Theorem PutPixel_round_trip (px py color : Z) (fb : list Z) :
  0 <= px < SCREEN_WIDTH -> 0 <= py < SCREEN_HEIGHT ->
  Z.of_nat (length fb) = SCREEN_WIDTH * SCREEN_HEIGHT * 4 ->
  0 <= color < 4294967296 ->
  let fb' := PutPixel px py color fb in
  length fb' = length fb
  /\ GetPixel px py fb' = color
  /\ forall qx qy, 0 <= qx < SCREEN_WIDTH -> 0 <= qy < SCREEN_HEIGHT ->
       (qx, qy) <> (px, py) -> GetPixel qx qy fb' = GetPixel qx qy fb.
Proof.
  intros Hx Hy Hl Hc. cbv zeta. unfold SCREEN_WIDTH, SCREEN_HEIGHT in *.
  split; [ apply PutPixel_length | ].
  split.
  - apply PutPixel_GetPixel; unfold SCREEN_WIDTH; lia.
  - intros qx qy Hqx Hqy Hne. apply GetPixel_ext. intros i Hi.
    apply PutPixel_other; unfold SCREEN_WIDTH in *; [ lia | ].
    assert (qx <> px \/ qy <> py).
    { destruct (Z.eq_dec qx px) as [-> | ]; [ right | left; assumption ].
      intros ->. apply Hne. reflexivity. }
    lia.
Qed.

Lemma PutPixel_round_trip_witness :
  GetPixel 3 2 (PutPixel 3 2 0xFF606060 (m_frameBuffer power_on)) = 0xFF606060.
Proof.
  refine (proj1 (proj2
    (PutPixel_round_trip 3 2 0xFF606060 (m_frameBuffer power_on) _ _ _ _)));
    [ unfold SCREEN_WIDTH; lia | unfold SCREEN_HEIGHT; lia
    | vm_compute; reflexivity | lia ].
Defined.

(** ** A rendered line *)

Lemma grayscale_shade (i : Z) : In (grayscale_colors i) shades.
Proof.
  unfold grayscale_colors, shades.
  destruct (i =? 0); [ | destruct (i =? 1); [ | destruct (i =? 2) ] ];
    cbn [In]; tauto.
Qed.

Lemma palette_shade (reg first i : Z) :
  In first shades -> In (palette_of reg first i) shades.
Proof.
  intros Hf. unfold palette_of.
  destruct (i =? 0); [ exact Hf | ].
  destruct (i =? 1); [ apply grayscale_shade | ].
  destruct (i =? 2); apply grayscale_shade.
Qed.

Lemma shade_range (c : Z) : In c shades -> 0 <= c < 4294967296.
Proof.
  unfold shades. cbn [In].
  intros [<- | [<- | [<- | [<- | [<- | []]]]]]; lia.
Qed.

Lemma sprite_loop_colour (P : Z -> Prop) (d : Display)
    (LINE SPRITE_HEIGHT SPRITE_SIZE_BIT : Z) (p0 p1 : Z -> Z)
    (pixel_x bgcolor_index : Z) (sprites : list OAM_ENTRY) :
  (forall i, P (p0 i)) -> (forall i, P (p1 i)) ->
  forall color, P color ->
    P (sprite_loop d LINE SPRITE_HEIGHT SPRITE_SIZE_BIT p0 p1
                   pixel_x bgcolor_index color sprites).
Proof.
  intros H0 H1.
  induction sprites as [ | s rest IH ]; intros color Hc; [ exact Hc | ].
  cbn [sprite_loop]. cbv zeta.
  destruct (_ || _); [ apply IH; exact Hc | ].
  destruct (_ && _); [ exact Hc | ].
  destruct (Int.truthy (palette s)); [ apply H1 | apply H0 ].
Qed.

Lemma render_pixel_frameBuffer (d : Display) (sp : list OAM_ENTRY)
    (num x : Z) (st : LineState) :
  ls_frameBuffer (snd (render_pixel d sp num x st)) = ls_frameBuffer st.
Proof.
  unfold render_pixel. cbv zeta.
  destruct (Int.truthy (Z.land (LCDC (m_registers d)) 1)); [ | reflexivity ].
  destruct (Int.u8 (ls_bg_x st + 1) =? 8); reflexivity.
Qed.

Lemma render_pixel_shade (d : Display) (sp : list OAM_ENTRY)
    (num x : Z) (st : LineState) :
  In (fst (render_pixel d sp num x st)) shades.
Proof.
  assert (W : In 0xFFFFFFFF shades) by (cbn; tauto).
  assert (O : In 0xFF555555 shades) by (cbn; tauto).
  unfold render_pixel. cbv zeta.
  destruct (Int.truthy (Z.land (LCDC (m_registers d)) 1)).
  - destruct (Int.u8 (ls_bg_x st + 1) =? 8); cbn [fst snd];
      (destruct (Int.truthy (Z.land (LCDC (m_registers d)) 2));
       [ apply (sprite_loop_colour (fun c => In c shades));
         [ intros i; apply palette_shade; exact O
         | intros i; apply palette_shade; exact O
         | apply palette_shade; apply grayscale_shade ]
       | apply palette_shade; apply grayscale_shade ]).
  - cbn [fst snd].
    destruct (Int.truthy (Z.land (LCDC (m_registers d)) 2)); [ | exact W ].
    apply (sprite_loop_colour (fun c => In c shades)); [ | | exact W ];
      intros i; apply palette_shade; exact O.
Qed.

Lemma render_pixel_blank (d : Display) (sp : list OAM_ENTRY)
    (num x : Z) (st : LineState) :
  Z.land (LCDC (m_registers d)) 3 = 0 ->
  fst (render_pixel d sp num x st) = 0xFFFFFFFF.
Proof.
  intros H.
  assert (B0 : Z.land (LCDC (m_registers d)) 1 = 0).
  { apply Z.bits_inj'. intros n Hn. rewrite Z.land_spec, Z.bits_0.
    assert (T := f_equal (fun v => Z.testbit v n) H). cbv beta in T.
    rewrite Z.land_spec, Z.bits_0 in T.
    destruct (Z.eq_dec n 0) as [-> | Ne].
    - change (Z.testbit 3 0) with true in T. rewrite andb_true_r in T.
      rewrite T. reflexivity.
    - change 1 with (Z.ones 1). rewrite Z.ones_spec_high by lia.
      apply andb_false_r. }
  assert (B1 : Z.land (LCDC (m_registers d)) 2 = 0).
  { apply Z.bits_inj'. intros n Hn. rewrite Z.land_spec, Z.bits_0.
    assert (T := f_equal (fun v => Z.testbit v n) H). cbv beta in T.
    rewrite Z.land_spec, Z.bits_0 in T.
    destruct (Z.eq_dec n 1) as [-> | Ne].
    - change (Z.testbit 3 1) with true in T. rewrite andb_true_r in T.
      rewrite T. reflexivity.
    - change 2 with (Z.shiftl 1 1). rewrite Z.shiftl_spec by lia.
      destruct (Z.eq_dec n 0) as [-> | N0]; [ apply andb_false_r | ].
      change 1 with (Z.ones 1) at 1. rewrite Z.ones_spec_high by lia.
      apply andb_false_r. }
  unfold render_pixel. cbv zeta. rewrite B0, B1. reflexivity.
Qed.

(** The pixel loop writes the pixels [pixel_x .. pixel_x + n - 1] of line
    [LY] and nothing else.  [Inv] is what holds of the background position
    before each pixel, [P x c] what holds of the colour [c] of pixel [x]. *)
Lemma pixel_loop_spec (Inv : Z -> LineState -> Prop) (P : Z -> Z -> Prop)
    (d : Display) (sp : list OAM_ENTRY) (num : Z) :
  (forall x st, Inv x st ->
     let rp := render_pixel d sp num x st in
     P x (fst rp)
     /\ forall fb, Inv (x + 1)
           (mkLineState (ls_lineOffset (snd rp)) (ls_bg_x (snd rp))
                        (ls_bg_tile (snd rp)) fb)) ->
  (forall x c, P x c -> 0 <= c < 4294967296) ->
  0 <= LY (m_registers d) ->
  forall (n : nat) (p : Z) (st : LineState),
    0 <= p -> Inv p st ->
    (LY (m_registers d) * SCREEN_WIDTH + p + Z.of_nat n) * 4
      <= Z.of_nat (length (ls_frameBuffer st)) ->
    let fb' := ls_frameBuffer (pixel_loop d sp num n p st) in
    length fb' = length (ls_frameBuffer st)
    /\ (forall i, 0 <= i ->
          i < (LY (m_registers d) * SCREEN_WIDTH + p) * 4
          \/ (LY (m_registers d) * SCREEN_WIDTH + p + Z.of_nat n) * 4 <= i ->
          Buf.get fb' i = Buf.get (ls_frameBuffer st) i)
    /\ (forall x, p <= x < p + Z.of_nat n ->
          P x (GetPixel x (LY (m_registers d)) fb')).
Proof.
  intros HP Hr Hly.
  induction n as [ | n IH ]; intros p st Hp Hi Hlen.
  - cbn [pixel_loop]. cbv zeta. split; [ reflexivity | ].
    split; [ reflexivity | intros x Hx; lia ].
  - cbn [pixel_loop].
    destruct (HP p st Hi) as [Hc Hn]. cbv zeta in Hc, Hn.
    assert (Hf := render_pixel_frameBuffer d sp num p st).
    destruct (render_pixel d sp num p st) as [color st1].
    cbn [fst snd] in Hc, Hf, Hn.
    set (st2 := mkLineState _ _ _ _).
    assert (F2 : ls_frameBuffer st2
                 = PutPixel p (LY (m_registers d)) color (ls_frameBuffer st))
      by (unfold st2; cbn [ls_frameBuffer]; rewrite Hf; reflexivity).
    assert (L2 : length (ls_frameBuffer st2) = length (ls_frameBuffer st))
      by (rewrite F2; apply PutPixel_length).
    unfold SCREEN_WIDTH in *.
    destruct (IH (p + 1) st2 ltac:(lia) (Hn _) ltac:(rewrite L2; lia))
      as (Il & Io & Ip).
    cbv zeta. split; [ rewrite Il; exact L2 | ].
    split.
    + intros i Hi' Hout. rewrite Io by lia. rewrite F2.
      apply PutPixel_other; unfold SCREEN_WIDTH; lia.
    + intros x Hx.
      destruct (Z.eq_dec x p) as [-> | Ne]; [ | apply Ip; lia ].
      rewrite (GetPixel_ext p (LY (m_registers d)) (ls_frameBuffer st2)).
      * rewrite F2, PutPixel_GetPixel; unfold SCREEN_WIDTH;
          [ exact Hc | lia | lia | apply (Hr p); exact Hc ].
      * intros i Hi'. unfold SCREEN_WIDTH in Hi'. apply Io; lia.
Qed.

(** What [RenderScanline] does, for any property [P] of the colours of its
    pixels that white has on every pixel when the LCD is off. *)
Lemma RenderScanline_spec (Inv : Z -> LineState -> Prop) (P : Z -> Z -> Prop)
    (stack : list OAM_ENTRY) (d : Display) :
  (Int.truthy (Z.land (LCDC (m_registers d)) 0x80) = true ->
   (forall fb, Inv 0 (line_start d fb))
   /\ forall d1 sp num x st,
        m_registers d1 = m_registers d -> m_vramCopy d1 = m_vramCopy d ->
        Inv x st ->
        let rp := render_pixel d1 sp num x st in
        P x (fst rp)
        /\ forall fb, Inv (x + 1)
              (mkLineState (ls_lineOffset (snd rp)) (ls_bg_x (snd rp))
                           (ls_bg_tile (snd rp)) fb)) ->
  (forall x c, P x c -> 0 <= c < 4294967296) ->
  (Int.truthy (Z.land (LCDC (m_registers d)) 0x80) = false ->
   forall x, P x 0xFFFFFFFF) ->
  LY (m_registers d) = m_currentScanLine d ->
  0 <= m_currentScanLine d < SCREEN_HEIGHT ->
  Z.of_nat (length (m_frameBuffer d)) = SCREEN_WIDTH * SCREEN_HEIGHT * 4 ->
  let d' := RenderScanline stack d in
  d' = set_frameBuffer (m_frameBuffer d') d
  /\ length (m_frameBuffer d') = length (m_frameBuffer d)
  /\ (forall i, 0 <= i ->
        i < m_currentScanLine d * SCREEN_WIDTH * 4
        \/ (m_currentScanLine d + 1) * SCREEN_WIDTH * 4 <= i ->
        Buf.get (m_frameBuffer d') i = Buf.get (m_frameBuffer d) i)
  /\ (forall x, 0 <= x < SCREEN_WIDTH ->
        P x (GetPixel x (m_currentScanLine d) (m_frameBuffer d'))).
Proof.
  intros HP Hr Hw Hly Hl Hlen. cbv zeta.
  unfold RenderScanline. unfold SCREEN_WIDTH, SCREEN_HEIGHT in *.
  set (fb0 := Buf.memset (m_frameBuffer d) (m_currentScanLine d * 160 * 4)
                (160 * 4) 255).
  assert (L0 : length fb0 = length (m_frameBuffer d)) by apply memset_length.
  assert (O0 : forall i, 0 <= i ->
             i < m_currentScanLine d * 160 * 4
             \/ (m_currentScanLine d + 1) * 160 * 4 <= i ->
             Buf.get fb0 i = Buf.get (m_frameBuffer d) i).
  { intros i Hi Hout. apply get_memset_out; lia. }
  cbv zeta. cbn [m_registers set_frameBuffer m_frameBuffer m_oamCopy m_vramCopy].
  destruct (Int.truthy (Z.land (LCDC (m_registers d)) 128)) eqn:On;
    cbn [negb].
  - destruct (HP eq_refl) as [H0 HS].
    destruct (read_sprites _ _ _ (m_oamCopy d) stack) as [sp num].
    set (d1 := set_frameBuffer fb0 d).
    assert (R1 : m_registers d1 = m_registers d) by reflexivity.
    assert (V1 : m_vramCopy d1 = m_vramCopy d) by reflexivity.
    change (mkLineState _ _ _ fb0) with (line_start d fb0).
    destruct (pixel_loop_spec Inv P d1 sp num
                (fun x s => HS d1 sp num x s R1 V1) Hr
                ltac:(rewrite R1; lia) 160 0 (line_start d fb0)
                ltac:(lia) (H0 fb0)
                ltac:(rewrite R1; unfold line_start, SCREEN_WIDTH;
                      cbn [ls_frameBuffer]; lia))
      as (Pl & Po & Pp).
    cbv zeta in Pl, Po, Pp. rewrite R1 in Po, Pp.
    unfold SCREEN_WIDTH in Po, Pp.
    change (ls_frameBuffer (line_start d fb0)) with fb0 in Pl, Po.
    cbn [set_frameBuffer m_frameBuffer].
    split; [ reflexivity | ].
    split; [ rewrite Pl; exact L0 | ].
    split.
    + intros i Hi Hout. rewrite Po by lia. apply O0; assumption.
    + intros x Hx. rewrite <- Hly. apply Pp. lia.
  - cbn [set_frameBuffer m_frameBuffer].
    split; [ reflexivity | ].
    split; [ exact L0 | ].
    split; [ exact O0 | ].
    intros x Hx. unfold GetPixel, SCREEN_WIDTH. cbv zeta.
    unfold fb0. rewrite !get_memset_in by lia. apply Hw. reflexivity.
Qed.

Lemma power_on_line : m_currentScanLine power_on = 0.
Proof. vm_compute. reflexivity. Qed.

(** X8.  Rendering a scanline changes the frame buffer and nothing else, in the
    frame buffer only the pixels of the current line, and it gives each of
    them one of the five colours of [shades]. *)
Theorem RenderScanline_paints_one_line (stack : list OAM_ENTRY) (d : Display) :
  LY (m_registers d) = m_currentScanLine d ->
  0 <= m_currentScanLine d < SCREEN_HEIGHT ->
  Z.of_nat (length (m_frameBuffer d)) = SCREEN_WIDTH * SCREEN_HEIGHT * 4 ->
  let d' := RenderScanline stack d in
  d' = set_frameBuffer (m_frameBuffer d') d
  /\ length (m_frameBuffer d') = length (m_frameBuffer d)
  /\ (forall x y, 0 <= x < SCREEN_WIDTH -> 0 <= y < SCREEN_HEIGHT ->
        y <> m_currentScanLine d ->
        GetPixel x y (m_frameBuffer d') = GetPixel x y (m_frameBuffer d))
  /\ (forall x, 0 <= x < SCREEN_WIDTH ->
        In (GetPixel x (m_currentScanLine d) (m_frameBuffer d')) shades).
Proof.
  intros Hly Hl Hlen.
  destruct (RenderScanline_spec (fun _ _ => True) (fun _ c => In c shades)
              stack d
              (fun _ => conj (fun _ => I)
                 (fun d1 sp num x st _ _ _ =>
                    conj (render_pixel_shade d1 sp num x st) (fun _ => I)))
              (fun _ => shade_range)
              (fun _ _ => or_introl eq_refl) Hly Hl Hlen)
    as (E & L & O & S).
  cbv zeta. split; [ exact E | ]. split; [ exact L | ].
  split; [ | exact S ].
  intros x y Hx Hy Hne. apply GetPixel_ext. intros i Hi.
  unfold SCREEN_WIDTH, SCREEN_HEIGHT in *. apply O; lia.
Qed.

Lemma RenderScanline_paints_one_line_witness :
  length (m_frameBuffer (RenderScanline [] power_on))
  = length (m_frameBuffer power_on).
Proof.
  refine (proj1 (proj2 (RenderScanline_paints_one_line [] power_on _ _ _)));
    [ vm_compute; reflexivity
    | rewrite power_on_line; unfold SCREEN_HEIGHT; lia
    | vm_compute; reflexivity ].
Defined.

(** X9.  With the LCD switched off (LCDC bit 7 clear), or with the background
    and the sprites both off (bits 0 and 1 clear), the line is white. *)
Theorem RenderScanline_blank_line (stack : list OAM_ENTRY) (d : Display) :
  LY (m_registers d) = m_currentScanLine d ->
  0 <= m_currentScanLine d < SCREEN_HEIGHT ->
  Z.of_nat (length (m_frameBuffer d)) = SCREEN_WIDTH * SCREEN_HEIGHT * 4 ->
  Z.land (LCDC (m_registers d)) 0x80 = 0
  \/ Z.land (LCDC (m_registers d)) 3 = 0 ->
  forall x, 0 <= x < SCREEN_WIDTH ->
    GetPixel x (m_currentScanLine d) (m_frameBuffer (RenderScanline stack d))
    = 0xFFFFFFFF.
Proof.
  intros Hly Hl Hlen Hoff.
  refine (proj2 (proj2 (proj2
    (RenderScanline_spec (fun _ _ => True) (fun _ c => c = 0xFFFFFFFF) stack d
       _ _ (fun _ _ => eq_refl) Hly Hl Hlen)))).
  - intros On. split; [ intros fb; exact I | ].
    intros d1 sp num x st R _ _. cbv zeta. split; [ | intros fb; exact I ].
    destruct Hoff as [Off | Off].
    + rewrite Off in On. discriminate On.
    + apply render_pixel_blank. rewrite R. exact Off.
  - intros _ c ->. lia.
Qed.

Lemma RenderScanline_blank_line_witness :
  GetPixel 5 (m_currentScanLine power_on)
           (m_frameBuffer (RenderScanline [] power_on)) = 0xFFFFFFFF.
Proof.
  apply (RenderScanline_blank_line [] power_on);
    [ vm_compute; reflexivity
    | rewrite power_on_line; unfold SCREEN_HEIGHT; lia
    | vm_compute; reflexivity
    | left; vm_compute; reflexivity
    | unfold SCREEN_WIDTH; lia ].
Defined.

(** ** The background *)

Lemma land_mod (a k : Z) : 0 <= k -> Z.land a (Z.ones k) = a mod 2 ^ k.
Proof. intros Hk. apply Z.land_ones. exact Hk. Qed.

Lemma ReadTile_vram (d d1 : Display) (h : bool) (tile x y : Z) :
  m_vramCopy d1 = m_vramCopy d -> ReadTile d1 h tile x y = ReadTile d h tile x y.
Proof. intros E. unfold ReadTile. rewrite E. reflexivity. Qed.

Lemma of_bool_eqb_0 (b : bool) : (Int.of_bool b =? 0) = negb b.
Proof. destruct b; reflexivity. Qed.

Lemma map_offset (a : Z) :
  Int.u16 (Z.shiftl (Z.shiftr (Z.land a 255) 3) 5) = 32 * ((a mod 256) / 8).
Proof.
  change 255 with (Z.ones 8). rewrite Z.land_ones by lia.
  rewrite Z.shiftr_div_pow2, Z.shiftl_mul_pow2 by lia.
  change (2 ^ 8) with 256. change (2 ^ 3) with 8. change (2 ^ 5) with 32.
  unfold Int.u16.
  assert (0 <= a mod 256 < 256) by (apply Z.mod_pos_bound; lia).
  rewrite Z.mod_small; [ lia | ].
  Z.div_mod_to_equations. lia.
Qed.

Lemma bg_position_start (d : Display) (fb : list Z) :
  Int.is_u8 (SCX (m_registers d)) -> bg_position d 0 (line_start d fb).
Proof.
  unfold Int.is_u8, bg_position, line_start. cbv zeta.
  cbn [ls_bg_x ls_lineOffset ls_bg_tile].
  intros Hs. rewrite map_offset, Z.add_0_r.
  change 7 with (Z.ones 3). rewrite Z.land_ones by lia.
  rewrite Z.shiftr_div_pow2 by lia.
  change (2 ^ 3) with 8.
  assert (E : (SCX (m_registers d) / 8) mod 32 = SCX (m_registers d) / 8).
  { apply Z.mod_small. Z.div_mod_to_equations. lia. }
  rewrite E. repeat split; lia.
Qed.

Lemma render_pixel_background (d d1 : Display) (sp : list OAM_ENTRY)
    (num x : Z) (st : LineState) :
  m_registers d1 = m_registers d -> m_vramCopy d1 = m_vramCopy d ->
  Int.is_u8 (SCX (m_registers d)) ->
  Z.land (LCDC (m_registers d)) 1 <> 0 ->
  Z.land (LCDC (m_registers d)) 2 = 0 ->
  bg_position d x st ->
  let rp := render_pixel d1 sp num x st in
  fst rp = background_colour d x
  /\ forall fb, bg_position d (x + 1)
       (mkLineState (ls_lineOffset (snd rp)) (ls_bg_x (snd rp))
                    (ls_bg_tile (snd rp)) fb).
Proof.
  intros R V Hs Bg Sp (Hx & Ebx & Elo & Etile).
  unfold Int.is_u8 in Hs. cbv zeta in *.
  unfold render_pixel. cbv zeta. rewrite R, V.
  replace (Int.truthy (Z.land (LCDC (m_registers d)) 1)) with true
    by (unfold Int.truthy; symmetry; apply negb_true_iff, Z.eqb_neq; exact Bg).
  rewrite Sp. change (Int.truthy 0) with false. cbv iota.
  rewrite of_bool_eqb_0, map_offset.
  rewrite (ReadTile_vram d d1) by exact V.
  assert (Ey : Int.u8 (Z.land (LY (m_registers d) + SCY (m_registers d)) 7)
               = ((LY (m_registers d) + SCY (m_registers d)) mod 256) mod 8).
  { change 7 with (Z.ones 3). rewrite Z.land_ones by lia.
    change (2 ^ 3) with 8. unfold Int.u8.
    Z.div_mod_to_equations. lia. }
  rewrite Ey.
  set (a := SCX (m_registers d) + x) in *.
  assert (Ha : 0 <= a) by (unfold a; lia).
  assert (Eb : Int.u8 (ls_bg_x st + 1) = a mod 8 + 1).
  { rewrite Ebx. unfold Int.u8. Z.div_mod_to_equations. lia. }
  rewrite Eb.
  assert (Ecol : background_colour d x
                 = palette_of (BGP (m_registers d))
                     (grayscale_colors (Z.land (BGP (m_registers d)) 3))
                     (ReadTile d
                        (negb (Int.truthy (Z.land (LCDC (m_registers d)) 16)))
                        (ls_bg_tile st) (ls_bg_x st)
                        (((LY (m_registers d) + SCY (m_registers d)) mod 256)
                           mod 8))).
  { unfold background_colour. cbv zeta. fold a.
    rewrite Etile, Elo, Ebx. reflexivity. }
  assert (Ea : SCX (m_registers d) + (x + 1) = a + 1) by (unfold a; lia).
  destruct (Z.eqb_spec (a mod 8 + 1) 8) as [E8 | N8]; cbn [fst snd
    ls_lineOffset ls_bg_x ls_bg_tile].
  - split; [ symmetry; exact Ecol | ]. intros fb.
    unfold bg_position; cbv zeta;
      cbn [ls_lineOffset ls_bg_x ls_bg_tile]; rewrite Ea.
    assert (El : Int.u8 (Z.land (ls_lineOffset st + 1) 31)
                 = ((a + 1) / 8) mod 32).
    { rewrite Elo. change 31 with (Z.ones 5). rewrite Z.land_ones by lia.
      change (2 ^ 5) with 32. unfold Int.u8.
      Z.div_mod_to_equations. lia. }
    rewrite El.
    split; [ lia | ].
    split; [ Z.div_mod_to_equations; lia | ].
    split; reflexivity.
  - split; [ symmetry; exact Ecol | ]. intros fb.
    unfold bg_position; cbv zeta;
      cbn [ls_lineOffset ls_bg_x ls_bg_tile]; rewrite Ea.
    split; [ lia | ].
    split; [ Z.div_mod_to_equations; lia | ].
    split; [ rewrite Elo; Z.div_mod_to_equations; lia | exact Etile ].
Qed.

Lemma background_display_line : m_currentScanLine background_display = 0.
Proof. vm_compute. reflexivity. Qed.

(** X10.  With the LCD and the background on and the sprites off, every pixel of
    the rendered line has the colour the tile map gives it. *)
Theorem RenderScanline_background (stack : list OAM_ENTRY) (d : Display) :
  LY (m_registers d) = m_currentScanLine d ->
  0 <= m_currentScanLine d < SCREEN_HEIGHT ->
  Z.of_nat (length (m_frameBuffer d)) = SCREEN_WIDTH * SCREEN_HEIGHT * 4 ->
  Int.is_u8 (SCX (m_registers d)) ->
  Z.land (LCDC (m_registers d)) 0x80 <> 0 ->
  Z.land (LCDC (m_registers d)) 1 <> 0 ->
  Z.land (LCDC (m_registers d)) 2 = 0 ->
  forall x, 0 <= x < SCREEN_WIDTH ->
    GetPixel x (m_currentScanLine d) (m_frameBuffer (RenderScanline stack d))
    = background_colour d x.
Proof.
  intros Hly Hl Hlen Hs On Bg Sp.
  refine (proj2 (proj2 (proj2
    (RenderScanline_spec (bg_position d) (fun x c => c = background_colour d x)
       stack d _ _ _ Hly Hl Hlen)))).
  - intros _. split; [ intros fb; apply bg_position_start; exact Hs | ].
    intros d1 sp num x st R V Hi.
    apply (render_pixel_background d d1 sp num x st R V Hs Bg Sp Hi).
  - intros x c ->. apply shade_range. unfold background_colour. cbv zeta.
    apply palette_shade, grayscale_shade.
  - intros Off. unfold Int.truthy in Off.
    apply negb_false_iff, Z.eqb_eq in Off. contradiction.
Qed.

Lemma RenderScanline_background_witness :
  GetPixel 7 (m_currentScanLine background_display)
           (m_frameBuffer (RenderScanline [] background_display))
  = background_colour background_display 7.
Proof.
  apply (RenderScanline_background [] background_display);
    [ vm_compute; reflexivity
    | rewrite background_display_line; unfold SCREEN_HEIGHT; lia
    | vm_compute; reflexivity
    | unfold Int.is_u8; vm_compute; split; [ discriminate | reflexivity ]
    | vm_compute; discriminate
    | vm_compute; discriminate
    | vm_compute; reflexivity
    | unfold SCREEN_WIDTH; lia ].
Defined.

End DisplayFacts.

(* ================================================================== *)
(** * Properties of the cartridge *)

Section CartridgeFacts.

Import Cartridge.

(** ** Address windows

    The write functions switch on [address & 0xF000]; for a 16-bit address
    that is the 4 KiB window the address lies in. *)

Lemma land_F000 (a : Z) :
  0 <= a < 65536 -> Z.land a 0xF000 = 4096 * (a / 4096).
Proof.
  intros Ha.
  change 0xF000 with (Z.shiftl (Z.ones 4) 12).
  change 4096 with (2 ^ 12).
  rewrite Z.mul_comm, <- Z.shiftl_mul_pow2, <- Z.shiftr_div_pow2 by lia.
  apply Z.bits_inj'. intros n Hn.
  rewrite Z.land_spec.
  destruct (Z.ltb_spec n 12) as [Low | High].
  - rewrite !Z.shiftl_spec_low by lia. apply andb_false_r.
  - rewrite !Z.shiftl_spec_high by lia.
    rewrite Z.shiftr_spec by lia.
    replace (n - 12 + 12) with n by lia.
    destruct (Z.ltb_spec n 16) as [In | Above].
    + rewrite Z.ones_spec_low by lia. apply andb_true_r.
    + rewrite Z.ones_spec_high by lia. rewrite andb_false_r.
      symmetry. destruct (Z.eq_dec a 0) as [-> | Nz]; [ apply Z.bits_0 | ].
      apply Z.bits_above_log2; [ lia | ].
      assert (Z.log2 a < 16); [ apply Z.log2_lt_pow2; lia | lia ].
Qed.

Lemma window_of (a lo : Z) :
  0 <= lo < 16 -> 4096 * lo <= a < 4096 * lo + 4096 ->
  Z.land a 0xF000 = 4096 * lo.
Proof.
  intros Hlo Ha. rewrite land_F000 by lia.
  f_equal. symmetry. apply Z.div_unique with (r := a - 4096 * lo); lia.
Qed.

Ltac cmp :=
  repeat match goal with
    | |- context [ ?a <? ?b ] => destruct (Z.ltb_spec a b); try lia
    | |- context [ ?a <=? ?b ] => destruct (Z.leb_spec a b); try lia
    end.

Lemma window_pair (a k : Z) :
  0 <= k < 8 -> 8192 * k <= a < 8192 * k + 8192 ->
  Z.land a 0xF000 = 8192 * k \/ Z.land a 0xF000 = 8192 * k + 4096.
Proof.
  intros Hk Ha.
  destruct (Z.ltb_spec a (8192 * k + 4096)).
  - left. rewrite (window_of a (2 * k)); lia.
  - right. rewrite (window_of a (2 * k + 1)); lia.
Qed.

(** ** MBC1: RAM enable *)

Lemma SaveRAM_mbc_data (c : Cartridge) : m_mbc_data (SaveRAM c) = m_mbc_data c.
Proof.
  unfold SaveRAM.
  destruct ((m_external_ram_size c >? 0) && battery (m_typeinfo c)); reflexivity.
Qed.

(** C8, as amended.  For an MBC1 cartridge, after a write of [value] to an
    address in 0x0000-0x1FFF, [ram_enable] holds if and only if [value] is
    0x0A, all eight bits compared. *)
Theorem mbc1_ram_enable (c : Cartridge) (t address value : Z) :
  m_mbc c = MBC_MBC1 ->
  0x0000 <= address <= 0x1FFF ->
  MBC1.ram_enable (get_mbc1 (CPUWrite t address value c)) = (value =? 0x0A).
Proof.
  intros Hm Ha. unfold CPUWrite. rewrite Hm. unfold MBC_MBC1_Write.
  destruct (window_pair address 0 ltac:(lia) ltac:(lia)) as [-> | ->];
    change (8192 * 0) with 0; change (0 + 4096) with 4096;
    cbv [Z.eqb Pos.eqb orb].
  all: match goal with
       | |- context [ if ?b then SaveRAM ?x else _ ] => destruct b
       end; unfold get_mbc1; rewrite ?SaveRAM_mbc_data; reflexivity.
Qed.

Lemma load_mbc1_done : is_done load_mbc1 = true.
Proof. vm_compute. reflexivity. Qed.

Lemma mbc1_ram_enable_witness :
  MBC1.ram_enable (get_mbc1 (CPUWrite 0 0x0000 0x0A (cart load_mbc1)))
  = (0x0A =? 0x0A).
Proof.
  apply (mbc1_ram_enable (cart load_mbc1) 0 0x0000 0x0A); [ reflexivity | lia ].
Defined.

(** C8, as stated, fails at 0x1A: its low nibble is 0x0A, and the write
    leaves the RAM disabled. *)
Lemma mbc1_ram_enable_low_nibble_counterexample :
  ~ (MBC1.ram_enable (get_mbc1 (CPUWrite 0 0x0000 0x1A (cart load_mbc1))) = true
     <-> Z.land 0x1A 0x0F = 0x0A).
Proof.
  intros [_ H]. specialize (H eq_refl). vm_compute in H. discriminate H.
Qed.

(** ** MBC1: ROM bank selection

    The registers after [MBC_MBC1_UpdateActiveBanks], after a reset and
    after a write to one of the three selector windows. *)

Lemma MBC1_update_fields (c : Cartridge) :
  let m := get_mbc1 c in
  let c' := MBC_MBC1_UpdateActiveBanks c in
  get_mbc1 c' =
    MBC1.mk (MBC1.ram_enable m) (MBC1.bank_mode m) (MBC1.rom_bank_number m)
      (MBC1.ram_bank_number m)
      (mbc1_bank (MBC1.bank_mode m) (MBC1.rom_bank_number m)
                 (MBC1.ram_bank_number m) (m_num_rom_banks c))
      (if MBC1.bank_mode m =? 0 then 0
       else Int.u8 (Z.land (MBC1.ram_bank_number m) 0x03))
  /\ m_mbc c' = m_mbc c /\ m_num_rom_banks c' = m_num_rom_banks c.
Proof.
  unfold MBC_MBC1_UpdateActiveBanks, mbc1_bank.
  destruct (MBC1.bank_mode (get_mbc1 c) =? 0); repeat split.
Qed.

Lemma MBC1_write_registers (c : Cartridge) (t address value : Z) :
  m_mbc c = MBC_MBC1 -> 0x2000 <= address <= 0x7FFF ->
  let m := get_mbc1 c in
  CPUWrite t address value c =
  MBC_MBC1_UpdateActiveBanks
    (set_mbc1
       (MBC1.mk (MBC1.ram_enable m)
          (if address <? 0x6000 then MBC1.bank_mode m else value)
          (if address <? 0x4000 then value else MBC1.rom_bank_number m)
          (if (0x4000 <=? address) && (address <? 0x6000) then value
           else MBC1.ram_bank_number m)
          (MBC1.active_rom_bank m) (MBC1.active_ram_bank m)) c).
Proof.
  intros Hm Ha m. unfold CPUWrite. rewrite Hm. unfold MBC_MBC1_Write. fold m.
  assert (W : Z.land address 0xF000 = 0x2000 \/ Z.land address 0xF000 = 0x3000
              \/ Z.land address 0xF000 = 0x4000 \/ Z.land address 0xF000 = 0x5000
              \/ Z.land address 0xF000 = 0x6000 \/ Z.land address 0xF000 = 0x7000).
  { destruct (Z.ltb_spec address 0x4000);
      [ | destruct (Z.ltb_spec address 0x6000) ].
    - destruct (window_pair address 1 ltac:(lia) ltac:(lia)) as [-> | ->]; auto.
    - destruct (window_pair address 2 ltac:(lia) ltac:(lia)) as [-> | ->]; auto 6.
    - destruct (window_pair address 3 ltac:(lia) ltac:(lia)) as [-> | ->]; auto 7. }
  assert (R : forall k, Z.land address 0xF000 = 4096 * k -> 0 <= k < 16 ->
                        4096 * k <= address < 4096 * k + 4096).
  { intros k E Hk. rewrite land_F000 in E by lia.
    pose proof (Z.div_mod address 4096 ltac:(lia)).
    pose proof (Z.mod_pos_bound address 4096 ltac:(lia)). lia. }
  destruct W as [E | [E | [E | [E | [E | E]]]]]; rewrite E;
    [ pose proof (R 2 E ltac:(lia)) | pose proof (R 3 E ltac:(lia))
    | pose proof (R 4 E ltac:(lia)) | pose proof (R 5 E ltac:(lia))
    | pose proof (R 6 E ltac:(lia)) | pose proof (R 7 E ltac:(lia)) ];
    cmp; reflexivity.
Qed.

Lemma MBC1_write_fields (c : Cartridge) (t address value : Z) :
  m_mbc c = MBC_MBC1 -> 0x2000 <= address <= 0x7FFF ->
  let m := get_mbc1 c in
  let c' := CPUWrite t address value c in
  let mode := if address <? 0x6000 then MBC1.bank_mode m else value in
  let rom := if address <? 0x4000 then value else MBC1.rom_bank_number m in
  let ram := if (0x4000 <=? address) && (address <? 0x6000) then value
             else MBC1.ram_bank_number m in
  get_mbc1 c' =
    MBC1.mk (MBC1.ram_enable m) mode rom ram
      (mbc1_bank mode rom ram (m_num_rom_banks c))
      (if mode =? 0 then 0 else Int.u8 (Z.land ram 0x03))
  /\ m_mbc c' = MBC_MBC1 /\ m_num_rom_banks c' = m_num_rom_banks c.
Proof.
  intros Hm Ha m c' mode rom ram. subst c'.
  rewrite (MBC1_write_registers c t address value Hm Ha).
  fold m mode rom ram.
  match goal with
  | |- context [ MBC_MBC1_UpdateActiveBanks ?x ] =>
      destruct (MBC1_update_fields x) as (F & M & N)
  end.
  rewrite F, M, N. repeat split. exact Hm.
Qed.

Lemma MBC1_reset_fields (c : Cartridge) :
  m_mbc c = MBC_MBC1 ->
  let c' := Reset c in
  get_mbc1 c' = MBC1.mk false 0 1 0 (mbc1_bank 0 1 0 (m_num_rom_banks c)) 0
  /\ m_mbc c' = MBC_MBC1 /\ m_num_rom_banks c' = m_num_rom_banks c.
Proof.
  intros Hm. unfold Reset. rewrite Hm. unfold MBC_MBC1_Reset.
  match goal with
  | |- context [ MBC_MBC1_UpdateActiveBanks ?x ] =>
      destruct (MBC1_update_fields x) as (F & M & N)
  end.
  cbn zeta. rewrite F, M, N. repeat split. exact Hm.
Qed.

Lemma MBC1_write_mbc (c : Cartridge) (t address value : Z) :
  m_mbc c = MBC_MBC1 -> 0x2000 <= address <= 0x7FFF ->
  m_mbc (CPUWrite t address value c) = MBC_MBC1.
Proof. intros Hm Ha. apply (MBC1_write_fields c t address value Hm Ha). Qed.

Lemma MBC1_write_num (c : Cartridge) (t address value : Z) :
  m_mbc c = MBC_MBC1 -> 0x2000 <= address <= 0x7FFF ->
  m_num_rom_banks (CPUWrite t address value c) = m_num_rom_banks c.
Proof. intros Hm Ha. apply (MBC1_write_fields c t address value Hm Ha). Qed.

Lemma MBC1_write_bank (c : Cartridge) (t address value : Z) :
  m_mbc c = MBC_MBC1 -> 0x2000 <= address <= 0x7FFF ->
  MBC1.active_rom_bank (get_mbc1 (CPUWrite t address value c)) =
  mbc1_bank
    (if address <? 0x6000 then MBC1.bank_mode (get_mbc1 c) else value)
    (if address <? 0x4000 then value else MBC1.rom_bank_number (get_mbc1 c))
    (if (0x4000 <=? address) && (address <? 0x6000) then value
     else MBC1.ram_bank_number (get_mbc1 c))
    (m_num_rom_banks c).
Proof.
  intros Hm Ha.
  destruct (MBC1_write_fields c t address value Hm Ha) as (F & _ & _).
  rewrite F. reflexivity.
Qed.

Lemma MBC1_write_selectors (c : Cartridge) (t address value : Z) :
  m_mbc c = MBC_MBC1 -> 0x2000 <= address <= 0x7FFF ->
  let m := get_mbc1 (CPUWrite t address value c) in
  MBC1.bank_mode m
  = (if address <? 0x6000 then MBC1.bank_mode (get_mbc1 c) else value)
  /\ MBC1.rom_bank_number m
     = (if address <? 0x4000 then value else MBC1.rom_bank_number (get_mbc1 c))
  /\ MBC1.ram_bank_number m
     = (if (0x4000 <=? address) && (address <? 0x6000) then value
        else MBC1.ram_bank_number (get_mbc1 c)).
Proof.
  intros Hm Ha.
  destruct (MBC1_write_fields c t address value Hm Ha) as (F & _ & _).
  cbv zeta. rewrite F. repeat split.
Qed.

Ltac mbc1_is :=
  repeat first [ assumption | apply MBC1_write_mbc; [ | lia ] ].

Ltac mbc1_eval :=
  repeat match goal with
    | |- context [ MBC1.active_rom_bank (get_mbc1 (CPUWrite ?t ?a ?v ?c)) ] =>
        rewrite (MBC1_write_bank c t a v ltac:(mbc1_is) ltac:(lia))
    | |- context [ MBC1.bank_mode (get_mbc1 (CPUWrite ?t ?a ?v ?c)) ] =>
        rewrite (proj1 (MBC1_write_selectors c t a v ltac:(mbc1_is) ltac:(lia)))
    | |- context [ MBC1.rom_bank_number (get_mbc1 (CPUWrite ?t ?a ?v ?c)) ] =>
        rewrite (proj1 (proj2 (MBC1_write_selectors c t a v
                                 ltac:(mbc1_is) ltac:(lia))))
    | |- context [ MBC1.ram_bank_number (get_mbc1 (CPUWrite ?t ?a ?v ?c)) ] =>
        rewrite (proj2 (proj2 (MBC1_write_selectors c t a v
                                 ltac:(mbc1_is) ltac:(lia))))
    | |- context [ m_num_rom_banks (CPUWrite ?t ?a ?v ?c) ] =>
        rewrite (MBC1_write_num c t a v ltac:(mbc1_is) ltac:(lia))
    end.

(** C2, as amended.  For an MBC1 cartridge of at least two banks, after
    reset: a write of 0x00 to an address in 0x2000-0x3FFF gives active ROM
    bank 1; the writes 0x2000<-0x20, 0x4000<-0x00, 0x6000<-0x00 give active
    ROM bank 1 as well, the low five bits of 0x20 being zero; bank 0x21 is
    what 0x2000<-0x00, 0x4000<-0x01, 0x6000<-0x00 give when the cartridge
    has more than 0x21 banks.  In bank mode 0 the active bank is
    [(ram_bank_number << 5) | (rom_bank_number & 0x1F)] cut to eight bits,
    plus one when that is 0x00, 0x20, 0x40 or 0x60, replaced by
    [(uint8)num_rom_banks - 1] when it is not below [num_rom_banks]. *)
Theorem mbc1_rom_bank_after_reset (c0 : Cartridge) (t address : Z) :
  m_mbc c0 = MBC_MBC1 ->
  2 <= m_num_rom_banks c0 ->
  0x2000 <= address <= 0x3FFF ->
  let c := Reset c0 in
  let bank := fun c => MBC1.active_rom_bank (get_mbc1 c) in
  bank (CPUWrite t address 0x00 c) = 1
  /\ bank (bus_run [BusWrite t 0x2000 0x20; BusWrite t 0x4000 0x00;
                    BusWrite t 0x6000 0x00] c) = 1
  /\ (0x21 < m_num_rom_banks c0 ->
      bank (bus_run [BusWrite t 0x2000 0x00; BusWrite t 0x4000 0x01;
                     BusWrite t 0x6000 0x00] c) = 0x21)
  /\ (forall c1, MBC1.bank_mode (get_mbc1 c1) = 0 ->
      bank (MBC_MBC1_UpdateActiveBanks c1)
      = let b := Int.u8 (Z.lor (Z.shiftl (MBC1.ram_bank_number (get_mbc1 c1)) 5)
                               (Z.land (MBC1.rom_bank_number (get_mbc1 c1)) 0x1F)) in
        let b := if (b =? 0x00) || (b =? 0x20) || (b =? 0x40) || (b =? 0x60)
                 then b + 1 else b in
        if b >=? m_num_rom_banks c1 then Int.u8 (Int.u8 (m_num_rom_banks c1) - 1)
        else b).
Proof.
  intros Hm Hn Ha c bank.
  destruct (MBC1_reset_fields c0 Hm) as (F0 & M0 & N0). fold c in F0, M0, N0.
  clearbody c. unfold bank, bus_run, fold_left, bus_step.
  assert (Small : forall b, b < 2 -> (b >=? m_num_rom_banks c0) = false).
  { intros b Hb. rewrite Z.geb_leb. apply Z.leb_gt. lia. }
  repeat split.
  - mbc1_eval. rewrite F0, N0.
    replace (address <? 24576) with true by (symmetry; apply Z.ltb_lt; lia).
    replace (address <? 16384) with true by (symmetry; apply Z.ltb_lt; lia).
    replace (16384 <=? address) with false by (symmetry; apply Z.leb_gt; lia).
    cbn. unfold mbc1_bank. cbn. rewrite Small by lia. reflexivity.
  - mbc1_eval. rewrite F0, N0. cbn.
    unfold mbc1_bank. cbn. rewrite Small by lia. reflexivity.
  - intros Hbig. mbc1_eval. rewrite F0, N0. cbn.
    unfold mbc1_bank. cbn. rewrite Z.geb_leb. apply Z.leb_gt in Hbig.
    rewrite Hbig. reflexivity.
  - intros c1 Hmode.
    destruct (MBC1_update_fields c1) as (F & _ & _). rewrite F.
    unfold mbc1_bank. cbn [MBC1.active_rom_bank]. rewrite Hmode. cbn [Z.eqb].
    cbv zeta.
    set (b := Int.u8 _).
    destruct (Z.eqb_spec b 0) as [-> | ?]; [ reflexivity | ].
    destruct (Z.eqb_spec b 32) as [-> | ?]; [ reflexivity | ].
    destruct (Z.eqb_spec b 64) as [-> | ?]; [ reflexivity | ].
    destruct (Z.eqb_spec b 96) as [-> | ?]; reflexivity.
Qed.

(** C2: the witness and the counterexample.  On the 64-bank cartridge the
    sequence of the claim selects bank 1, not 0x21. *)
Lemma mbc1_rom_bank_after_reset_witness :
  MBC1.active_rom_bank
    (get_mbc1 (CPUWrite 0 0x2000 0x00 (Reset (cart load_mbc1)))) = 1.
Proof.
  refine (proj1 (mbc1_rom_bank_after_reset (cart load_mbc1) 0 0x2000 _ _ _));
    [ reflexivity | vm_compute; discriminate | lia ].
Defined.

Lemma mbc1_bank_0x21_counterexample :
  MBC1.active_rom_bank
    (get_mbc1 (bus_run [BusWrite 0 0x2000 0x20; BusWrite 0 0x4000 0x00;
                        BusWrite 0 0x6000 0x00] (Reset (cart load_mbc1))))
  <> 0x21.
Proof. vm_compute. discriminate. Qed.

(** ** Save states: the CRC gate *)

(** C4.  When the four bytes at the head of the stream, read as a
    little-endian [uint32], differ from the CRC of the cartridge,
    [LoadState] fails with the CRC error and the cartridge is exactly what
    it was. *)
Theorem load_state_crc_gate (c : Cartridge) (stream rest : list Z) (crc : Z) :
  Stream.ReadUInt32 stream = Some (crc, rest) ->
  crc <> m_crc c ->
  LoadState stream c =
  Some (Failed 1 "CRC mismatch between save state cartridge and this cartridge",
        rest, c).
Proof.
  intros Hr Hc. unfold LoadState, lbind, read, this, lret. rewrite Hr.
  destruct (Z.eqb_spec crc (m_crc c)) as [E | _]; [ contradiction | ].
  reflexivity.
Qed.

Lemma load_state_crc_gate_witness :
  LoadState (SaveState (cart load_mbc1)) (cart load_mbc3) =
  Some (Failed 1 "CRC mismatch between save state cartridge and this cartridge",
        skipn 4 (SaveState (cart load_mbc1)), cart load_mbc3).
Proof.
  apply (load_state_crc_gate (cart load_mbc3) (SaveState (cart load_mbc1))
           (skipn 4 (SaveState (cart load_mbc1))) 0x1234ABCD).
  - vm_compute. reflexivity.
  - vm_compute. discriminate.
Defined.

(** ** MBC5: the clamp of the active bank *)

(** C9.  An MBC5 cartridge of 256 banks (ROM size code 0x07), as [Load]
    leaves it: the write 0x3000<-0x01 programs selector 0x101, and the
    active ROM bank becomes 0xFFFF, far above the 256 banks there are. *)
Theorem mbc5_bank_out_of_range :
  let c := cart load_mbc5 in
  let c' := CPUWrite 0 0x3000 0x01 c in
  is_done load_mbc5 = true
  /\ m_mbc c = MBC_MBC5
  /\ m_num_rom_banks c = 256
  /\ MBC5.rom_bank_number (get_mbc5 c') = 0x101
  /\ MBC5.active_rom_bank (get_mbc5 c') = 0xFFFF
  /\ m_num_rom_banks c' = 256.
Proof. vm_compute. repeat split. Qed.

(** ** Save states: the MBC3 latch *)

(** C3.  An MBC3 cartridge is saved with [1;1;1;0;0] in its latched
    registers; later, holding [2;2;2;0;0], it loads that state.  The load
    succeeds and uses up the stream, and the latched registers still hold
    [2;2;2;0;0]: they are not part of the saved state. *)
Theorem mbc3_save_state_drops_latch :
  is_done load_mbc3 = true
  /\ MBC3.rtc_latch_data (get_mbc3 latched_once) = [1; 1; 1; 0; 0]
  /\ MBC3.rtc_latch (get_mbc3 latched_once) = 1
  /\ MBC3.rtc_latch_data (get_mbc3 latched_twice) = [2; 2; 2; 0; 0]
  /\ match LoadState (SaveState latched_once) latched_twice with
     | Some (Done tt, rest, c) =>
         rest = []
         /\ MBC3.rtc_latch_data (get_mbc3 c) = [2; 2; 2; 0; 0]
         /\ MBC3.rtc_latch_data (get_mbc3 c)
            <> MBC3.rtc_latch_data (get_mbc3 latched_once)
     | _ => False
     end.
Proof.
  vm_compute. repeat split. discriminate.
Qed.


(** ** MBC3: the latch protocol

    Every path through [MBC_MBC3_Write] but the latching one leaves the
    latched registers alone. *)

Lemma SaveRAM_fields (c : Cartridge) :
  m_mbc_data (SaveRAM c) = m_mbc_data c /\ m_mbc (SaveRAM c) = m_mbc c
  /\ m_rtc_data (SaveRAM c) = m_rtc_data c.
Proof.
  unfold SaveRAM.
  destruct ((m_external_ram_size c >? 0) && battery (m_typeinfo c));
    repeat split.
Qed.

Lemma SaveRTC_fields (c : Cartridge) :
  m_mbc_data (SaveRTC c) = m_mbc_data c /\ m_mbc (SaveRTC c) = m_mbc c.
Proof. unfold SaveRTC. destruct (negb (timer (m_typeinfo c))); repeat split. Qed.

Lemma eram_put_fields (o v : Z) (c : Cartridge) :
  m_mbc_data (eram_put o v c) = m_mbc_data c /\ m_mbc (eram_put o v c) = m_mbc c.
Proof.
  unfold eram_put.
  destruct (o <? m_external_ram_size c); [ | repeat split ].
  destruct (m_external_ram c) as [ p | ]; [ | repeat split ].
  destruct (negb (Buf.get p o =? v)); repeat split.
Qed.

Lemma rtc_offset_write_fields (b : bool) (r : RTCData) (c : Cartridge) :
  m_mbc_data (rtc_offset_write b r c) = m_mbc_data c
  /\ m_mbc (rtc_offset_write b r c) = m_mbc c.
Proof.
  unfold rtc_offset_write. destruct b; [ | repeat split ].
  destruct (SaveRTC_fields (set_rtc_data r c)) as [-> ->]. repeat split.
Qed.

Lemma SaveRAM_get_mbc3 (c : Cartridge) : get_mbc3 (SaveRAM c) = get_mbc3 c.
Proof. unfold get_mbc3. destruct (SaveRAM_fields c) as (-> & _). reflexivity. Qed.

Lemma SaveRAM_m_mbc (c : Cartridge) : m_mbc (SaveRAM c) = m_mbc c.
Proof. apply SaveRAM_fields. Qed.

Lemma eram_put_get_mbc3 (o v : Z) (c : Cartridge) :
  get_mbc3 (eram_put o v c) = get_mbc3 c.
Proof. unfold get_mbc3. destruct (eram_put_fields o v c) as (-> & _). reflexivity. Qed.

Lemma eram_put_m_mbc (o v : Z) (c : Cartridge) :
  m_mbc (eram_put o v c) = m_mbc c.
Proof. apply eram_put_fields. Qed.

Lemma rtc_offset_write_get_mbc3 (b : bool) (r : RTCData) (c : Cartridge) :
  get_mbc3 (rtc_offset_write b r c) = get_mbc3 c.
Proof.
  unfold get_mbc3. destruct (rtc_offset_write_fields b r c) as (-> & _).
  reflexivity.
Qed.

Lemma rtc_offset_write_m_mbc (b : bool) (r : RTCData) (c : Cartridge) :
  m_mbc (rtc_offset_write b r c) = m_mbc c.
Proof. apply rtc_offset_write_fields. Qed.

Ltac mbc3_frame :=
  rewrite ?SaveRAM_get_mbc3, ?SaveRAM_m_mbc, ?eram_put_get_mbc3,
    ?eram_put_m_mbc, ?rtc_offset_write_get_mbc3, ?rtc_offset_write_m_mbc.

Lemma MBC3_write_latch (c : Cartridge) (t address value : Z) :
  let c' := MBC_MBC3_Write t address value c in
  MBC3.rtc_latch_data (get_mbc3 c')
  = (if latch_edge c (BusWrite t address value)
     then latch_bytes (GetCurrentRTCTime t c)
     else MBC3.rtc_latch_data (get_mbc3 c))
  /\ m_mbc c' = m_mbc c.
Proof.
  unfold MBC_MBC3_Write, latch_edge.
  set (w := Z.land address 0xF000).
  destruct (Z.eqb_spec w 0x0000) as [E0 | N0];
    [ rewrite E0 | destruct (Z.eqb_spec w 0x1000) as [E1 | N1];
                   [ rewrite E1 | ] ]; cbn [orb andb Z.eqb Pos.eqb].
  1, 2: match goal with
        | |- context [ if ?b then SaveRAM ?x else _ ] =>
            destruct b; mbc3_frame; split; reflexivity
        end.
  destruct (Z.eqb_spec w 0x2000) as [E2 | N2];
    [ rewrite E2 | destruct (Z.eqb_spec w 0x3000) as [E3 | N3];
                   [ rewrite E3 | ] ]; cbn [orb andb Z.eqb Pos.eqb].
  1, 2: split; reflexivity.
  destruct (Z.eqb_spec w 0x4000) as [E4 | N4];
    [ rewrite E4 | destruct (Z.eqb_spec w 0x5000) as [E5 | N5];
                   [ rewrite E5 | ] ]; cbn [orb andb Z.eqb Pos.eqb].
  1, 2: split; reflexivity.
  destruct ((w =? 0x6000) || (w =? 0x7000)); cbn [andb].
  { destruct (negb _ && _); split; reflexivity. }
  destruct ((address >=? 40960) && (address <? 49152)); [ | split; reflexivity ].
  destruct (MBC3.ram_rtc_enable (get_mbc3 c)); [ | split; reflexivity ].
  destruct (MBC3.ram_bank_number (get_mbc3 c) <=? 7).
  { mbc3_frame. split; reflexivity. }
  destruct (_ && _); [ | split; reflexivity ].
  repeat match goal with
         | |- context [ if ?b =? ?k then _ else _ ] => destruct (b =? k)
         end.
  all: mbc3_frame; try (split; reflexivity).
  change (get_mbc3 (set_rtc_data ?r ?x)) with (get_mbc3 x).
  change (m_mbc (set_rtc_data ?r ?x)) with (m_mbc x).
  mbc3_frame. split; reflexivity.
Qed.

Lemma bus_step_latch (c : Cartridge) (op : BusOp) :
  m_mbc c = MBC_MBC3 ->
  m_mbc (bus_step c op) = MBC_MBC3
  /\ (latch_edge c op = false ->
      MBC3.rtc_latch_data (get_mbc3 (bus_step c op))
      = MBC3.rtc_latch_data (get_mbc3 c)).
Proof.
  intros Hm. destruct op as [ a | t a v ]; cbn [bus_step].
  - split; [ exact Hm | reflexivity ].
  - unfold CPUWrite. rewrite Hm.
    destruct (MBC3_write_latch c t a v) as [L M].
    split; [ rewrite M; exact Hm | ].
    intros E. rewrite L, E. reflexivity.
Qed.

Lemma latch_stable (ops : list BusOp) :
  forall c : Cartridge,
    m_mbc c = MBC_MBC3 ->
    latch_free c ops = true ->
    MBC3.rtc_latch_data (get_mbc3 (bus_run ops c))
    = MBC3.rtc_latch_data (get_mbc3 c).
Proof.
  induction ops as [ | op ops IH ]; intros c Hm Hfree; [ reflexivity | ].
  cbn [latch_free] in Hfree. apply andb_prop in Hfree. destruct Hfree as [E F].
  apply negb_true_iff in E.
  destruct (bus_step_latch c op Hm) as [Hm' Hs].
  unfold bus_run. cbn [fold_left]. fold (bus_run ops (bus_step c op)).
  rewrite (IH _ Hm' F). apply Hs. exact E.
Qed.

Lemma reads_latch_free (addresses : list Z) :
  forall c : Cartridge,
    latch_free c (map BusRead addresses) = true
    /\ bus_run (map BusRead addresses) c = c.
Proof.
  induction addresses as [ | a l IH ]; intros c; [ split; reflexivity | ].
  cbn [map latch_free latch_edge negb andb bus_step].
  unfold bus_run. cbn [fold_left bus_step]. apply IH.
Qed.

(** C7, as amended.  For an MBC3 cartridge, a write of [value] to an
    address in 0x6000-0x7FFF stores [value] in the latch register, and
    copies the clock into the five latched registers exactly when [value]
    is 1 and the latch register held anything but 1; otherwise the latched
    registers are unchanged.  Reads change nothing, and the latched
    registers are the same after any run of reads and writes none of which
    is such a latching write. *)
Theorem mbc3_latch_protocol (c : Cartridge) (t address value : Z) :
  m_mbc c = MBC_MBC3 ->
  0x6000 <= address <= 0x7FFF ->
  let c' := CPUWrite t address value c in
  MBC3.rtc_latch (get_mbc3 c') = value
  /\ MBC3.rtc_latch_data (get_mbc3 c')
     = (if negb (MBC3.rtc_latch (get_mbc3 c) =? 0x01) && (value =? 0x01)
        then latch_bytes (GetCurrentRTCTime t c)
        else MBC3.rtc_latch_data (get_mbc3 c))
  /\ (forall addresses : list Z,
        bus_run (map BusRead addresses) c = c)
  /\ (forall ops : list BusOp,
        latch_free c ops = true ->
        MBC3.rtc_latch_data (get_mbc3 (bus_run ops c))
        = MBC3.rtc_latch_data (get_mbc3 c)).
Proof.
  intros Hm Ha c'.
  assert (W : (Z.land address 0xF000 =? 0x6000)
              || (Z.land address 0xF000 =? 0x7000) = true).
  { destruct (window_pair address 3 ltac:(lia) ltac:(lia)) as [-> | ->];
      reflexivity. }
  split; [ | split; [ | split ] ].
  - subst c'. unfold CPUWrite. rewrite Hm. unfold MBC_MBC3_Write.
    destruct (window_pair address 3 ltac:(lia) ltac:(lia)) as [-> | ->];
      reflexivity.
  - subst c'. unfold CPUWrite. rewrite Hm.
    destruct (MBC3_write_latch c t address value) as [L _]. rewrite L.
    unfold latch_edge. rewrite W. reflexivity.
  - intros addresses. apply reads_latch_free.
  - intros ops. apply latch_stable. exact Hm.
Qed.

Lemma mbc3_latch_protocol_witness :
  MBC3.rtc_latch (get_mbc3 (CPUWrite 4661 0x6000 1 (cart load_mbc3))) = 1.
Proof.
  apply (mbc3_latch_protocol (cart load_mbc3) 4661 0x6000 1);
    [ reflexivity | lia ].
Defined.

(** C7, as stated, fails when the latch register holds 2: the write of 1
    is no transition from 0 to 1, and the latched registers change. *)
Lemma mbc3_latch_from_two_counterexample :
  let c := CPUWrite 1000 0x6000 2 (cart load_mbc3) in
  ~ (MBC3.rtc_latch (get_mbc3 c) <> 0 ->
     MBC3.rtc_latch_data (get_mbc3 (CPUWrite 4661 0x6000 1 c))
     = MBC3.rtc_latch_data (get_mbc3 c)).
Proof.
  intros c H.
  assert (N : MBC3.rtc_latch (get_mbc3 c) <> 0) by (vm_compute; discriminate).
  specialize (H N). vm_compute in H. discriminate H.
Qed.

(** ** MBC3: the clock reading *)

Lemma s32_small (x : Z) : 0 <= x < 2147483648 -> Int.s32 x = x.
Proof.
  intros H. unfold Int.s32. rewrite Z.mod_small by lia.
  destruct (Z.ltb_spec x 2147483648); lia.
Qed.

Lemma u64_small (x : Z) : 0 <= x < 18446744073709551616 -> Int.u64 x = x.
Proof. intros H. unfold Int.u64. apply Z.mod_small. exact H. Qed.

Lemma u64_add_l (a b : Z) : Int.u64 (Int.u64 a + b) = Int.u64 (a + b).
Proof. unfold Int.u64. apply Z.add_mod_idemp_l. lia. Qed.

(** [GetCurrentRTCTime] in closed form: the sum is formed in [uint64]
    arithmetic, so [t] is the clock reading modulo [2^64]. *)
Lemma GetCurrentRTCTime_exact (c : Cartridge) (now : Z) :
  let r := m_rtc_data c in
  let t := Int.u64 (rtc_seconds now r) in
  Int.is_u8 (offset_seconds r) -> Int.is_u8 (offset_minutes r) ->
  Int.is_u8 (offset_hours r) -> 0 <= offset_days r <= 24855 ->
  GetCurrentRTCTime now c
  = mkRTCValue (t mod 60) ((t / 60) mod 60) ((t / 3600) mod 24)
               (Int.u32 (t / 86400)).
Proof.
  intros r t Hs Hm Hh Hd.
  unfold Int.is_u8 in *.
  unfold GetCurrentRTCTime. fold r.
  rewrite (s32_small (offset_minutes r * 60)) by lia.
  rewrite (s32_small (offset_hours r * 3600)) by lia.
  rewrite (s32_small (offset_days r * 86400)) by lia.
  rewrite (u64_small (offset_seconds r)) by lia.
  rewrite (u64_small (offset_minutes r * 60)) by lia.
  rewrite (u64_small (offset_hours r * 3600)) by lia.
  rewrite (u64_small (offset_days r * 86400)) by lia.
  assert (E : Int.u64 (Int.u64 (Int.u64 (Int.u64 (Int.u64 (now - base_time r)
                + offset_seconds r) + offset_minutes r * 60)
                + offset_hours r * 3600) + offset_days r * 86400) = t).
  { subst t.
    rewrite (u64_add_l (now - base_time r) (offset_seconds r)).
    rewrite (u64_add_l (now - base_time r + offset_seconds r)).
    rewrite (u64_add_l (now - base_time r + offset_seconds r
                        + offset_minutes r * 60)).
    rewrite (u64_add_l (now - base_time r + offset_seconds r
                        + offset_minutes r * 60 + offset_hours r * 3600)).
    unfold rtc_seconds. f_equal. lia. }
  rewrite E.
  assert (T : 0 <= t < 18446744073709551616).
  { subst t. unfold Int.u64. apply Z.mod_pos_bound. lia. }
  pose proof (Z.mod_pos_bound t 60 ltac:(lia)).
  pose proof (Z.mod_pos_bound (t / 60) 60 ltac:(lia)).
  pose proof (Z.mod_pos_bound (t / 3600) 24 ltac:(lia)).
  unfold Int.u32.
  rewrite (Z.mod_small (t mod 60)) by lia.
  rewrite (Z.mod_small ((t / 60) mod 60)) by lia.
  rewrite (Z.mod_small ((t / 3600) mod 24)) by lia.
  reflexivity.
Qed.

(** A read with an RTC register selected returns the latched copy. *)
Lemma MBC3_read_rtc_register (c : Cartridge) (address : Z) :
  m_mbc c = MBC_MBC3 ->
  MBC3.ram_rtc_enable (get_mbc3 c) = true ->
  0x08 <= MBC3.ram_bank_number (get_mbc3 c) <= 0x0C ->
  0xA000 <= address <= 0xBFFF ->
  CPURead address c
  = Buf.get (MBC3.rtc_latch_data (get_mbc3 c))
            (MBC3.ram_bank_number (get_mbc3 c) - 0x08).
Proof.
  intros Hm He Hs Ha. unfold CPURead. rewrite Hm. unfold MBC_MBC3_Read.
  unfold in_low_rom, in_high_rom, in_eram.
  rewrite He.
  destruct (window_pair address 5 ltac:(lia) ltac:(lia)) as [-> | ->];
    cbn [Z.mul Z.add Pos.mul Pos.add Z.eqb Pos.eqb orb].
  all: replace (MBC3.ram_bank_number (get_mbc3 c) <=? 7) with false
         by (symmetry; apply Z.leb_gt; lia);
       replace (MBC3.ram_bank_number (get_mbc3 c) >=? 8) with true
         by (symmetry; rewrite Z.geb_leb; apply Z.leb_le; lia);
       replace (MBC3.ram_bank_number (get_mbc3 c) <=? 12) with true
         by (symmetry; apply Z.leb_le; lia);
       cbn [andb]; unfold Int.u8; rewrite Z.mod_small by lia; reflexivity.
Qed.

(** The five latched bytes of a clock value within its ranges. *)
Lemma latch_bytes_exact (v : RTCValue) :
  0 <= seconds v < 60 -> 0 <= minutes v < 60 -> 0 <= hours v < 24 ->
  0 <= days v ->
  latch_bytes v =
  [ seconds v; minutes v; hours v; days v mod 256;
    Z.lor ((days v / 256) mod 2) (if days v >=? 512 then 128 else 0) ].
Proof.
  intros Hs Hm Hh Hd. unfold latch_bytes, Int.u8.
  rewrite (Z.mod_small (seconds v)) by lia.
  rewrite (Z.mod_small (minutes v)) by lia.
  rewrite (Z.mod_small (hours v)) by lia.
  change 255 with (Z.ones 8). rewrite Z.land_ones by lia.
  change 1 with (Z.ones 1) at 1. rewrite Z.land_ones by lia.
  rewrite Z.shiftr_div_pow2 by lia.
  change (2 ^ 8) with 256. change (2 ^ 1) with 2.
  rewrite (Z.mod_small (days v mod 256) 256)
    by (apply Z.mod_pos_bound; lia).
  pose proof (Z.mod_pos_bound (days v / 256) 2 ltac:(lia)).
  rewrite (Z.mod_small ((days v / 256) mod 2) 256) by lia.
  assert (B : Z.lor ((days v / 256) mod 2)
                (Z.shiftl (Int.of_bool (days v >=? 512) mod 256) 7)
              = Z.lor ((days v / 256) mod 2)
                  (if days v >=? 512 then 128 else 0)).
  { destruct (days v >=? 512); reflexivity. }
  rewrite B.
  assert (R : 0 <= Z.lor ((days v / 256) mod 2)
                (if days v >=? 512 then 128 else 0) < 256).
  { assert (C : (days v / 256) mod 2 = 0 \/ (days v / 256) mod 2 = 1) by lia.
    destruct C as [-> | ->]; destruct (days v >=? 512); cbn; lia. }
  rewrite (Z.mod_small _ 256 R). reflexivity.
Qed.

(** The clock in closed form, as long as the product of the day offset
    and 86400 fits an [int] (a day offset of at most 24855).  For an MBC3
    cartridge whose other clock fields are in the ranges of
    their types, let [t] be [(now - base_time) + offset_seconds
    + 60 * offset_minutes + 3600 * offset_hours + 86400 * offset_days],
    formed in unsigned 64-bit arithmetic (so [t] is that sum itself whenever
    the sum lies in [0, 2^64)).  Then [GetCurrentRTCTime] is [t mod 60],
    [(t / 60) mod 60], [(t / 3600) mod 24] and [t / 86400] as a [uint32]
    (which is [t / 86400] itself below [86400 * 2^32] seconds); a latching
    write stores these in the latched registers; a read of 0xA000-0xBFFF
    with a selector 0x08-0x0C returns the selected latched register; and the
    latched registers stay as they are until the next latching write,
    whatever the host clock does meanwhile. *)
Theorem rtc_latched_registers (c : Cartridge) (now address : Z) :
  let r := m_rtc_data c in
  let t := Int.u64 (rtc_seconds now r) in
  let D := Int.u32 (t / 86400) in
  m_mbc c = MBC_MBC3 ->
  Int.is_u8 (offset_seconds r) -> Int.is_u8 (offset_minutes r) ->
  Int.is_u8 (offset_hours r) -> 0 <= offset_days r <= 24855 ->
  MBC3.rtc_latch (get_mbc3 c) <> 0x01 ->
  MBC3.ram_rtc_enable (get_mbc3 c) = true ->
  0x08 <= MBC3.ram_bank_number (get_mbc3 c) <= 0x0C ->
  0xA000 <= address <= 0xBFFF ->
  let c1 := CPUWrite now 0x6000 0x01 c in
  (0 <= rtc_seconds now r < 2 ^ 64 -> t = rtc_seconds now r)
  /\ GetCurrentRTCTime now c
     = mkRTCValue (t mod 60) ((t / 60) mod 60) ((t / 3600) mod 24) D
  /\ (t < 86400 * 2 ^ 32 -> D = t / 86400)
  /\ MBC3.rtc_latch_data (get_mbc3 c1)
     = [ t mod 60; (t / 60) mod 60; (t / 3600) mod 24; D mod 256;
         Z.lor ((D / 256) mod 2) (if D >=? 512 then 128 else 0) ]
  /\ CPURead address c1
     = Buf.get (MBC3.rtc_latch_data (get_mbc3 c1))
               (MBC3.ram_bank_number (get_mbc3 c) - 0x08)
  /\ (forall ops : list BusOp,
        latch_free c1 ops = true ->
        MBC3.rtc_latch_data (get_mbc3 (bus_run ops c1))
        = MBC3.rtc_latch_data (get_mbc3 c1)).
Proof.
  intros r t D Hm Hs Hmi Hh Hd Hl He Hsel Ha c1.
  pose proof (GetCurrentRTCTime_exact c now Hs Hmi Hh Hd) as V.
  fold r t D in V.
  assert (T : 0 <= t < 18446744073709551616).
  { subst t. unfold Int.u64. apply Z.mod_pos_bound. lia. }
  assert (C1 : get_mbc3 c1
               = MBC3.mk true (MBC3.rom_bank_number (get_mbc3 c))
                   (MBC3.ram_bank_number (get_mbc3 c)) 1
                   (latch_bytes (GetCurrentRTCTime now c))).
  { subst c1. unfold CPUWrite. rewrite Hm. unfold MBC_MBC3_Write.
    cbn [Z.land Pos.land Z.eqb Pos.eqb orb andb Pos.succ Pos.Nsucc_double
         Pos.Ndouble Z.of_N].
    rewrite He.
    destruct (Z.eqb_spec (MBC3.rtc_latch (get_mbc3 c)) 1); [ contradiction | ].
    reflexivity. }
  assert (M1 : m_mbc c1 = MBC_MBC3).
  { subst c1. unfold CPUWrite. rewrite Hm.
    destruct (MBC3_write_latch c now 0x6000 1) as [_ M]. rewrite M. exact Hm. }
  assert (L : MBC3.rtc_latch_data (get_mbc3 c1)
     = [ t mod 60; (t / 60) mod 60; (t / 3600) mod 24; D mod 256;
         Z.lor ((D / 256) mod 2) (if D >=? 512 then 128 else 0) ]).
  { rewrite C1. cbn [MBC3.rtc_latch_data]. rewrite V.
    apply latch_bytes_exact; cbn [seconds minutes hours days];
      try (apply Z.mod_pos_bound; lia). }
  split.
  { intros Hx. subst t. apply u64_small.
    change (2 ^ 64) with 18446744073709551616 in Hx. exact Hx. }
  split; [ exact V | ].
  split.
  { intros Hx. subst D. unfold Int.u32. apply Z.mod_small. split.
    - apply Z.div_pos; lia.
    - apply Z.div_lt_upper_bound; lia. }
  split; [ exact L | ].
  split.
  - rewrite (MBC3_read_rtc_register c1 address M1); rewrite ?C1; cbn; auto.
  - intros ops Hfree. apply latch_stable; assumption.
Qed.

Ltac by_evaluation :=
  vm_compute; repeat split; try discriminate; try reflexivity.

Lemma rtc_latched_registers_witness :
  CPURead 0xA000 (CPUWrite 4661 0x6000 0x01 rtc_selected) = 1.
Proof.
  pose proof (rtc_latched_registers rtc_selected 4661 0xA000) as H.
  cbv zeta in H.
  assert (G : m_mbc rtc_selected = MBC_MBC3) by by_evaluation.
  assert (H1 : Int.is_u8 (offset_seconds (m_rtc_data rtc_selected)))
    by by_evaluation.
  assert (H2 : Int.is_u8 (offset_minutes (m_rtc_data rtc_selected)))
    by by_evaluation.
  assert (H3 : Int.is_u8 (offset_hours (m_rtc_data rtc_selected)))
    by by_evaluation.
  assert (H4 : 0 <= offset_days (m_rtc_data rtc_selected) <= 24855)
    by by_evaluation.
  assert (H7 : MBC3.rtc_latch (get_mbc3 rtc_selected) <> 1) by by_evaluation.
  assert (H8 : MBC3.ram_rtc_enable (get_mbc3 rtc_selected) = true)
    by by_evaluation.
  assert (H9 : 8 <= MBC3.ram_bank_number (get_mbc3 rtc_selected) <= 12)
    by by_evaluation.
  assert (H10 : 40960 <= 40960 <= 49151) by lia.
  destruct (H G H1 H2 H3 H4 H7 H8 H9 H10) as (_ & _ & _ & L & R & _).
  rewrite R, L. vm_compute. reflexivity.
Defined.

(** Scenario S2: a latch 3661 seconds after the base time gives one
    second, one minute, one hour. *)
Example rtc_scenario_S2 :
  let c := bus_run [BusWrite 1000 0x6000 0; BusWrite 4661 0x6000 1]
                   (cart load_mbc3) in
  base_time (m_rtc_data (cart load_mbc3)) = 1000
  /\ MBC3.rtc_latch_data (get_mbc3 c) = [1; 1; 1; 0; 0].
Proof. vm_compute. split; reflexivity. Qed.

(** C10.  The MBC3 cartridge that saved its clock when the game wrote 98
    to the seconds register, loaded again with that clock file: [LoadRTC]
    takes the saved seconds for the high byte of the day offset, which
    becomes 25088, a value of its type.  At host time 2000 the clock
    reading [t] is 2,167,604,200 seconds: 25088 days, 0 hours, 16 minutes
    and 40 seconds.  [GetCurrentRTCTime] forms [offset_days * 86400] in
    [int], where 2,167,603,200 does not fit, and returns 1,158,025,819
    days and 48 minutes; after a latch the minutes register reads 48 and
    the low day register 91, where [t] gives 16 and 0. *)
Theorem rtc_day_product_overflows :
  let c := cart reload_mbc3 in
  let r := m_rtc_data c in
  let t := rtc_seconds 2000 r in
  let c1 := bus_run [BusWrite 2000 0x0000 0x0A; BusWrite 2000 0x6000 0;
                     BusWrite 2000 0x6000 1] c in
  is_done reload_mbc3 = true
  /\ clock_file = [232; 3; 0; 0; 0; 0; 0; 0; 0; 0; 0; 0; 98; 0; 0; 0]
  /\ r = mkRTCData 1000 0 0 0 25088 false
  /\ (offset_days r <? 65536) = true
  /\ t = 2167604200
  /\ (t mod 60, (t / 60) mod 60, (t / 3600) mod 24, t / 86400)
     = (40, 16, 0, 25088)
  /\ Int.s32 (offset_days r * 86400) = -2127364096
  /\ GetCurrentRTCTime 2000 c = mkRTCValue 40 48 0 1158025819
  /\ MBC3.rtc_latch_data (get_mbc3 c1) = [40; 48; 0; 91; 128]
  /\ CPURead 0xA000 (CPUWrite 2000 0x4000 0x09 c1) = 48
  /\ CPURead 0xA000 (CPUWrite 2000 0x4000 0x0B c1) = 91.
Proof. vm_compute. repeat split. Qed.


(** ** The bank registers of MBC1 and MBC3 stay in range *)

Lemma u8_range (x : Z) : 0 <= Int.u8 x < 256.
Proof. unfold Int.u8. apply Z.mod_pos_bound. lia. Qed.

(** With eight-bit bank registers the clamp of MBC1 and MBC3 does what it
    says: after any run of bus operations the active bank exists. *)
Lemma mbc1_bank_in_range (mode rom ram num : Z) :
  Int.is_u8 rom -> 1 <= num -> 0 <= mbc1_bank mode rom ram num < num.
Proof.
  unfold Int.is_u8, mbc1_bank. intros Hr Hn.
  set (b0 := if mode =? 0 then _ else rom).
  assert (H0 : 0 <= b0 < 256).
  { subst b0. destruct (mode =? 0); [ apply u8_range | exact Hr ]. }
  set (b1 := if _ : bool then Int.u8 (b0 + 1) else b0).
  assert (H1 : 0 <= b1 < 256).
  { subst b1. destruct (_ || _); [ apply u8_range | exact H0 ]. }
  rewrite Z.geb_leb.
  destruct (Z.leb_spec num b1) as [Big | Small]; [ | lia ].
  unfold Int.u8. rewrite (Z.mod_small num) by lia.
  rewrite Z.mod_small by lia. lia.
Qed.

Lemma SaveRAM_keeps (c : Cartridge) :
  m_mbc_data (SaveRAM c) = m_mbc_data c /\ m_mbc (SaveRAM c) = m_mbc c
  /\ m_num_rom_banks (SaveRAM c) = m_num_rom_banks c.
Proof.
  unfold SaveRAM.
  destruct ((m_external_ram_size c >? 0) && battery (m_typeinfo c));
    repeat split.
Qed.

Lemma eram_put_keeps (o v : Z) (c : Cartridge) :
  m_mbc_data (eram_put o v c) = m_mbc_data c /\ m_mbc (eram_put o v c) = m_mbc c
  /\ m_num_rom_banks (eram_put o v c) = m_num_rom_banks c.
Proof.
  unfold eram_put.
  destruct (o <? m_external_ram_size c); [ | repeat split ].
  destruct (m_external_ram c) as [ p | ]; [ | repeat split ].
  destruct (negb (Buf.get p o =? v)); repeat split.
Qed.

Lemma MBC1_update_ok (c : Cartridge) :
  m_mbc c = MBC_MBC1 -> 1 <= m_num_rom_banks c ->
  Int.is_u8 (MBC1.rom_bank_number (get_mbc1 c)) ->
  mbc1_ok (MBC_MBC1_UpdateActiveBanks c).
Proof.
  intros Hm Hn Hr. unfold mbc1_ok.
  unfold MBC_MBC1_UpdateActiveBanks.
  pose proof (mbc1_bank_in_range (MBC1.bank_mode (get_mbc1 c))
                (MBC1.rom_bank_number (get_mbc1 c))
                (MBC1.ram_bank_number (get_mbc1 c)) (m_num_rom_banks c) Hr Hn)
    as B.
  unfold mbc1_bank in B.
  destruct (MBC1.bank_mode (get_mbc1 c) =? 0);
    cbn [get_mbc1 set_mbc1 set_mbc_data m_mbc_data mbc1 m_mbc m_num_rom_banks
         MBC1.rom_bank_number MBC1.active_rom_bank];
    repeat split; try assumption; try apply Hr; apply B.
Qed.

Lemma mbc1_ok_frame (c c' : Cartridge) :
  MBC1.rom_bank_number (get_mbc1 c') = MBC1.rom_bank_number (get_mbc1 c) ->
  MBC1.active_rom_bank (get_mbc1 c') = MBC1.active_rom_bank (get_mbc1 c) ->
  m_mbc c' = m_mbc c -> m_num_rom_banks c' = m_num_rom_banks c ->
  mbc1_ok c -> mbc1_ok c'.
Proof.
  unfold mbc1_ok. intros -> -> -> ->. exact (fun H => H).
Qed.

Lemma MBC1_write_ok (c : Cartridge) (t address value : Z) :
  mbc1_ok c -> Int.is_u8 value -> mbc1_ok (CPUWrite t address value c).
Proof.
  intros Ok Hv. pose proof Ok as (Hm & Hn & Hr & Ha).
  unfold CPUWrite. rewrite Hm. unfold MBC_MBC1_Write.
  set (w := Z.land address 0xF000).
  destruct ((w =? 0x0000) || (w =? 0x1000)).
  { match goal with
    | |- context [ if ?b then SaveRAM ?x else _ ] =>
        destruct b; [ destruct (SaveRAM_keeps x) as (D & M & N) | ]
    end.
    - apply (mbc1_ok_frame c);
        [ unfold get_mbc1 at 1; rewrite D; reflexivity
        | unfold get_mbc1 at 1; rewrite D; reflexivity
        | rewrite M; reflexivity | rewrite N; reflexivity | exact Ok ].
    - apply (mbc1_ok_frame c); try reflexivity; exact Ok. }
  destruct ((w =? 0x2000) || (w =? 0x3000));
    [ apply MBC1_update_ok; cbn; assumption | ].
  destruct ((w =? 0x4000) || (w =? 0x5000));
    [ apply MBC1_update_ok; cbn; assumption | ].
  destruct ((w =? 0x6000) || (w =? 0x7000));
    [ apply MBC1_update_ok; cbn; assumption | ].
  destruct ((address >=? 0xA000) && (address <? 0xC000)); [ | exact Ok ].
  destruct (m_external_ram c) eqn:Er; [ | exact Ok ].
  destruct (MBC1.ram_enable (get_mbc1 c)); [ | exact Ok ].
  match goal with
  | |- mbc1_ok (eram_put ?o ?v ?x) =>
      destruct (eram_put_keeps o v x) as (D & M & N)
  end.
  apply (mbc1_ok_frame c);
    [ unfold get_mbc1 at 1; rewrite D; reflexivity
    | unfold get_mbc1 at 1; rewrite D; reflexivity
    | rewrite M; reflexivity | rewrite N; reflexivity | exact Ok ].
Qed.

Lemma MBC3_update_ok (c : Cartridge) :
  m_mbc c = MBC_MBC3 -> 1 <= m_num_rom_banks c ->
  0 <= MBC3.rom_bank_number (get_mbc3 c) < 256 ->
  mbc3_ok (MBC_MBC3_UpdateActiveBanks c).
Proof.
  intros Hm Hn Hr. unfold mbc3_ok, MBC_MBC3_UpdateActiveBanks.
  cbn [get_mbc3 set_mbc3 set_mbc_data m_mbc_data mbc3 m_mbc m_num_rom_banks
       MBC3.rom_bank_number].
  fold (get_mbc3 c).
  split; [ exact Hm | ]. split; [ exact Hn | ].
  set (r0 := MBC3.rom_bank_number (get_mbc3 c)) in *.
  set (r1 := if r0 =? 0 then Int.u8 (r0 + 1) else r0).
  assert (H1 : 0 <= r1 < 256).
  { subst r1. destruct (r0 =? 0); [ apply u8_range | exact Hr ]. }
  rewrite Z.geb_leb.
  destruct (Z.leb_spec (m_num_rom_banks c) r1) as [Big | Small]; [ | lia ].
  unfold Int.u8. rewrite (Z.mod_small (m_num_rom_banks c)) by lia.
  rewrite Z.mod_small by lia. lia.
Qed.

Lemma mbc3_ok_frame (c c' : Cartridge) :
  MBC3.rom_bank_number (get_mbc3 c') = MBC3.rom_bank_number (get_mbc3 c) ->
  m_mbc c' = m_mbc c -> m_num_rom_banks c' = m_num_rom_banks c ->
  mbc3_ok c -> mbc3_ok c'.
Proof. unfold mbc3_ok. intros -> -> ->. exact (fun H => H). Qed.

Lemma SaveRTC_keeps (c : Cartridge) :
  m_mbc_data (SaveRTC c) = m_mbc_data c /\ m_mbc (SaveRTC c) = m_mbc c
  /\ m_num_rom_banks (SaveRTC c) = m_num_rom_banks c.
Proof. unfold SaveRTC. destruct (negb (timer (m_typeinfo c))); repeat split. Qed.

Lemma rtc_offset_write_keeps (b : bool) (r : RTCData) (c : Cartridge) :
  m_mbc_data (rtc_offset_write b r c) = m_mbc_data c
  /\ m_mbc (rtc_offset_write b r c) = m_mbc c
  /\ m_num_rom_banks (rtc_offset_write b r c) = m_num_rom_banks c.
Proof.
  unfold rtc_offset_write. destruct b; [ | repeat split ].
  destruct (SaveRTC_keeps (set_rtc_data r c)) as (-> & -> & ->). repeat split.
Qed.

Lemma MBC3_write_ok (c : Cartridge) (t address value : Z) :
  mbc3_ok c -> Int.is_u8 value -> mbc3_ok (CPUWrite t address value c).
Proof.
  intros Ok Hv. pose proof Ok as (Hm & Hn & Hr).
  unfold CPUWrite. rewrite Hm. unfold MBC_MBC3_Write.
  set (w := Z.land address 0xF000).
  destruct ((w =? 0x0000) || (w =? 0x1000)).
  { match goal with
    | |- context [ if ?b then SaveRAM ?x else _ ] =>
        destruct b; [ destruct (SaveRAM_keeps x) as (D & M & N) | ]
    end.
    - apply (mbc3_ok_frame c);
        [ unfold get_mbc3 at 1; rewrite D; reflexivity
        | rewrite M; reflexivity | rewrite N; reflexivity | exact Ok ].
    - apply (mbc3_ok_frame c); try reflexivity; exact Ok. }
  destruct ((w =? 0x2000) || (w =? 0x3000)).
  { apply MBC3_update_ok; cbn; try assumption.
    change 127 with (Z.ones 7). rewrite Z.land_ones by lia.
    pose proof (Z.mod_pos_bound value (2 ^ 7) ltac:(lia)).
    change (2 ^ 7) with 128 in *. lia. }
  destruct ((w =? 0x4000) || (w =? 0x5000)).
  { destruct (Z.ltb_spec (MBC3.rom_bank_number (get_mbc3 c)) 256).
    - apply MBC3_update_ok; cbn; try assumption. fold (get_mbc3 c). lia.
    - unfold mbc3_ok, MBC_MBC3_UpdateActiveBanks.
      cbn [get_mbc3 set_mbc3 set_mbc_data m_mbc_data mbc3 m_mbc
           m_num_rom_banks MBC3.rom_bank_number].
      fold (get_mbc3 c).
      destruct (Z.eqb_spec (MBC3.rom_bank_number (get_mbc3 c)) 0); [ lia | ].
      rewrite Z.geb_leb.
      destruct (Z.leb_spec (m_num_rom_banks c)
                  (MBC3.rom_bank_number (get_mbc3 c))); [ lia | ].
      repeat split; try assumption; lia. }
  destruct ((w =? 0x6000) || (w =? 0x7000)).
  { apply (mbc3_ok_frame c); try reflexivity; exact Ok. }
  destruct ((address >=? 0xA000) && (address <? 0xC000)); [ | exact Ok ].
  destruct (MBC3.ram_rtc_enable (get_mbc3 c)); [ | exact Ok ].
  destruct (MBC3.ram_bank_number (get_mbc3 c) <=? 7).
  { match goal with
    | |- mbc3_ok (eram_put ?o ?v ?x) =>
        destruct (eram_put_keeps o v x) as (D & M & N)
    end.
    apply (mbc3_ok_frame c);
      [ unfold get_mbc3 at 1; rewrite D; reflexivity
      | rewrite M; reflexivity | rewrite N; reflexivity | exact Ok ]. }
  destruct (_ && _); [ | exact Ok ].
  repeat match goal with
         | |- context [ if ?b =? ?k then _ else _ ] => destruct (b =? k)
         end.
  all: match goal with
       | |- context [ rtc_offset_write ?b ?r ?x ] =>
           destruct (rtc_offset_write_keeps b r x) as (D & M & N)
       end.
  all: apply (mbc3_ok_frame c);
         [ unfold get_mbc3 at 1; cbn [set_rtc_data m_mbc_data]; rewrite D;
           reflexivity
         | cbn [set_rtc_data m_mbc]; rewrite M; reflexivity
         | cbn [set_rtc_data m_num_rom_banks]; rewrite N; reflexivity
         | exact Ok ].
Qed.

Lemma MBC1_bank_in_range (ops : list BusOp) :
  forall c : Cartridge,
    mbc1_ok c -> Forall byte_op ops -> mbc1_ok (bus_run ops c).
Proof.
  induction ops as [ | op ops IH ]; intros c Ok Hb; [ exact Ok | ].
  inversion Hb as [ | ? ? Hop Hrest ]; subst.
  unfold bus_run. cbn [fold_left]. apply IH; [ | exact Hrest ].
  destruct op as [ a | t a v ]; cbn [bus_step]; [ exact Ok | ].
  apply MBC1_write_ok; assumption.
Qed.

Lemma MBC3_bank_in_range (ops : list BusOp) :
  forall c : Cartridge,
    mbc3_ok c -> Forall byte_op ops -> mbc3_ok (bus_run ops c).
Proof.
  induction ops as [ | op ops IH ]; intros c Ok Hb; [ exact Ok | ].
  inversion Hb as [ | ? ? Hop Hrest ]; subst.
  unfold bus_run. cbn [fold_left]. apply IH; [ | exact Hrest ].
  destruct op as [ a | t a v ]; cbn [bus_step]; [ exact Ok | ].
  apply MBC3_write_ok; assumption.
Qed.

(** ** What a save state restores *)

(** Each reader takes back what its writer wrote. *)
Lemma le_decode_bytes_from (x : Z) (n : nat) :
  forall k : Z,
    0 <= k ->
    le_decode (bytes_from x k n) = (x / 2 ^ (8 * k)) mod 256 ^ Z.of_nat n.
Proof.
  induction n as [ | n IH ]; intros k Hk.
  - cbn. rewrite Z.mod_1_r. reflexivity.
  - cbn [bytes_from le_decode]. rewrite IH by lia.
    unfold Stream.byte_of.
    rewrite Nat2Z.inj_succ, Z.pow_succ_r by lia.
    rewrite Z.rem_mul_r by lia.
    replace (8 * (k + 1)) with (8 * k + 8) by lia.
    rewrite Z.pow_add_r by lia.
    rewrite <- Z.div_div by lia.
    change (2 ^ 8) with 256. reflexivity.
Qed.

Lemma le_roundtrip (x : Z) (n : nat) :
  0 <= x < 256 ^ Z.of_nat n -> le_decode (bytes_from x 0 n) = x.
Proof.
  intros Hx. rewrite le_decode_bytes_from by lia.
  change (2 ^ (8 * 0)) with 1. rewrite Z.div_1_r. apply Z.mod_small. exact Hx.
Qed.

Ltac bytes_lia :=
  match goal with R : _ = _ |- _ => revert R end;
  repeat match goal with
    | |- context [ Stream.byte_of ?a ?k ] =>
        generalize (Stream.byte_of a k); intro
    end;
  intros; lia.

Lemma read_write_u8 (x : Z) (s : list Z) :
  Int.is_u8 x -> Stream.ReadUInt8 (Stream.WriteUInt8 x ++ s) = Some (x, s).
Proof.
  intros Hx. unfold Stream.ReadUInt8, Stream.WriteUInt8. cbn [app].
  pose proof (le_roundtrip x 1 Hx) as R.
  cbn [bytes_from le_decode Z.add Pos.add Pos.succ] in R.
  do 2 f_equal. bytes_lia.
Qed.

Lemma read_write_u16 (x : Z) (s : list Z) :
  Int.is_u16 x -> Stream.ReadUInt16 (Stream.WriteUInt16 x ++ s) = Some (x, s).
Proof.
  intros Hx. unfold Stream.ReadUInt16, Stream.WriteUInt16. cbn [app].
  pose proof (le_roundtrip x 2 Hx) as R.
  cbn [bytes_from le_decode Z.add Pos.add Pos.succ] in R.
  do 2 f_equal. bytes_lia.
Qed.

Lemma read_write_u32 (x : Z) (s : list Z) :
  Int.is_u32 x -> Stream.ReadUInt32 (Stream.WriteUInt32 x ++ s) = Some (x, s).
Proof.
  intros Hx. unfold Stream.ReadUInt32, Stream.WriteUInt32. cbn [app].
  pose proof (le_roundtrip x 4 Hx) as R.
  cbn [bytes_from le_decode Z.add Pos.add Pos.succ] in R.
  do 2 f_equal. bytes_lia.
Qed.

Lemma read_write_u64 (x : Z) (s : list Z) :
  Int.is_u64 x -> Stream.ReadUInt64 (Stream.WriteUInt64 x ++ s) = Some (x, s).
Proof.
  intros Hx. unfold Stream.ReadUInt64, Stream.WriteUInt64. cbn [app].
  pose proof (le_roundtrip x 8 Hx) as R.
  cbn [bytes_from le_decode Z.add Pos.add Pos.succ] in R.
  do 2 f_equal. bytes_lia.
Qed.

Lemma read_write_bool (b : bool) (s : list Z) :
  Stream.ReadBool (Stream.WriteBool b ++ s) = Some (b, s).
Proof. destruct b; reflexivity. Qed.

Lemma read_write_bytes (p s : list Z) (n : Z) :
  Z.of_nat (length p) = n ->
  Stream.ReadBytes n (Stream.WriteBytes p n ++ s) = Some (p, s).
Proof.
  intros Hn. unfold Stream.ReadBytes, Stream.WriteBytes.
  assert (E : Z.to_nat n = length p) by lia.
  rewrite E, firstn_all, length_app.
  destruct (Z.ltb_spec (Z.of_nat (length p + length s)) n); [ lia | ].
  rewrite firstn_app, Nat.sub_diag, firstn_all. cbn [firstn].
  rewrite app_nil_r.
  rewrite skipn_app, Nat.sub_diag, skipn_all. reflexivity.
Qed.

Lemma lbind_read {A B : Type} (r : Stream.Reader A) (k : A -> Loader B)
    (s s' : list Z) (c : Cartridge) (x : A) :
  r s = Some (x, s') -> lbind (read r) k s c = k x s' c.
Proof. intros E. unfold lbind, read. rewrite E. reflexivity. Qed.

Ltac read_field :=
  match goal with
  | |- context [ lbind (read Stream.ReadUInt8) ?k (Stream.WriteUInt8 ?x ++ ?s) ?c ] =>
      rewrite (lbind_read Stream.ReadUInt8 k _ s c x (read_write_u8 x s ltac:(assumption)))
  | |- context [ lbind (read Stream.ReadUInt16) ?k (Stream.WriteUInt16 ?x ++ ?s) ?c ] =>
      rewrite (lbind_read Stream.ReadUInt16 k _ s c x (read_write_u16 x s ltac:(assumption)))
  | |- context [ lbind (read Stream.ReadUInt32) ?k (Stream.WriteUInt32 ?x ++ ?s) ?c ] =>
      rewrite (lbind_read Stream.ReadUInt32 k _ s c x (read_write_u32 x s ltac:(assumption)))
  | |- context [ lbind (read Stream.ReadUInt64) ?k (Stream.WriteUInt64 ?x ++ ?s) ?c ] =>
      rewrite (lbind_read Stream.ReadUInt64 k _ s c x (read_write_u64 x s ltac:(assumption)))
  | |- context [ lbind (read Stream.ReadBool) ?k (Stream.WriteBool ?x ++ ?s) ?c ] =>
      rewrite (lbind_read Stream.ReadBool k _ s c x (read_write_bool x s))
  end.

Lemma MBC1_state_round_trip (S c : Cartridge) (rest : list Z) :
  let m := get_mbc1 S in
  Int.is_u8 (MBC1.active_rom_bank m) -> Int.is_u8 (MBC1.active_ram_bank m) ->
  Int.is_u8 (MBC1.bank_mode m) -> Int.is_u8 (MBC1.rom_bank_number m) ->
  Int.is_u8 (MBC1.ram_bank_number m) ->
  MBC_MBC1_LoadState (MBC_MBC1_SaveState S ++ rest) c
  = Some (negb (MBC1.active_rom_bank m >=? m_num_rom_banks c), rest,
          set_mbc1 m c).
Proof.
  intros m H1 H2 H3 H4 H5.
  unfold MBC_MBC1_LoadState, MBC_MBC1_SaveState. fold m.
  rewrite <- !app_assoc.
  repeat read_field.
  unfold lbind, update, this, lret.
  destruct m; cbn [MBC1.active_rom_bank]. 
  destruct (_ >=? _); reflexivity.
Qed.

Lemma MBC3_state_round_trip (S c : Cartridge) (rest : list Z) :
  let m := get_mbc3 S in
  Int.is_u8 (MBC3.rom_bank_number m) -> Int.is_u8 (MBC3.ram_bank_number m) ->
  MBC_MBC3_LoadState (MBC_MBC3_SaveState S ++ rest) c
  = Some (negb (MBC3.rom_bank_number m >=? m_num_rom_banks c), rest,
          set_mbc3 (MBC3.mk (MBC3.ram_rtc_enable m) (MBC3.rom_bank_number m)
                            (MBC3.ram_bank_number m)
                            (MBC3.rtc_latch (get_mbc3 c))
                            (MBC3.rtc_latch_data (get_mbc3 c))) c).
Proof.
  intros m H1 H2.
  unfold MBC_MBC3_LoadState, MBC_MBC3_SaveState. fold m.
  rewrite <- !app_assoc.
  repeat read_field.
  unfold lbind, update, this, lret. cbn [m_num_rom_banks set_mbc3 set_mbc_data].
  destruct (_ >=? _); reflexivity.
Qed.

Lemma MBC5_state_round_trip (S c : Cartridge) (rest : list Z) :
  let m := get_mbc5 S in
  Int.is_u16 (MBC5.active_rom_bank m) -> Int.is_u16 (MBC5.rom_bank_number m) ->
  Int.is_u8 (MBC5.ram_bank_number m) ->
  MBC_MBC5_LoadState (MBC_MBC5_SaveState S ++ rest) c
  = Some (negb (MBC5.active_rom_bank m >=? m_num_rom_banks c), rest,
          set_mbc5 m c).
Proof.
  intros m H1 H2 H3.
  unfold MBC_MBC5_LoadState, MBC_MBC5_SaveState. fold m.
  rewrite <- !app_assoc.
  repeat read_field.
  unfold lbind, update, this, lret.
  destruct m; cbn [MBC5.active_rom_bank].
  destruct (_ >=? _); reflexivity.
Qed.

Lemma geb_false (a b : Z) : a < b -> (a >=? b) = false.
Proof. intros H. rewrite Z.geb_leb. apply Z.leb_gt. exact H. Qed.

Lemma u32_lnot_MBC (m : MBC) : Int.is_u32 (Int.u32 (Z.lnot (MBC_value m))).
Proof. unfold Int.is_u32, Int.u32. apply Z.mod_pos_bound. lia. Qed.

Lemma MBC_value_u32 (m : MBC) : Int.is_u32 (MBC_value m).
Proof. unfold Int.is_u32. destruct m; cbn; lia. Qed.

(** Loading what [S] saved, into an object for the same ROM, succeeds and
    leaves [loaded_from S c]. *)
Lemma save_state_round_trip (S c : Cartridge) (rest : list Z) :
  state_ok S -> same_rom S c ->
  LoadState (SaveState S ++ rest) c = Some (Done tt, rest, loaded_from S c).
Proof.
  intros (Hcrc & Hsize & Hram & (Hb & Hd & Hh & Hmi & Hs) & Hmbc)
         (Ecrc & Embc & Enum & Esize & Ebuf).
  unfold LoadState, SaveState, loaded_from.
  rewrite <- !app_assoc.
  read_field.
  unfold lbind at 1, this at 1.
  rewrite Ecrc, Z.eqb_refl. cbn [negb].
  read_field.
  rewrite Esize, Z.eqb_refl. cbn [negb].
  (* the external RAM *)
  assert (Ram : forall (k : unit -> Loader (Result unit)) (s : list Z),
    lbind (if m_external_ram_size S >? 0
           then lbind (read (Stream.ReadBytes (m_external_ram_size S)))
                  (fun bytes => update (fun c0 =>
                     match m_external_ram c0 with
                     | Some _ => set_external_ram (Some bytes) c0
                     | None => c0
                     end))
           else lret tt) k
      ((if m_external_ram_size S >? 0
        then match m_external_ram S with
             | Some p => Stream.WriteBytes p (m_external_ram_size S)
             | None => []
             end
        else []) ++ s) c
    = k tt s (if m_external_ram_size S >? 0
              then set_external_ram (m_external_ram S) c else c)).
  { intros k s.
    destruct (Z.gtb_spec (m_external_ram_size S) 0) as [Pos | Zero];
      [ | reflexivity ].
    destruct (Hram Pos) as (p & Ep & Lp). rewrite Ep.
    unfold lbind at 1.
    rewrite (lbind_read _ _ _ s c p (read_write_bytes p s _ Lp)).
    unfold update.
    destruct (m_external_ram c) eqn:Ec; [ reflexivity | ].
    exfalso. apply Ebuf; [ lia | reflexivity ]. }
  rewrite Ram. clear Ram.
  set (c1 := if m_external_ram_size S >? 0 then _ else c).
  read_field.
  (* the clock *)
  assert (Rtc : forall (k : unit -> Loader (Result unit)) (s : list Z),
    lbind (if timer (m_typeinfo S)
           then lbind (read Stream.ReadUInt64) (fun base_time =>
                lbind (read Stream.ReadUInt16) (fun offset_days =>
                lbind (read Stream.ReadUInt8) (fun offset_hours =>
                lbind (read Stream.ReadUInt8) (fun offset_minutes =>
                lbind (read Stream.ReadUInt8) (fun offset_seconds =>
                lbind (read Stream.ReadBool) (fun active =>
                update (set_rtc_data
                  (mkRTCData base_time offset_seconds offset_minutes
                             offset_hours offset_days active))))))))
           else lret tt) k
      ((if timer (m_typeinfo S)
        then Stream.WriteUInt64 (base_time (m_rtc_data S)) ++
             Stream.WriteUInt16 (offset_days (m_rtc_data S)) ++
             Stream.WriteUInt8 (offset_hours (m_rtc_data S)) ++
             Stream.WriteUInt8 (offset_minutes (m_rtc_data S)) ++
             Stream.WriteUInt8 (offset_seconds (m_rtc_data S)) ++
             Stream.WriteBool (active (m_rtc_data S))
        else []) ++ s) c1
    = k tt s (if timer (m_typeinfo S)
              then set_rtc_data (m_rtc_data S) c1 else c1)).
  { intros k s. destruct (timer (m_typeinfo S)); [ | reflexivity ].
    rewrite <- !app_assoc. unfold lbind at 1.
    repeat read_field. unfold update.
    destruct (m_rtc_data S); reflexivity. }
  rewrite Rtc. clear Rtc.
  set (c2 := if timer (m_typeinfo S) then _ else c1).
  rewrite (lbind_read Stream.ReadUInt32 _ _ _ c2 _
             (read_write_u32 _ _ (MBC_value_u32 (m_mbc S)))).
  rewrite Embc, Z.eqb_refl. cbn [negb].
  assert (N2 : m_num_rom_banks c2 = m_num_rom_banks S).
  { subst c2 c1. destruct (timer _), (_ >? _); exact Enum. }
  destruct (m_mbc S) eqn:Km; try contradiction.
  - (* no controller *)
    unfold MBC_NONE_LoadState, MBC_NONE_SaveState. cbn [app].
    unfold lbind at 1, lret at 1. cbn [negb].
    rewrite (lbind_read Stream.ReadUInt32 _ _ _ c2 _
               (read_write_u32 _ _ (u32_lnot_MBC MBC_NONE))).
    rewrite Z.eqb_refl. reflexivity.
  - (* MBC1 *)
    destruct Hmbc as (A1 & A2 & A3 & A4 & A5 & A6).
    unfold lbind at 1.
    rewrite (MBC1_state_round_trip S c2 _ A1 A2 A3 A4 A5).
    rewrite N2, (geb_false _ _ A6). cbn [negb].
    rewrite (lbind_read Stream.ReadUInt32 _ _ _ _ _
               (read_write_u32 _ _ (u32_lnot_MBC MBC_MBC1))).
    rewrite Z.eqb_refl. reflexivity.
  - (* MBC3 *)
    destruct Hmbc as (A1 & A2 & A3).
    unfold lbind at 1.
    rewrite (MBC3_state_round_trip S c2 _ A1 A2).
    rewrite N2, (geb_false _ _ A3). cbn [negb].
    rewrite (lbind_read Stream.ReadUInt32 _ _ _ _ _
               (read_write_u32 _ _ (u32_lnot_MBC MBC_MBC3))).
    rewrite Z.eqb_refl. reflexivity.
  - (* MBC5 *)
    destruct Hmbc as (A1 & A2 & A3 & A4).
    unfold lbind at 1.
    rewrite (MBC5_state_round_trip S c2 _ A1 A2 A3).
    rewrite N2, (geb_false _ _ A4). cbn [negb].
    rewrite (lbind_read Stream.ReadUInt32 _ _ _ _ _
               (read_write_u32 _ _ (u32_lnot_MBC MBC_MBC5))).
    rewrite Z.eqb_refl. reflexivity.
Qed.

(** It restores the external RAM, the clock fields and the registers of
    MBC1 and MBC5; of the MBC3 registers the two latch fields keep the
    values the loading object had. *)
Lemma loaded_from_restores (S c : Cartridge) :
  let c' := loaded_from S c in
  (0 < m_external_ram_size S -> m_external_ram c' = m_external_ram S)
  /\ (timer (m_typeinfo S) = true -> m_rtc_data c' = m_rtc_data S)
  /\ (m_mbc S = MBC_MBC1 -> get_mbc1 c' = get_mbc1 S)
  /\ (m_mbc S = MBC_MBC5 -> get_mbc5 c' = get_mbc5 S)
  /\ (m_mbc S = MBC_MBC3 ->
      MBC3.ram_rtc_enable (get_mbc3 c') = MBC3.ram_rtc_enable (get_mbc3 S)
      /\ MBC3.rom_bank_number (get_mbc3 c') = MBC3.rom_bank_number (get_mbc3 S)
      /\ MBC3.ram_bank_number (get_mbc3 c') = MBC3.ram_bank_number (get_mbc3 S)
      /\ MBC3.rtc_latch (get_mbc3 c') = MBC3.rtc_latch (get_mbc3 c)
      /\ MBC3.rtc_latch_data (get_mbc3 c') = MBC3.rtc_latch_data (get_mbc3 c)).
Proof.
  unfold loaded_from. cbv zeta.
  split; [ | split; [ | split; [ | split ] ] ].
  - intros Pos. apply Z.gtb_lt in Pos. rewrite Pos.
    destruct (timer (m_typeinfo S)), (m_mbc S); reflexivity.
  - intros E. rewrite E.
    destruct (m_external_ram_size S >? 0), (m_mbc S); reflexivity.
  - intros E. rewrite E. reflexivity.
  - intros E. rewrite E. reflexivity.
  - intros E. rewrite E.
    destruct (m_external_ram_size S >? 0), (timer (m_typeinfo S));
      repeat split.
Qed.

(** The two MBC3 states of C3 satisfy the hypotheses above. *)
Lemma example_states_ok :
  state_ok latched_once /\ same_rom latched_once latched_twice.
Proof.
  unfold state_ok, same_rom, Int.is_u8, Int.is_u16, Int.is_u32, Int.is_u64.
  vm_compute. repeat split; try discriminate; try reflexivity.
  all: intros H; discriminate H.
Qed.

(** ** What the bus cannot change *)

Lemma SaveRAM_identity (c : Cartridge) : identity (SaveRAM c) = identity c.
Proof.
  unfold SaveRAM.
  destruct ((m_external_ram_size c >? 0) && battery (m_typeinfo c));
    reflexivity.
Qed.

Lemma SaveRTC_identity (c : Cartridge) : identity (SaveRTC c) = identity c.
Proof. unfold SaveRTC. destruct (negb (timer (m_typeinfo c))); reflexivity. Qed.

Lemma eram_put_identity (o v : Z) (c : Cartridge) :
  identity (eram_put o v c) = identity c.
Proof.
  unfold eram_put.
  destruct (o <? m_external_ram_size c); [ | reflexivity ].
  destruct (m_external_ram c) as [ p | ] eqn:E; [ | reflexivity ].
  unfold identity.
  destruct (negb (Buf.get p o =? v));
    cbn [set_external_ram set_external_ram_modified m_mbc m_crc m_typeinfo
         m_system_mode m_rom_banks m_num_rom_banks m_external_ram_size
         m_external_ram option_map];
    rewrite E; cbn [option_map]; rewrite store_length; reflexivity.
Qed.

Lemma rtc_offset_write_identity (b : bool) (r : RTCData) (c : Cartridge) :
  identity (rtc_offset_write b r c) = identity c.
Proof.
  unfold rtc_offset_write. destruct b; [ | reflexivity ].
  rewrite SaveRTC_identity. reflexivity.
Qed.

Lemma MBC_NONE_Write_identity (a v : Z) (c : Cartridge) :
  identity (MBC_NONE_Write a v c) = identity c.
Proof.
  unfold MBC_NONE_Write.
  destruct (_ && _); [ | reflexivity ].
  destruct (m_external_ram c) as [ p | ] eqn:E; [ | reflexivity ].
  destruct (_ <? _); [ | reflexivity ].
  unfold identity.
  cbn [set_external_ram m_mbc m_crc m_typeinfo m_system_mode m_rom_banks
       m_num_rom_banks m_external_ram_size m_external_ram option_map].
  rewrite E. cbn [option_map]. rewrite store_length. reflexivity.
Qed.

Lemma MBC_MBC1_Write_identity (a v : Z) (c : Cartridge) :
  identity (MBC_MBC1_Write a v c) = identity c.
Proof.
  unfold MBC_MBC1_Write. cbv zeta.
  destruct (_ || _).
  { destruct (_ && _); rewrite ?SaveRAM_identity; reflexivity. }
  destruct (_ || _).
  { unfold MBC_MBC1_UpdateActiveBanks. destruct (_ =? _); reflexivity. }
  destruct (_ || _).
  { unfold MBC_MBC1_UpdateActiveBanks. destruct (_ =? _); reflexivity. }
  destruct (_ || _).
  { unfold MBC_MBC1_UpdateActiveBanks. destruct (_ =? _); reflexivity. }
  destruct (_ && _); [ | reflexivity ].
  destruct (m_external_ram c); [ | reflexivity ].
  destruct (MBC1.ram_enable _); [ apply eram_put_identity | reflexivity ].
Qed.

Lemma MBC_MBC3_Write_identity (t a v : Z) (c : Cartridge) :
  identity (MBC_MBC3_Write t a v c) = identity c.
Proof.
  unfold MBC_MBC3_Write. cbv zeta.
  destruct (_ || _).
  { destruct (_ && _); rewrite ?SaveRAM_identity; reflexivity. }
  destruct (_ || _); [ reflexivity | ].
  destruct (_ || _); [ reflexivity | ].
  destruct (_ || _); [ reflexivity | ].
  destruct (_ && _); [ | reflexivity ].
  destruct (MBC3.ram_rtc_enable _); [ | reflexivity ].
  destruct (_ <=? _); [ apply eram_put_identity | ].
  destruct (_ && _); [ | reflexivity ].
  repeat match goal with
         | |- context [ if ?b =? ?k then _ else _ ] => destruct (b =? k)
         end.
  all: apply rtc_offset_write_identity.
Qed.

Lemma MBC_MBC5_Write_identity (a v : Z) (c : Cartridge) :
  identity (MBC_MBC5_Write a v c) = identity c.
Proof.
  unfold MBC_MBC5_Write. cbv zeta.
  destruct (_ || _).
  { destruct (_ && _); rewrite ?SaveRAM_identity; reflexivity. }
  destruct (_ =? _); [ reflexivity | ].
  destruct (_ =? _); [ reflexivity | ].
  destruct (_ || _); [ reflexivity | ].
  destruct (_ && _); [ | reflexivity ].
  destruct (MBC5.ram_enable _); [ apply eram_put_identity | reflexivity ].
Qed.

Lemma CPUWrite_identity (t a v : Z) (c : Cartridge) :
  identity (CPUWrite t a v c) = identity c.
Proof.
  unfold CPUWrite. destruct (m_mbc c);
    [ apply MBC_NONE_Write_identity | apply MBC_MBC1_Write_identity
    | reflexivity | apply MBC_MBC3_Write_identity | reflexivity
    | apply MBC_MBC5_Write_identity | reflexivity ].
Qed.

Lemma bus_run_identity (ops : list BusOp) :
  forall c : Cartridge, identity (bus_run ops c) = identity c.
Proof.
  induction ops as [ | op ops IH ]; intros c; [ reflexivity | ].
  unfold bus_run. cbn [fold_left]. fold (bus_run ops (bus_step c op)).
  rewrite IH. destruct op as [ a | t a v ]; [ reflexivity | ].
  apply CPUWrite_identity.
Qed.

(** X11.  No bus traffic changes the ROM banks, their number, the CRC, the type
    of the cartridge or its controller, or the size of the external RAM
    and of its buffer. *)
Theorem bus_keeps_identity (ops : list BusOp) (c : Cartridge) :
  let c' := bus_run ops c in
  m_rom_banks c' = m_rom_banks c
  /\ m_num_rom_banks c' = m_num_rom_banks c
  /\ m_crc c' = m_crc c
  /\ m_mbc c' = m_mbc c
  /\ m_typeinfo c' = m_typeinfo c
  /\ m_system_mode c' = m_system_mode c
  /\ m_external_ram_size c' = m_external_ram_size c
  /\ option_map (@length Z) (m_external_ram c')
     = option_map (@length Z) (m_external_ram c).
Proof.
  cbv zeta.
  pose proof (bus_run_identity ops c) as E.
  unfold identity in E. injection E as -> -> -> -> -> -> -> ->.
  repeat split.
Qed.

(** ** Loading *)

Lemma rom_bank_count_range (k : Z) (e : Z * Z) :
  find (fun e => fst e =? k) CART_ROM_BANK_COUNT = Some e -> 2 <= snd e <= 256.
Proof.
  unfold CART_ROM_BANK_COUNT. cbn [find fst].
  repeat match goal with
         | |- context [ if ?a =? ?b then _ else _ ] => destruct (a =? b)
         end; intros H; try discriminate H; injection H as <-; cbn; lia.
Qed.

(** What [ParseHeader] leaves in the object when it succeeds. *)
Lemma ParseHeader_done (crc stream_size : Z) (banks : list (list Z))
    (c : Cartridge) :
  ParseHeader crc banks stream_size = Done c ->
  0 <= stream_size < 4294967296 * ROM_BANK_SIZE ->
  In (m_typeinfo c) CART_TYPEINFOS
  /\ id (m_typeinfo c) = Buf.get (nth 0 banks []) 0x0147
  /\ m_mbc c = mbc (m_typeinfo c)
  /\ m_crc c = crc
  /\ 2 <= m_num_rom_banks c
  /\ m_rom_banks c = []
  /\ m_external_ram c = None
  /\ m_external_ram_modified c = false
  /\ m_callbacks c = []
  /\ m_mbc_data c = zero_MBCData.
Proof.
  unfold ParseHeader, ROM_BANK_SIZE. intros H Hs.
  destruct (read_header (nth 0 banks [])) as [ header | ] eqn:Eh;
    [ | discriminate H ].
  assert (Et : type header = Buf.get (nth 0 banks []) 0x0147).
  { unfold read_header in Eh. destruct (_ <? _); [ discriminate Eh | ].
    injection Eh as <-. reflexivity. }
  destruct (find (fun t => id t =? type header) CART_TYPEINFOS)
    as [ ti | ] eqn:Ef; [ | discriminate H ].
  apply find_some in Ef. destruct Ef as [Hin Hid]. apply Z.eqb_eq in Hid.
  destruct (find (fun e => fst e =? rom_size header) CART_ROM_BANK_COUNT)
    as [ e | ] eqn:Er; [ | discriminate H ].
  apply rom_bank_count_range in Er.
  replace (snd e =? 0) with false in H
    by (symmetry; apply Z.eqb_neq; lia).
  destruct (_ || _); [ discriminate H | ].
  set (n := if stream_size >? 16384 * snd e
            then match mbc ti with
                 | MBC_NONE => snd e
                 | _ => Int.u32 (stream_size / 16384)
                 end
            else snd e) in H.
  assert (Hn : 2 <= n).
  { subst n.
    destruct (Z.gtb_spec stream_size (16384 * snd e)) as [Big | Small];
      [ | lia ].
    assert (B : 2 <= Int.u32 (stream_size / 16384)).
    { unfold Int.u32. rewrite Z.mod_small.
      - apply Z.div_le_lower_bound; lia.
      - split; [ apply Z.div_pos; lia | apply Z.div_lt_upper_bound; lia ]. }
    destruct (mbc ti); lia. }
  clearbody n.
  injection H as <-.
  cbn [m_typeinfo m_mbc m_crc m_num_rom_banks m_rom_banks m_external_ram
       m_external_ram_modified m_callbacks m_mbc_data].
  split; [ exact Hin | ]. split; [ congruence | ].
  repeat split. exact Hn.
Qed.

Lemma LoadRAM_keeps (host_ram : option (list Z)) (c : Cartridge) :
  let c' := LoadRAM host_ram c in
  m_mbc c' = m_mbc c /\ m_typeinfo c' = m_typeinfo c /\ m_crc c' = m_crc c
  /\ m_num_rom_banks c' = m_num_rom_banks c /\ m_rom_banks c' = m_rom_banks c
  /\ m_mbc_data c' = m_mbc_data c
  /\ m_external_ram_modified c' = m_external_ram_modified c
  /\ m_callbacks c' = m_callbacks c.
Proof.
  cbv zeta. unfold LoadRAM.
  destruct (_ || _); [ repeat split | ].
  destruct host_ram; repeat split.
Qed.

Lemma LoadRTC_keeps (now : Z) (host_rtc : option (list Z)) (c : Cartridge) :
  let c' := LoadRTC now host_rtc c in
  m_mbc c' = m_mbc c /\ m_typeinfo c' = m_typeinfo c /\ m_crc c' = m_crc c
  /\ m_num_rom_banks c' = m_num_rom_banks c /\ m_rom_banks c' = m_rom_banks c
  /\ m_mbc_data c' = m_mbc_data c
  /\ m_external_ram_modified c' = m_external_ram_modified c
  /\ m_external_ram c' = m_external_ram c.
Proof.
  cbv zeta. unfold LoadRTC, SaveRTC. cbn [set_rtc_data m_typeinfo].
  destruct (negb (timer (m_typeinfo c))); [ repeat split | ].
  destruct host_rtc as [ buffer | ]; [ | repeat split ].
  repeat match goal with
         | |- context [ match ?r with Some _ => _ | None => _ end ] =>
             destruct r as [ [? ?] | ]
         end; repeat split.
Qed.

Lemma create_external_ram_keeps (c : Cartridge) :
  let c' := create_external_ram c in
  m_mbc c' = m_mbc c /\ m_typeinfo c' = m_typeinfo c /\ m_crc c' = m_crc c
  /\ m_num_rom_banks c' = m_num_rom_banks c /\ m_rom_banks c' = m_rom_banks c
  /\ m_mbc_data c' = m_mbc_data c
  /\ m_external_ram_modified c' = m_external_ram_modified c.
Proof.
  cbv zeta. unfold create_external_ram.
  destruct (m_external_ram_size c >? 0); repeat split.
Qed.

Lemma Reset_keeps (c : Cartridge) :
  let c' := Reset c in
  m_mbc c' = m_mbc c /\ m_typeinfo c' = m_typeinfo c /\ m_crc c' = m_crc c
  /\ m_num_rom_banks c' = m_num_rom_banks c /\ m_rom_banks c' = m_rom_banks c
  /\ m_external_ram_modified c' = m_external_ram_modified c
  /\ m_external_ram c' = m_external_ram c
  /\ m_rtc_data c' = m_rtc_data c
  /\ m_callbacks c' = m_callbacks c.
Proof.
  cbv zeta. unfold Reset, MBC_NONE_Reset, MBC_MBC1_Reset, MBC_MBC3_Reset,
    MBC_MBC5_Reset, MBC_MBC1_UpdateActiveBanks, MBC_MBC3_UpdateActiveBanks,
    MBC_MBC5_UpdateActiveBanks.
  destruct (m_mbc c) eqn:Em;
    cbn [get_mbc1 set_mbc1 set_mbc_data m_mbc_data mbc1 MBC1.bank_mode];
    cbn [Z.eqb]; repeat split; exact Em.
Qed.

(** The registers [Reset] leaves, with at least two banks. *)
Lemma Reset_registers (c : Cartridge) :
  2 <= m_num_rom_banks c ->
  let c' := Reset c in
  (m_mbc c = MBC_MBC1 -> get_mbc1 c' = MBC1.mk false 0 1 0 1 0)
  /\ (m_mbc c = MBC_MBC3 ->
      get_mbc3 c' = MBC3.mk false 1 0 (MBC3.rtc_latch (get_mbc3 c))
                            (MBC3.rtc_latch_data (get_mbc3 c)))
  /\ (m_mbc c = MBC_MBC5 -> get_mbc5 c' = MBC5.mk false 1 0 1).
Proof.
  intros Hn. cbv zeta. unfold Reset.
  assert (G : (1 >=? m_num_rom_banks c) = false)
    by (rewrite Z.geb_leb; apply Z.leb_gt; lia).
  split; [ | split ]; intros ->.
  - unfold MBC_MBC1_Reset, MBC_MBC1_UpdateActiveBanks.
    cbn [get_mbc1 set_mbc1 set_mbc_data m_mbc_data mbc1 m_num_rom_banks
         MBC1.bank_mode MBC1.rom_bank_number MBC1.ram_bank_number
         MBC1.ram_enable Z.eqb].
    replace (Int.u8 (Z.lor (Z.shiftl 0 5) (Z.land 1 31))) with 1
      by reflexivity.
    cbn [Z.eqb Pos.eqb orb]. rewrite G. reflexivity.
  - unfold MBC_MBC3_Reset, MBC_MBC3_UpdateActiveBanks.
    cbn [get_mbc3 set_mbc3 set_mbc_data m_mbc_data mbc3 m_num_rom_banks
         MBC3.rom_bank_number MBC3.ram_rtc_enable MBC3.ram_bank_number
         MBC3.rtc_latch MBC3.rtc_latch_data Z.eqb Pos.eqb].
    rewrite G. reflexivity.
  - unfold MBC_MBC5_Reset, MBC_MBC5_UpdateActiveBanks.
    cbn [get_mbc5 set_mbc5 set_mbc_data m_mbc_data mbc5 m_num_rom_banks
         MBC5.rom_bank_number MBC5.ram_bank_number MBC5.ram_enable].
    rewrite G. reflexivity.
Qed.

Lemma forallb_bank_size (l : list (list Z)) :
  forallb (fun bank => Nat.eqb (length bank) (Z.to_nat ROM_BANK_SIZE)) l = true ->
  Forall (fun bank => Z.of_nat (length bank) = ROM_BANK_SIZE) l.
Proof.
  intros H. apply Forall_forall. intros bank Hin.
  rewrite forallb_forall in H. specialize (H bank Hin).
  apply Nat.eqb_eq in H. rewrite H. unfold ROM_BANK_SIZE. reflexivity.
Qed.

(** X12.  A successful [Load]: the controller is one of the four implemented
    ones, the type information is the table entry of the header's type
    byte, the object holds the first [m_num_rom_banks] banks of the file
    (at least two; exactly two without a controller), each of 16 KiB, the
    RAM is unmodified, and with a controller the RAM window is closed and
    bank 1 is selected. *)
Theorem Load_establishes (crc stream_size : Z) (banks : list (list Z))
    (host_ram host_rtc : option (list Z)) (now : Z) (c : Cartridge) :
  Load crc stream_size banks host_ram host_rtc now = Done c ->
  0 <= stream_size < 4294967296 * ROM_BANK_SIZE ->
  In (m_mbc c) [MBC_NONE; MBC_MBC1; MBC_MBC3; MBC_MBC5]
  /\ In (m_typeinfo c) CART_TYPEINFOS
  /\ id (m_typeinfo c) = Buf.get (nth 0 banks []) 0x0147
  /\ m_mbc c = mbc (m_typeinfo c)
  /\ m_crc c = crc
  /\ 2 <= m_num_rom_banks c
  /\ (m_mbc c = MBC_NONE -> m_num_rom_banks c = 2)
  /\ m_rom_banks c = firstn (Z.to_nat (m_num_rom_banks c)) banks
  /\ Z.of_nat (length (m_rom_banks c)) = m_num_rom_banks c
  /\ Forall (fun bank => Z.of_nat (length bank) = ROM_BANK_SIZE)
            (m_rom_banks c)
  /\ (m_mbc c <> MBC_NONE -> ram_enabled c = false)
  /\ m_external_ram_modified c = false
  /\ (m_mbc c = MBC_MBC1 ->
      MBC1.bank_mode (get_mbc1 c) = 0
      /\ MBC1.rom_bank_number (get_mbc1 c) = 1
      /\ MBC1.active_rom_bank (get_mbc1 c) = 1
      /\ MBC1.active_ram_bank (get_mbc1 c) = 0)
  /\ (m_mbc c = MBC_MBC3 -> MBC3.rom_bank_number (get_mbc3 c) = 1)
  /\ (m_mbc c = MBC_MBC5 ->
      MBC5.rom_bank_number (get_mbc5 c) = 1
      /\ MBC5.active_rom_bank (get_mbc5 c) = 1).
Proof.
  unfold Load. intros H Hs.
  destruct (ParseHeader crc banks stream_size) as [ c0 | ] eqn:Ep;
    [ | discriminate H ].
  destruct (ParseHeader_done _ _ _ _ Ep Hs)
    as (Hin & Hid & Hm & Hc & Hn & Hb & Hr & Hmod & Hcb & Hd).
  cbv zeta in H.
  destruct (Z.ltb_spec (Z.of_nat (length banks)) (m_num_rom_banks c0))
    as [Short | Enough]; [ discriminate H | ].
  cbn [orb] in H.
  destruct (forallb _ (firstn (Z.to_nat (m_num_rom_banks c0)) banks)) eqn:Sz;
    [ | discriminate H ].
  apply forallb_bank_size in Sz.
  cbn [negb set_rom_banks m_mbc] in H.
  set (c1 := set_rom_banks _ c0) in H.
  assert (Len : Z.of_nat (length (firstn (Z.to_nat (m_num_rom_banks c0)) banks))
                = m_num_rom_banks c0)
    by (rewrite firstn_length_le; lia).
  (* the object after the controller's [Init] *)
  assert (Init : exists c2,
             c = LoadRTC now host_rtc (LoadRAM host_ram c2)
             /\ c2 = Reset (create_external_ram c1)
             /\ In (m_mbc c0) [MBC_NONE; MBC_MBC1; MBC_MBC3; MBC_MBC5]
             /\ (m_mbc c0 = MBC_NONE -> m_num_rom_banks c0 = 2)).
  { unfold MBC_NONE_Init, MBC_MBC1_Init, MBC_MBC3_Init, MBC_MBC5_Init in H.
    exists (Reset (create_external_ram c1)).
    unfold Reset.
    rewrite (proj1 (create_external_ram_keeps c1)).
    change (m_mbc c1) with (m_mbc c0).
    destruct (m_mbc c0) eqn:Em; try discriminate H.
    - change (m_num_rom_banks c1) with (m_num_rom_banks c0) in H.
      destruct (Z.eqb_spec (m_num_rom_banks c0) 2) as [E2 | N2];
        cbn [negb] in H; [ | discriminate H ].
      injection H as <-. cbn [In]. repeat split; tauto.
    - injection H as <-. cbn [In].
      repeat split; try tauto; intros D; discriminate D.
    - injection H as <-. cbn [In].
      repeat split; try tauto; intros D; discriminate D.
    - injection H as <-. cbn [In].
      repeat split; try tauto; intros D; discriminate D. }
  destruct Init as (c2 & -> & E2 & Hsup & Hnone).
  destruct (create_external_ram_keeps c1) as (C1 & C2 & C3 & C4 & C5 & C6 & C7).
  destruct (Reset_keeps (create_external_ram c1))
    as (R1 & R2 & R3 & R4 & R5 & R6 & _).
  destruct (Reset_registers (create_external_ram c1))
    as (G1 & G3 & G5); [ cbv zeta in C4; rewrite C4; exact Hn | ].
  cbv zeta in *. rewrite <- E2 in *.
  destruct (LoadRAM_keeps host_ram c2)
    as (B1 & B2 & B3 & B4 & B5 & B6 & B7 & _).
  destruct (LoadRTC_keeps now host_rtc (LoadRAM host_ram c2))
    as (A1 & A2 & A3 & A4 & A5 & A6 & A7 & _).
  cbv zeta in *.
  set (c := LoadRTC now host_rtc (LoadRAM host_ram c2)) in *.
  assert (K1 : m_mbc c1 = m_mbc c0) by reflexivity.
  assert (K2 : m_typeinfo c1 = m_typeinfo c0) by reflexivity.
  assert (K3 : m_crc c1 = m_crc c0) by reflexivity.
  assert (K4 : m_num_rom_banks c1 = m_num_rom_banks c0) by reflexivity.
  assert (K5 : m_rom_banks c1 = firstn (Z.to_nat (m_num_rom_banks c0)) banks)
    by reflexivity.
  assert (K6 : m_external_ram_modified c1 = false) by exact Hmod.
  assert (Fm : m_mbc c = m_mbc c0) by congruence.
  assert (Ft : m_typeinfo c = m_typeinfo c0) by congruence.
  assert (Fc : m_crc c = m_crc c0) by congruence.
  assert (Fn : m_num_rom_banks c = m_num_rom_banks c0) by congruence.
  assert (Fb : m_rom_banks c = firstn (Z.to_nat (m_num_rom_banks c0)) banks)
    by congruence.
  assert (Fx : m_external_ram_modified c = false) by congruence.
  assert (Fd : m_mbc_data c = m_mbc_data c2) by congruence.
  assert (D1 : get_mbc1 c = get_mbc1 c2) by (unfold get_mbc1; congruence).
  assert (D3 : get_mbc3 c = get_mbc3 c2) by (unfold get_mbc3; congruence).
  assert (D5 : get_mbc5 c = get_mbc5 c2) by (unfold get_mbc5; congruence).
  assert (M1 : m_mbc (create_external_ram c1) = m_mbc c0) by congruence.
  rewrite M1 in G1, G3, G5.
  split; [ rewrite Fm; exact Hsup | ].
  split; [ rewrite Ft; exact Hin | ].
  split; [ rewrite Ft; exact Hid | ].
  split; [ congruence | ].
  split; [ congruence | ].
  split; [ rewrite Fn; exact Hn | ].
  split; [ rewrite Fm, Fn; exact Hnone | ].
  split; [ rewrite Fn; exact Fb | ].
  split; [ rewrite Fb, Fn; exact Len | ].
  split; [ rewrite Fb; exact Sz | ].
  split.
  { unfold ram_enabled. rewrite Fm, D1, D3, D5. intros Nn.
    destruct (m_mbc c0) eqn:Em; try reflexivity;
      [ contradiction | rewrite G1 | rewrite G3 | rewrite G5 ]; reflexivity. }
  split; [ exact Fx | ].
  rewrite Fm, D1, D3, D5.
  split; [ intros E; rewrite (G1 E); repeat split | ].
  split; [ intros E; rewrite (G3 E); reflexivity | ].
  intros E; rewrite (G5 E); split; reflexivity.
Qed.

Lemma done_cart (r : Result Cartridge) : is_done r = true -> r = Done (cart r).
Proof. destruct r; [ reflexivity | discriminate ]. Qed.

Lemma Load_establishes_witness :
  m_rom_banks (cart load_mbc1)
  = firstn (Z.to_nat (m_num_rom_banks (cart load_mbc1)))
           (rom_file 0x00 0x01 0x05 0x00 64).
Proof.
  refine (proj1 (proj2 (proj2 (proj2 (proj2 (proj2 (proj2 (proj2
    (Load_establishes 0x1234ABCD (64 * ROM_BANK_SIZE)
       (rom_file 0x00 0x01 0x05 0x00 64) None None 0 (cart load_mbc1)
       _ _)))))))));
    [ apply (done_cart load_mbc1); vm_compute; reflexivity
    | unfold ROM_BANK_SIZE; lia ].
Defined.

(** ** Reset *)

Lemma Reset_twice (c : Cartridge) : Reset (Reset c) = Reset c.
Proof.
  unfold Reset.
  destruct (m_mbc c) eqn:Em; try (rewrite Em; reflexivity).
  - unfold MBC_NONE_Reset. rewrite Em. reflexivity.
  - assert (M : m_mbc (MBC_MBC1_Reset c) = MBC_MBC1) by exact Em.
    rewrite M. unfold MBC_MBC1_Reset, MBC_MBC1_UpdateActiveBanks.
    cbn [get_mbc1 set_mbc1 set_mbc_data m_mbc_data mbc1 mbc3 mbc5
         m_num_rom_banks m_mbc m_crc m_typeinfo m_system_mode m_rom_banks
         m_external_ram m_external_ram_size m_external_ram_modified
         m_rtc_data m_callbacks
         MBC1.bank_mode MBC1.rom_bank_number MBC1.ram_bank_number
         MBC1.ram_enable MBC1.active_rom_bank MBC1.active_ram_bank].
    reflexivity.
  - assert (M : m_mbc (MBC_MBC3_Reset c) = MBC_MBC3) by exact Em.
    rewrite M. unfold MBC_MBC3_Reset, MBC_MBC3_UpdateActiveBanks.
    cbn [get_mbc3 set_mbc3 set_mbc_data m_mbc_data mbc1 mbc3 mbc5
         m_num_rom_banks m_mbc m_crc m_typeinfo m_system_mode m_rom_banks
         m_external_ram m_external_ram_size m_external_ram_modified
         m_rtc_data m_callbacks
         MBC3.rom_bank_number MBC3.ram_rtc_enable MBC3.ram_bank_number
         MBC3.rtc_latch MBC3.rtc_latch_data].
    reflexivity.
  - assert (M : m_mbc (MBC_MBC5_Reset c) = MBC_MBC5) by exact Em.
    rewrite M. unfold MBC_MBC5_Reset, MBC_MBC5_UpdateActiveBanks.
    cbn [get_mbc5 set_mbc5 set_mbc_data m_mbc_data mbc1 mbc3 mbc5
         m_num_rom_banks m_mbc m_crc m_typeinfo m_system_mode m_rom_banks
         m_external_ram m_external_ram_size m_external_ram_modified
         m_rtc_data m_callbacks
         MBC5.rom_bank_number MBC5.ram_bank_number MBC5.ram_enable
         MBC5.active_rom_bank].
    reflexivity.
Qed.

(** X13.  [Reset] on a cartridge of one of the four controllers and of at least
    two banks, in whatever state the bus left it.  Without a controller it
    changes nothing.  With a controller the RAM window is closed; bank 1
    is the bank at 0x4000-0x7FFF again.  The contents of the RAM, its modified mark and
    the clock stay, and the host is not called, so a modified RAM is not
    handed over for saving.  The latch register of an MBC3 and its latched
    clock registers survive the reset.  A second [Reset] changes
    nothing. *)
Theorem Reset_effect (c : Cartridge) :
  In (m_mbc c) [MBC_NONE; MBC_MBC1; MBC_MBC3; MBC_MBC5] ->
  2 <= m_num_rom_banks c ->
  let c' := Reset c in
  (m_mbc c = MBC_NONE -> c' = c)
  /\ (m_mbc c <> MBC_NONE -> ram_enabled c' = false)
  /\ switched_bank c' = 1
  /\ m_external_ram c' = m_external_ram c
  /\ m_external_ram_modified c' = m_external_ram_modified c
  /\ m_rtc_data c' = m_rtc_data c
  /\ m_callbacks c' = m_callbacks c
  /\ (m_mbc c = MBC_MBC3 ->
      MBC3.rtc_latch (get_mbc3 c') = MBC3.rtc_latch (get_mbc3 c)
      /\ MBC3.rtc_latch_data (get_mbc3 c') = MBC3.rtc_latch_data (get_mbc3 c))
  /\ Reset c' = c'.
Proof.
  intros Hm Hn. cbv zeta.
  destruct (Reset_keeps c) as (K1 & _ & _ & _ & _ & K6 & K7 & K8 & K9).
  destruct (Reset_registers c Hn) as (G1 & G3 & G5).
  cbv zeta in *.
  split.
  { intros Em. unfold Reset. rewrite Em. reflexivity. }
  split.
  { unfold ram_enabled. rewrite K1. intros Nn. cbn [In] in Hm.
    destruct Hm as [Em | [Em | [Em | [Em | []]]]]; rewrite <- Em in *;
      [ contradiction
      | rewrite (G1 eq_refl) | rewrite (G3 eq_refl) | rewrite (G5 eq_refl) ];
      reflexivity. }
  split.
  { unfold switched_bank. rewrite K1. cbn [In] in Hm.
    destruct Hm as [Em | [Em | [Em | [Em | []]]]]; rewrite <- Em in *;
      [
      | rewrite (G1 eq_refl) | rewrite (G3 eq_refl) | rewrite (G5 eq_refl) ];
      reflexivity. }
  split; [ exact K7 | ]. split; [ exact K6 | ]. split; [ exact K8 | ].
  split; [ exact K9 | ].
  split; [ | apply Reset_twice ].
  intros Em. rewrite (G3 Em). split; reflexivity.
Qed.

Lemma Reset_effect_witness :
  switched_bank
    (Reset (bus_run [BusWrite 0 0x2000 0x05] (cart load_mbc1))) = 1.
Proof.
  refine (proj1 (proj2 (proj2
    (Reset_effect (bus_run [BusWrite 0 0x2000 0x05] (cart load_mbc1)) _ _)))).
  - right. left. vm_compute. reflexivity.
  - apply Z.leb_le. vm_compute. reflexivity.
Defined.

(** ** Reading the ROM *)

Lemma rom_windows (a : Z) :
  0 <= a < 0x8000 ->
  in_low_rom a = (a <? 0x4000)
  /\ (0x4000 <= a -> in_high_rom a = true /\ Z.land a 0x3FFF = a - 0x4000).
Proof.
  intros Ha. unfold in_low_rom, in_high_rom. cbv zeta.
  destruct (Z.ltb_spec a 0x4000) as [Lo | Hi].
  - split; [ | intros; lia ].
    destruct (Z.ltb_spec a 0x2000).
    + destruct (window_pair a 0 ltac:(lia) ltac:(lia)) as [-> | ->];
        reflexivity.
    + destruct (window_pair a 1 ltac:(lia) ltac:(lia)) as [-> | ->];
        reflexivity.
  - assert (M : Z.land a 0x3FFF = a - 0x4000).
    { change 0x3FFF with (Z.ones 14). rewrite Z.land_ones by lia.
      change (2 ^ 14) with 16384.
      symmetry. apply Z.mod_unique with (q := 1); lia. }
    destruct (Z.ltb_spec a 0x6000).
    + destruct (window_pair a 2 ltac:(lia) ltac:(lia)) as [-> | ->];
        repeat split; assumption.
    + destruct (window_pair a 3 ltac:(lia) ltac:(lia)) as [-> | ->];
        repeat split; assumption.
Qed.

Lemma rom_read_low (c : Cartridge) (a : Z) :
  In (m_mbc c) [MBC_NONE; MBC_MBC1; MBC_MBC3; MBC_MBC5] ->
  0 <= a < 0x4000 ->
  CPURead a c = Buf.get (nth 0 (m_rom_banks c) []) a.
Proof.
  intros Hm Ha.
  destruct (rom_windows a ltac:(lia)) as [Wl _].
  replace (a <? 0x4000) with true in Wl by (symmetry; apply Z.ltb_lt; lia).
  unfold CPURead. cbn [In] in Hm.
  destruct Hm as [Em | [Em | [Em | [Em | []]]]]; rewrite <- Em.
  all: unfold MBC_NONE_Read, MBC_MBC1_Read, MBC_MBC3_Read, MBC_MBC5_Read,
         rom_byte; cbv zeta; rewrite Wl; reflexivity.
Qed.

Lemma rom_read_high (c : Cartridge) (a : Z) :
  In (m_mbc c) [MBC_NONE; MBC_MBC1; MBC_MBC3; MBC_MBC5] ->
  0x4000 <= a < 0x8000 ->
  CPURead a c
  = Buf.get (nth (Z.to_nat (switched_bank c)) (m_rom_banks c) [])
            (a - 0x4000).
Proof.
  intros Hm Ha.
  destruct (rom_windows a ltac:(lia)) as [Wl Wh].
  replace (a <? 0x4000) with false in Wl by (symmetry; apply Z.ltb_ge; lia).
  destruct (Wh ltac:(lia)) as [Hh Hl].
  unfold CPURead, switched_bank. cbn [In] in Hm.
  destruct Hm as [Em | [Em | [Em | [Em | []]]]]; rewrite <- Em.
  all: unfold MBC_NONE_Read, MBC_MBC1_Read, MBC_MBC3_Read, MBC_MBC5_Read,
         rom_byte; cbv zeta; rewrite Wl, Hh, Hl; reflexivity.
Qed.

(** X14.  On a cartridge of one of the four controllers whose object holds
    [m_num_rom_banks] banks of 16 KiB each, and whose selected bank is one
    of them, every read of 0x0000-0x7FFF returns a byte the cartridge
    holds: below 0x4000 the byte of bank 0 at the address, whatever the
    registers hold, and from 0x4000 on the byte at [address - 0x4000] of
    the selected bank (bank 1 without a controller). *)
Theorem rom_reads (c : Cartridge) (a : Z) :
  In (m_mbc c) [MBC_NONE; MBC_MBC1; MBC_MBC3; MBC_MBC5] ->
  Z.of_nat (length (m_rom_banks c)) = m_num_rom_banks c ->
  Forall (fun bank => Z.of_nat (length bank) = ROM_BANK_SIZE)
         (m_rom_banks c) ->
  0 <= switched_bank c < m_num_rom_banks c ->
  0 <= a < 0x8000 ->
  let k := if a <? 0x4000 then 0 else switched_bank c in
  let offset := if a <? 0x4000 then a else a - 0x4000 in
  exists bank,
    nth_error (m_rom_banks c) (Z.to_nat k) = Some bank
    /\ nth_error bank (Z.to_nat offset) = Some (CPURead a c).
Proof.
  intros Hm Hl Hs Hk Ha. cbv zeta.
  set (k := if a <? 0x4000 then 0 else switched_bank c).
  set (offset := if a <? 0x4000 then a else a - 0x4000).
  assert (Kb : 0 <= k < m_num_rom_banks c)
    by (subst k; destruct (a <? 0x4000); lia).
  assert (Ob : 0 <= offset < 16384)
    by (subst offset; destruct (Z.ltb_spec a 0x4000); lia).
  assert (E : CPURead a c
              = Buf.get (nth (Z.to_nat k) (m_rom_banks c) []) offset).
  { subst k offset. destruct (Z.ltb_spec a 0x4000);
      [ apply rom_read_low | apply rom_read_high ]; assumption || lia. }
  assert (Kn : (Z.to_nat k < length (m_rom_banks c))%nat) by lia.
  exists (nth (Z.to_nat k) (m_rom_banks c) []).
  split; [ apply nth_error_nth'; exact Kn | ].
  rewrite E. unfold Buf.get. apply nth_error_nth'.
  rewrite Forall_forall in Hs.
  specialize (Hs _ (nth_In _ [] Kn)). unfold ROM_BANK_SIZE in Hs. lia.
Qed.

Lemma rom_reads_witness :
  exists bank,
    nth_error (m_rom_banks (cart load_mbc1))
              (Z.to_nat (if 0x4000 <? 0x4000 then 0
                         else switched_bank (cart load_mbc1))) = Some bank
    /\ nth_error bank
                 (Z.to_nat (if 0x4000 <? 0x4000 then 0x4000
                            else 0x4000 - 0x4000))
       = Some (CPURead 0x4000 (cart load_mbc1)).
Proof.
  apply (rom_reads (cart load_mbc1) 0x4000).
  - right. left. vm_compute. reflexivity.
  - vm_compute. reflexivity.
  - apply forallb_bank_size. vm_compute. reflexivity.
  - split; [ apply Z.leb_le | apply Z.ltb_lt ]; vm_compute; reflexivity.
  - lia.
Defined.

(** ** The active ROM bank stays in range *)

Lemma bus_run_num_rom_banks (ops : list BusOp) (c : Cartridge) :
  m_num_rom_banks (bus_run ops c) = m_num_rom_banks c.
Proof.
  pose proof (bus_run_identity ops c) as E.
  unfold identity in E. injection E as _ _ _ _ _ E _ _. exact E.
Qed.

(** X15.  For an MBC1 cartridge with its bank registers in range: after any
    bus traffic whose data are bytes, the active ROM bank is one of the
    banks of the cartridge. *)
Theorem MBC1_active_bank_exists (ops : list BusOp) (c : Cartridge) :
  m_mbc c = MBC_MBC1 -> 1 <= m_num_rom_banks c ->
  Int.is_u8 (MBC1.rom_bank_number (get_mbc1 c)) ->
  0 <= MBC1.active_rom_bank (get_mbc1 c) < m_num_rom_banks c ->
  Forall byte_op ops ->
  0 <= MBC1.active_rom_bank (get_mbc1 (bus_run ops c)) < m_num_rom_banks c.
Proof.
  intros Hm Hn Hr Ha Hb.
  destruct (MBC1_bank_in_range ops c (conj Hm (conj Hn (conj Hr Ha))) Hb)
    as (_ & _ & _ & R).
  rewrite (bus_run_num_rom_banks ops c) in R. exact R.
Qed.

Lemma MBC1_active_bank_exists_witness :
  0 <= MBC1.active_rom_bank
         (get_mbc1 (bus_run [BusWrite 0 0x2000 0x7F; BusWrite 0 0x4000 0x03]
                            (cart load_mbc1)))
    < m_num_rom_banks (cart load_mbc1).
Proof.
  apply (MBC1_active_bank_exists
           [BusWrite 0 0x2000 0x7F; BusWrite 0 0x4000 0x03] (cart load_mbc1)).
  - vm_compute. reflexivity.
  - apply Z.leb_le. vm_compute. reflexivity.
  - unfold Int.is_u8. split; [ apply Z.leb_le | apply Z.ltb_lt ];
      vm_compute; reflexivity.
  - split; [ apply Z.leb_le | apply Z.ltb_lt ]; vm_compute; reflexivity.
  - repeat constructor; unfold Int.is_u8; lia.
Defined.

(** X16.  For an MBC3 cartridge with its ROM bank register in range: after any
    bus traffic whose data are bytes, the bank selected for 0x4000-0x7FFF
    is one of the banks of the cartridge. *)
Theorem MBC3_active_bank_exists (ops : list BusOp) (c : Cartridge) :
  m_mbc c = MBC_MBC3 -> 1 <= m_num_rom_banks c ->
  0 <= MBC3.rom_bank_number (get_mbc3 c) < m_num_rom_banks c ->
  Forall byte_op ops ->
  0 <= MBC3.rom_bank_number (get_mbc3 (bus_run ops c)) < m_num_rom_banks c.
Proof.
  intros Hm Hn Ha Hb.
  destruct (MBC3_bank_in_range ops c (conj Hm (conj Hn Ha)) Hb)
    as (_ & _ & R).
  rewrite (bus_run_num_rom_banks ops c) in R. exact R.
Qed.

Lemma MBC3_active_bank_exists_witness :
  0 <= MBC3.rom_bank_number
         (get_mbc3 (bus_run [BusWrite 0 0x2000 0x7F] (cart load_mbc3)))
    < m_num_rom_banks (cart load_mbc3).
Proof.
  apply (MBC3_active_bank_exists [BusWrite 0 0x2000 0x7F] (cart load_mbc3)).
  - vm_compute. reflexivity.
  - apply Z.leb_le. vm_compute. reflexivity.
  - split; [ apply Z.leb_le | apply Z.ltb_lt ]; vm_compute; reflexivity.
  - repeat constructor; unfold Int.is_u8; lia.
Defined.

Lemma MBC5_update_ok (c : Cartridge) :
  m_mbc c = MBC_MBC5 -> 1 <= m_num_rom_banks c ->
  m_num_rom_banks c mod 256 <> 0 ->
  0 <= MBC5.rom_bank_number (get_mbc5 c) ->
  mbc5_ok (MBC_MBC5_UpdateActiveBanks c).
Proof.
  intros Hm Hn Hz Hr. unfold mbc5_ok, MBC_MBC5_UpdateActiveBanks.
  cbn [get_mbc5 set_mbc5 set_mbc_data m_mbc_data mbc5 m_mbc m_num_rom_banks
       MBC5.rom_bank_number MBC5.active_rom_bank].
  fold (get_mbc5 c).
  repeat (split; [ assumption | ]).
  rewrite Z.geb_leb.
  destruct (Z.leb_spec (m_num_rom_banks c) (MBC5.rom_bank_number (get_mbc5 c)))
    as [Big | Small]; [ | lia ].
  unfold Int.u8, Int.u16.
  pose proof (Z.mod_pos_bound (m_num_rom_banks c) 256 ltac:(lia)).
  pose proof (Z.mod_le (m_num_rom_banks c) 256 ltac:(lia) ltac:(lia)).
  rewrite Z.mod_small; lia.
Qed.

Lemma mbc5_ok_frame (c c' : Cartridge) :
  identity c' = identity c ->
  MBC5.rom_bank_number (get_mbc5 c') = MBC5.rom_bank_number (get_mbc5 c) ->
  MBC5.active_rom_bank (get_mbc5 c') = MBC5.active_rom_bank (get_mbc5 c) ->
  mbc5_ok c -> mbc5_ok c'.
Proof.
  unfold mbc5_ok. intros I -> ->.
  unfold identity in I. injection I as -> _ _ _ _ -> _ _.
  exact (fun H => H).
Qed.

Lemma MBC5_write_ok (c : Cartridge) (t address value : Z) :
  mbc5_ok c -> mbc5_ok (CPUWrite t address value c).
Proof.
  intros Ok. pose proof Ok as (Hm & Hn & Hz & Hr & Ha).
  unfold CPUWrite. rewrite Hm. unfold MBC_MBC5_Write. cbv zeta.
  destruct (_ || _).
  { match goal with
    | |- context [ if ?b then SaveRAM ?x else _ ] => destruct b
    end.
    - apply (mbc5_ok_frame c);
        [ rewrite SaveRAM_identity; reflexivity
        | unfold get_mbc5; rewrite (proj1 (SaveRAM_fields _)); reflexivity
        | unfold get_mbc5; rewrite (proj1 (SaveRAM_fields _)); reflexivity
        | exact Ok ].
    - apply (mbc5_ok_frame c); [ reflexivity | reflexivity | reflexivity
                                | exact Ok ]. }
  destruct (_ =? _).
  { apply MBC5_update_ok; try assumption.
    cbn. apply Z.mod_pos_bound. lia. }
  destruct (_ =? _).
  { apply MBC5_update_ok; try assumption.
    cbn. apply Z.mod_pos_bound. lia. }
  destruct (_ || _); [ apply MBC5_update_ok; assumption | ].
  destruct (_ && _); [ | exact Ok ].
  destruct (MBC5.ram_enable _); [ | exact Ok ].
  apply (mbc5_ok_frame c);
    [ apply eram_put_identity
    | unfold get_mbc5; rewrite (proj1 (eram_put_fields _ _ _)); reflexivity
    | unfold get_mbc5; rewrite (proj1 (eram_put_fields _ _ _)); reflexivity
    | exact Ok ].
Qed.

(** X17.  For an MBC5 cartridge whose number of banks is not a multiple of 256
    and whose active bank is in range: after any bus traffic, the active
    ROM bank is one of the banks of the cartridge. *)
Theorem MBC5_active_bank_exists (ops : list BusOp) (c : Cartridge) :
  m_mbc c = MBC_MBC5 -> 1 <= m_num_rom_banks c ->
  m_num_rom_banks c mod 256 <> 0 ->
  0 <= MBC5.rom_bank_number (get_mbc5 c) ->
  0 <= MBC5.active_rom_bank (get_mbc5 c) < m_num_rom_banks c ->
  0 <= MBC5.active_rom_bank (get_mbc5 (bus_run ops c)) < m_num_rom_banks c.
Proof.
  intros Hm Hn Hz Hr Ha.
  assert (Ok : mbc5_ok (bus_run ops c)).
  { assert (Ok : mbc5_ok c) by (repeat split; assumption || lia).
    clear Hm Hn Hz Hr Ha. revert c Ok.
    induction ops as [ | op ops IH ]; intros c Ok; [ exact Ok | ].
    unfold bus_run. cbn [fold_left]. apply IH.
    destruct op as [ a | t a v ]; cbn [bus_step];
      [ exact Ok | apply MBC5_write_ok; exact Ok ]. }
  destruct Ok as (_ & _ & _ & _ & R).
  rewrite (bus_run_num_rom_banks ops c) in R. exact R.
Qed.

Lemma MBC5_active_bank_exists_witness :
  0 <= MBC5.active_rom_bank
         (get_mbc5 (bus_run [BusWrite 0 0x2000 0xFF; BusWrite 0 0x3000 0x01]
                            (cart load_mbc5_ram)))
    < m_num_rom_banks (cart load_mbc5_ram).
Proof.
  apply (MBC5_active_bank_exists
           [BusWrite 0 0x2000 0xFF; BusWrite 0 0x3000 0x01]
           (cart load_mbc5_ram)).
  - vm_compute. reflexivity.
  - apply Z.leb_le. vm_compute. reflexivity.
  - vm_compute. discriminate.
  - apply Z.leb_le. vm_compute. reflexivity.
  - split; [ apply Z.leb_le | apply Z.ltb_lt ]; vm_compute; reflexivity.
Defined.

(** ** MBC1: the RAM banking mode *)

(** X28.  On an MBC1 cartridge, after the mode register, the ROM bank register
    and the RAM bank register have been written (which leaves the RAM
    enable flag as it was): in mode 0 the RAM bank is 0 whatever the RAM
    bank register holds; in any other mode (the whole byte is compared,
    not bit 0) the RAM bank is the low two bits of the RAM bank register,
    and the ROM bank is the ROM bank register with all its eight bits,
    when that is a bank of the cartridge other than 0x00, 0x20, 0x40 and
    0x60. *)
Theorem MBC1_ram_banking (c : Cartridge) (t mode rom ram : Z) :
  m_mbc c = MBC_MBC1 ->
  Int.is_u8 mode -> Int.is_u8 rom -> Int.is_u8 ram ->
  let c' := bus_run [BusWrite t 0x6000 mode; BusWrite t 0x2000 rom;
                     BusWrite t 0x4000 ram] c in
  ram_enabled c' = ram_enabled c
  /\ (mode = 0 -> MBC1.active_ram_bank (get_mbc1 c') = 0)
  /\ (mode <> 0 ->
      MBC1.active_ram_bank (get_mbc1 c') = ram mod 4
      /\ (rom < m_num_rom_banks c -> ~ In rom [0x00; 0x20; 0x40; 0x60] ->
          MBC1.active_rom_bank (get_mbc1 c') = rom
          /\ switched_bank c' = rom)).
Proof.
  intros Hm Hmode Hrom Hram. unfold Int.is_u8 in *.
  unfold bus_run. cbn [fold_left bus_step]. cbv zeta.
  destruct (MBC1_write_fields c t 0x6000 mode Hm ltac:(lia)) as (F1 & M1 & N1).
  cbv zeta in F1, M1, N1.
  set (c1 := CPUWrite t 0x6000 mode c) in *.
  destruct (MBC1_write_fields c1 t 0x2000 rom M1 ltac:(lia)) as (F2 & M2 & N2).
  cbv zeta in F2, M2, N2.
  set (c2 := CPUWrite t 0x2000 rom c1) in *.
  destruct (MBC1_write_fields c2 t 0x4000 ram M2 ltac:(lia)) as (F3 & M3 & N3).
  cbv zeta in F3, M3, N3.
  set (c3 := CPUWrite t 0x4000 ram c2) in *.
  rewrite F2 in F3. rewrite F1 in F3.
  cbn [Z.ltb Z.leb Z.compare Pos.compare Pos.compare_cont andb
       MBC1.ram_enable MBC1.bank_mode MBC1.rom_bank_number
       MBC1.ram_bank_number] in F3.
  rewrite N2, N1 in F3.
  split.
  { unfold ram_enabled. rewrite M3, Hm, F3. reflexivity. }
  split.
  { intros ->. rewrite F3. reflexivity. }
  intros Nz.
  replace (mode =? 0) with false in F3 by (symmetry; apply Z.eqb_neq; exact Nz).
  split.
  { rewrite F3. cbn [MBC1.active_ram_bank].
    change 3 with (Z.ones 2). rewrite Z.land_ones by lia.
    change (2 ^ 2) with 4. unfold Int.u8.
    pose proof (Z.mod_pos_bound ram 4 ltac:(lia)).
    apply Z.mod_small. lia. }
  intros Hlt Hnot.
  assert (E : mbc1_bank mode rom ram (m_num_rom_banks c) = rom).
  { unfold mbc1_bank.
    replace (mode =? 0) with false by (symmetry; apply Z.eqb_neq; exact Nz).
    cbn [In] in Hnot.
    replace (rom =? 0) with false by (symmetry; apply Z.eqb_neq; lia).
    replace (rom =? 32) with false by (symmetry; apply Z.eqb_neq; lia).
    replace (rom =? 64) with false by (symmetry; apply Z.eqb_neq; lia).
    replace (rom =? 96) with false by (symmetry; apply Z.eqb_neq; lia).
    cbn [orb]. rewrite Z.geb_leb.
    replace (m_num_rom_banks c <=? rom) with false
      by (symmetry; apply Z.leb_gt; exact Hlt).
    reflexivity. }
  unfold switched_bank. rewrite M3, F3. cbn [MBC1.active_rom_bank].
  split; exact E.
Qed.

Lemma MBC1_ram_banking_witness :
  MBC1.active_ram_bank
    (get_mbc1 (bus_run [BusWrite 0 0x6000 1; BusWrite 0 0x2000 0x25;
                        BusWrite 0 0x4000 2] (cart load_mbc1_ram)))
  = 2 mod 4.
Proof.
  refine (proj1 (proj2 (proj2
    (MBC1_ram_banking (cart load_mbc1_ram) 0 1 0x25 2 _ _ _ _)) _)).
  - vm_compute. reflexivity.
  - unfold Int.is_u8. lia.
  - unfold Int.is_u8. lia.
  - unfold Int.is_u8. lia.
  - discriminate.
Defined.

(** ** MBC5: the two halves of the bank number *)

Lemma MBC5_write_lo (c : Cartridge) (t v : Z) :
  m_mbc c = MBC_MBC5 ->
  let c' := CPUWrite t 0x2000 v c in
  let r := Int.u16 (Z.lor (Z.land (MBC5.rom_bank_number (get_mbc5 c)) 0x100)
                          v) in
  m_mbc c' = MBC_MBC5
  /\ MBC5.rom_bank_number (get_mbc5 c') = r
  /\ MBC5.active_rom_bank (get_mbc5 c')
     = (if r >=? m_num_rom_banks c
        then Int.u16 (Int.u8 (m_num_rom_banks c) - 1) else r).
Proof.
  intros Hm. cbv zeta. unfold CPUWrite. rewrite Hm.
  unfold MBC_MBC5_Write. cbv zeta.
  change (Z.land 0x2000 0xF000) with 0x2000. cbn [Z.eqb Pos.eqb orb].
  unfold MBC_MBC5_UpdateActiveBanks.
  repeat split. exact Hm.
Qed.

Lemma MBC5_write_hi (c : Cartridge) (t v : Z) :
  m_mbc c = MBC_MBC5 ->
  let c' := CPUWrite t 0x3000 v c in
  let r := Int.u16 (Z.lor (Z.land (MBC5.rom_bank_number (get_mbc5 c)) 0xFF)
                          (Z.shiftl (Int.u16 (Z.land v 0x01)) 8)) in
  m_mbc c' = MBC_MBC5
  /\ MBC5.rom_bank_number (get_mbc5 c') = r
  /\ MBC5.active_rom_bank (get_mbc5 c')
     = (if r >=? m_num_rom_banks c
        then Int.u16 (Int.u8 (m_num_rom_banks c) - 1) else r).
Proof.
  intros Hm. cbv zeta. unfold CPUWrite. rewrite Hm.
  unfold MBC_MBC5_Write. cbv zeta.
  change (Z.land 0x3000 0xF000) with 0x3000. cbn [Z.eqb Pos.eqb orb].
  unfold MBC_MBC5_UpdateActiveBanks.
  repeat split. exact Hm.
Qed.

(** X18.  On an MBC5 cartridge the two halves of the ROM bank number can be
    written in either order; when the number they form is a bank of the
    cartridge, that bank is the one read at 0x4000-0x7FFF, bank 0
    included. *)
Theorem MBC5_bank_select (c : Cartridge) (t lo hi a : Z) :
  m_mbc c = MBC_MBC5 ->
  0 <= lo < 256 -> 0 <= hi < 256 ->
  let n := 256 * (hi mod 2) + lo in
  n < m_num_rom_banks c ->
  0x4000 <= a < 0x8000 ->
  let c1 := CPUWrite t 0x3000 hi (CPUWrite t 0x2000 lo c) in
  let c2 := CPUWrite t 0x2000 lo (CPUWrite t 0x3000 hi c) in
  MBC5.active_rom_bank (get_mbc5 c1) = n
  /\ MBC5.active_rom_bank (get_mbc5 c2) = n
  /\ CPURead a c1 = Buf.get (nth (Z.to_nat n) (m_rom_banks c) []) (a - 0x4000)
  /\ CPURead a c2 = Buf.get (nth (Z.to_nat n) (m_rom_banks c) []) (a - 0x4000).
Proof.
  intros Hm Hlo Hhi n Hn Ha. cbv zeta.
  assert (L8 : forall x, Z.land x 0xFF = x mod 256).
  { intros x. change 0xFF with (Z.ones 8). apply Z.land_ones. lia. }
  assert (H1 : Z.land hi 1 = hi mod 2).
  { change 1 with (Z.ones 1). apply Z.land_ones. lia. }
  assert (Hb : 0 <= hi mod 2 < 2) by (apply Z.mod_pos_bound; lia).
  assert (Sh : Z.shiftl (Int.u16 (Z.land hi 1)) 8 = 256 * (hi mod 2)).
  { rewrite H1. unfold Int.u16. rewrite Z.mod_small by lia.
    rewrite Z.shiftl_mul_pow2 by lia. change (2 ^ 8) with 256. lia. }
  (* the bank number after the two writes, in either order *)
  assert (N : forall r0,
             Int.u16 (Z.lor (Z.land (Int.u16 (Z.lor (Z.land r0 0x100) lo)) 0xFF)
                            (Z.shiftl (Int.u16 (Z.land hi 1)) 8)) = n
             /\ Int.u16 (Z.lor (Z.land
                           (Int.u16 (Z.lor (Z.land r0 0xFF)
                              (Z.shiftl (Int.u16 (Z.land hi 1)) 8))) 0x100)
                        lo) = n).
  { intros r0. rewrite Sh. subst n.
    assert (D : forall x y, 0 <= x < 256 -> (y = 0 \/ y = 1) ->
                Z.lor x (256 * y) = 256 * y + x
                /\ Z.lor (256 * y) x = 256 * y + x).
    { intros x y Hx Hy.
      assert (E : Z.lor (256 * y) x = 256 * y + x).
      { destruct Hy as [-> | ->]; [ rewrite Z.lor_0_l; lia | ].
        change (256 * 1) with (Z.shiftl 1 8).
        rewrite <- Z.lxor_lor.
        - rewrite <- Z.add_nocarry_lxor; [ reflexivity | ].
          apply Z.bits_inj'. intros k Hk.
          rewrite Z.land_spec, Z.bits_0, Z.shiftl_spec by lia.
          destruct (Z.ltb_spec k 8).
          + rewrite (Z.testbit_neg_r 1 (k - 8)) by lia. reflexivity.
          + rewrite (Z.bits_above_log2 x k); [ apply andb_false_r | lia | ].
            destruct (Z.eq_dec x 0) as [-> | Nz]; [ cbn; lia | ].
            apply Z.log2_lt_pow2; [ lia | ].
            apply Z.lt_le_trans with (2 ^ 8); [ cbn; lia | ].
            apply Z.pow_le_mono_r; lia.
        - apply Z.bits_inj'. intros k Hk.
          rewrite Z.land_spec, Z.bits_0, Z.shiftl_spec by lia.
          destruct (Z.ltb_spec k 8).
          + rewrite (Z.testbit_neg_r 1 (k - 8)) by lia. reflexivity.
          + rewrite (Z.bits_above_log2 x k); [ apply andb_false_r | lia | ].
            destruct (Z.eq_dec x 0) as [-> | Nz]; [ cbn; lia | ].
            apply Z.log2_lt_pow2; [ lia | ].
            apply Z.lt_le_trans with (2 ^ 8); [ cbn; lia | ].
            apply Z.pow_le_mono_r; lia. }
      split; [ rewrite Z.lor_comm | ]; exact E. }
    assert (Y : hi mod 2 = 0 \/ hi mod 2 = 1) by lia.
    (* the bit 8 kept from the old register *)
    assert (K : forall x, exists y, (y = 0 \/ y = 1) /\ Z.land x 0x100 = 256 * y).
    { intros x. change 0x100 with (Z.shiftl 1 8).
      rewrite (land_bit x 8) by lia.
      destruct (Z.testbit x 8); [ exists 1 | exists 0 ]; split; auto. }
    split.
    - destruct (K r0) as (y & Hy & ->).
      rewrite (proj2 (D lo y Hlo Hy)).
      unfold Int.u16 at 2. rewrite (Z.mod_small (256 * y + lo)) by lia.
      rewrite L8.
      replace ((256 * y + lo) mod 256) with lo
        by (apply Z.mod_unique with (q := y); lia).
      rewrite (proj1 (D lo (hi mod 2) Hlo Y)).
      unfold Int.u16. apply Z.mod_small. lia.
    - rewrite L8.
      pose proof (Z.mod_pos_bound r0 256 ltac:(lia)) as Hr.
      rewrite (proj1 (D (r0 mod 256) (hi mod 2) Hr Y)).
      unfold Int.u16 at 2.
      rewrite (Z.mod_small (256 * (hi mod 2) + r0 mod 256)) by lia.
      assert (E : Z.land (256 * (hi mod 2) + r0 mod 256) 0x100
                  = 256 * (hi mod 2)).
      { change (Z.land (256 * (hi mod 2) + r0 mod 256) 256)
          with (Z.land (256 * (hi mod 2) + r0 mod 256) (Z.shiftl 1 8)).
        rewrite land_bit by lia.
        rewrite Z.testbit_eqb by lia. change (2 ^ 8) with 256.
        replace ((256 * (hi mod 2) + r0 mod 256) / 256) with (hi mod 2)
          by (apply Z.div_unique with (r := r0 mod 256); lia).
        destruct Y as [-> | ->]; reflexivity. }
      rewrite E.
      rewrite (proj2 (D lo (hi mod 2) Hlo Y)).
      unfold Int.u16. apply Z.mod_small. lia. }
  assert (G : forall x, x = n -> (x >=? m_num_rom_banks c) = false).
  { intros x ->. rewrite Z.geb_leb. apply Z.leb_gt. exact Hn. }
  assert (Id : forall t a v x,
             m_num_rom_banks (CPUWrite t a v x) = m_num_rom_banks x
             /\ m_rom_banks (CPUWrite t a v x) = m_rom_banks x).
  { intros t0 a0 v0 x. pose proof (CPUWrite_identity t0 a0 v0 x) as I.
    unfold identity in I. injection I as _ _ _ _ -> -> _ _.
    split; reflexivity. }
  assert (A1 : MBC5.active_rom_bank
                 (get_mbc5 (CPUWrite t 0x3000 hi (CPUWrite t 0x2000 lo c))) = n
               /\ m_mbc (CPUWrite t 0x3000 hi (CPUWrite t 0x2000 lo c))
                  = MBC_MBC5).
  { destruct (MBC5_write_lo c t lo Hm) as (M & R & _). cbv zeta in M, R.
    destruct (MBC5_write_hi _ t hi M) as (M' & _ & A). cbv zeta in M', A.
    rewrite A, R.
    rewrite (proj1 (Id t 0x2000 lo c)).
    rewrite (G _ (proj1 (N _))). split; [ apply N | exact M' ]. }
  assert (A2 : MBC5.active_rom_bank
                 (get_mbc5 (CPUWrite t 0x2000 lo (CPUWrite t 0x3000 hi c))) = n
               /\ m_mbc (CPUWrite t 0x2000 lo (CPUWrite t 0x3000 hi c))
                  = MBC_MBC5).
  { destruct (MBC5_write_hi c t hi Hm) as (M & R & _). cbv zeta in M, R.
    destruct (MBC5_write_lo _ t lo M) as (M' & _ & A). cbv zeta in M', A.
    rewrite A, R.
    rewrite (proj1 (Id t 0x3000 hi c)).
    rewrite (G _ (proj2 (N _))). split; [ apply N | exact M' ]. }
  destruct A1 as [A1 M1]. destruct A2 as [A2 M2].
  split; [ exact A1 | ]. split; [ exact A2 | ].
  assert (Rd : forall c', m_mbc c' = MBC_MBC5 ->
             MBC5.active_rom_bank (get_mbc5 c') = n ->
             m_rom_banks c' = m_rom_banks c ->
             CPURead a c'
             = Buf.get (nth (Z.to_nat n) (m_rom_banks c) []) (a - 0x4000)).
  { intros c' Mc Ac Bc.
    rewrite (rom_read_high c' a) by first [ rewrite Mc; cbn; tauto | lia ].
    unfold switched_bank. rewrite Mc, Ac, Bc. reflexivity. }
  split; apply Rd; try assumption.
  - rewrite !(proj2 (Id _ _ _ _)). reflexivity.
  - rewrite !(proj2 (Id _ _ _ _)). reflexivity.
Qed.

Lemma MBC5_bank_select_witness :
  MBC5.active_rom_bank
    (get_mbc5 (CPUWrite 0 0x3000 0 (CPUWrite 0 0x2000 5 (cart load_mbc5_ram))))
  = 256 * (0 mod 2) + 5.
Proof.
  refine (proj1 (MBC5_bank_select (cart load_mbc5_ram) 0 5 0 0x4000 _ _ _ _ _)).
  - vm_compute. reflexivity.
  - lia.
  - lia.
  - apply Z.ltb_lt. vm_compute. reflexivity.
  - lia.
Defined.

(** ** External RAM *)

Lemma eram_window (a : Z) :
  0xA000 <= a < 0xC000 ->
  in_low_rom a = false /\ in_high_rom a = false /\ in_eram a = true
  /\ ((a >=? 0xA000) && (a <? 0xC000) = true)
  /\ (Z.land a 0xF000 = 0xA000 \/ Z.land a 0xF000 = 0xB000).
Proof.
  intros Ha.
  assert (W : Z.land a 0xF000 = 0xA000 \/ Z.land a 0xF000 = 0xB000).
  { destruct (window_pair a 5 ltac:(lia) ltac:(lia)) as [E | E];
      [ left | right ]; exact E. }
  unfold in_low_rom, in_high_rom, in_eram. cbv zeta.
  split; [ destruct W as [-> | ->]; reflexivity | ].
  split; [ destruct W as [-> | ->]; reflexivity | ].
  split; [ destruct W as [-> | ->]; reflexivity | ].
  split; [ | exact W ].
  apply andb_true_iff. split; [ rewrite Z.geb_leb; apply Z.leb_le; lia
                              | apply Z.ltb_lt; lia ].
Qed.

Lemma eram_offset_range (b a : Z) : 0 <= eram_offset_of b a < 65536.
Proof. unfold eram_offset_of, Int.u16. apply Z.mod_pos_bound. lia. Qed.

Lemma eram_put_stores (o v : Z) (c : Cartridge) (p : list Z) :
  m_external_ram c = Some p -> o < m_external_ram_size c ->
  eram_put o v c
  = set_external_ram (Some (Buf.store p o v))
      (if negb (Buf.get p o =? v) then set_external_ram_modified true c
       else c).
Proof.
  intros E Ho. unfold eram_put.
  replace (o <? m_external_ram_size c) with true
    by (symmetry; apply Z.ltb_lt; exact Ho).
  rewrite E. reflexivity.
Qed.

(** X19.  A write to 0x0000-0x1FFF opens the RAM when the value is 0x0A and
    closes it otherwise.  Closing a modified RAM clears the mark and, for
    a cartridge with RAM and battery, hands the RAM to the host once; no
    other write to this window calls the host.  The RAM itself stays. *)
Theorem ram_enable_write (c : Cartridge) (t a v : Z) :
  In (m_mbc c) [MBC_MBC1; MBC_MBC3; MBC_MBC5] ->
  0x0000 <= a <= 0x1FFF ->
  let c' := CPUWrite t a v c in
  ram_enabled c' = (v =? 0x0A)
  /\ m_external_ram c' = m_external_ram c
  /\ m_external_ram_modified c'
     = (if v =? 0x0A then m_external_ram_modified c else false)
  /\ m_callbacks c'
     = m_callbacks c
       ++ (if negb (v =? 0x0A) && m_external_ram_modified c
              && (m_external_ram_size c >? 0) && battery (m_typeinfo c)
           then [SaveCartridgeRAM (ram_image c)] else []).
Proof.
  intros Hm Ha. cbv zeta.
  assert (W : (Z.land a 0xF000 =? 0x0000) || (Z.land a 0xF000 =? 0x1000)
              = true).
  { destruct (window_pair a 0 ltac:(lia) ltac:(lia)) as [-> | ->];
      reflexivity. }
  unfold ram_enabled, CPUWrite, ram_image. cbn [In] in Hm.
  destruct Hm as [Em | [Em | [Em | []]]]; rewrite <- Em.
  - unfold MBC_MBC1_Write. cbv zeta. rewrite W.
    cbn [m_external_ram_modified set_mbc1 set_mbc_data].
    unfold SaveRAM.
    cbn [m_external_ram_size m_typeinfo set_mbc1 set_mbc_data
         m_external_ram].
    destruct (v =? 10), (m_external_ram_modified c) eqn:Ed,
      ((m_external_ram_size c >? 0)), (battery (m_typeinfo c));
      cbn [negb andb m_mbc set_external_ram_modified call_host set_mbc1
           set_mbc_data]; rewrite <- Em;
      cbn [get_mbc1 m_mbc_data mbc1 MBC1.ram_enable m_external_ram
           m_external_ram_modified m_callbacks set_mbc1 set_mbc_data];
      rewrite ?app_nil_r, ?Ed; repeat split.
  - unfold MBC_MBC3_Write. cbv zeta. rewrite W.
    cbn [m_external_ram_modified set_mbc3 set_mbc_data].
    unfold SaveRAM.
    cbn [m_external_ram_size m_typeinfo set_mbc3 set_mbc_data
         m_external_ram].
    destruct (v =? 10), (m_external_ram_modified c) eqn:Ed,
      ((m_external_ram_size c >? 0)), (battery (m_typeinfo c));
      cbn [negb andb m_mbc set_external_ram_modified call_host set_mbc3
           set_mbc_data]; rewrite <- Em;
      cbn [get_mbc3 m_mbc_data mbc3 MBC3.ram_rtc_enable m_external_ram
           m_external_ram_modified m_callbacks set_mbc3 set_mbc_data];
      rewrite ?app_nil_r, ?Ed; repeat split.
  - unfold MBC_MBC5_Write. cbv zeta. rewrite W.
    cbn [m_external_ram_modified set_mbc5 set_mbc_data].
    unfold SaveRAM.
    cbn [m_external_ram_size m_typeinfo set_mbc5 set_mbc_data
         m_external_ram].
    destruct (v =? 10), (m_external_ram_modified c) eqn:Ed,
      ((m_external_ram_size c >? 0)), (battery (m_typeinfo c));
      cbn [negb andb m_mbc set_external_ram_modified call_host set_mbc5
           set_mbc_data]; rewrite <- Em;
      cbn [get_mbc5 m_mbc_data mbc5 MBC5.ram_enable m_external_ram
           m_external_ram_modified m_callbacks set_mbc5 set_mbc_data];
      rewrite ?app_nil_r, ?Ed; repeat split.
Qed.

Lemma ram_enable_write_witness :
  ram_enabled (CPUWrite 0 0x1234 0x0A (cart load_mbc1_ram)) = (0x0A =? 0x0A).
Proof.
  refine (proj1 (ram_enable_write (cart load_mbc1_ram) 0 0x1234 0x0A _ _)).
  - left. vm_compute. reflexivity.
  - lia.
Defined.

(** X20.  With the RAM disabled, a controller ignores writes to 0xA000-0xBFFF
    and answers reads from there with 0. *)
Theorem external_ram_closed (c : Cartridge) (t a v : Z) :
  In (m_mbc c) [MBC_MBC1; MBC_MBC3; MBC_MBC5] ->
  ram_enabled c = false ->
  0xA000 <= a < 0xC000 ->
  CPUWrite t a v c = c /\ CPURead a c = 0.
Proof.
  intros Hm Hd Ha.
  destruct (eram_window a Ha) as (Wl & Wh & We & Wr & W).
  assert (NW : forall k, k < 0xA000 -> (Z.land a 0xF000 =? k) = false).
  { intros k Hk. apply Z.eqb_neq. destruct W as [-> | ->]; lia. }
  unfold ram_enabled in Hd. unfold CPUWrite, CPURead.
  cbn [In] in Hm.
  destruct Hm as [Em | [Em | [Em | []]]]; rewrite <- Em in *.
  - unfold MBC_MBC1_Write, MBC_MBC1_Read. cbv zeta.
    rewrite !NW by lia. cbn [orb]. rewrite Wr, Wl, Wh, We, Hd.
    destruct (m_external_ram c); split; reflexivity.
  - unfold MBC_MBC3_Write, MBC_MBC3_Read. cbv zeta.
    rewrite !NW by lia. cbn [orb]. rewrite Wr, Wl, Wh, We, Hd.
    split; reflexivity.
  - unfold MBC_MBC5_Write, MBC_MBC5_Read. cbv zeta.
    rewrite !NW by lia. cbn [orb]. rewrite Wr, Wl, Wh, We, Hd.
    split; reflexivity.
Qed.

Lemma external_ram_closed_witness :
  CPUWrite 0 0xA123 0x5A (cart load_mbc1_ram) = cart load_mbc1_ram
  /\ CPURead 0xA123 (cart load_mbc1_ram) = 0.
Proof.
  apply (external_ram_closed (cart load_mbc1_ram) 0 0xA123 0x5A).
  - left. vm_compute. reflexivity.
  - vm_compute. reflexivity.
  - lia.
Defined.

(** X21.  A byte written to the external RAM through an open window reads back,
    the write changes that byte of the buffer only, and it marks the RAM
    as modified when the byte differs from the one stored (no marking
    without a controller).  Nothing else in the object changes. *)
Theorem external_ram_write_read (c : Cartridge) (t a v b : Z) (p : list Z) :
  ram_bank c = Some b ->
  m_external_ram c = Some p ->
  Z.of_nat (length p) = m_external_ram_size c ->
  0xA000 <= a < 0xC000 ->
  eram_offset_of b a < m_external_ram_size c ->
  let o := eram_offset_of b a in
  let c' := CPUWrite t a v c in
  CPURead a c' = v
  /\ m_external_ram c' = Some (Buf.store p o v)
  /\ m_external_ram_modified c'
     = (match m_mbc c with
        | MBC_NONE => m_external_ram_modified c
        | _ => m_external_ram_modified c || negb (Buf.get p o =? v)
        end)
  /\ m_mbc_data c' = m_mbc_data c
  /\ m_rtc_data c' = m_rtc_data c
  /\ m_callbacks c' = m_callbacks c.
Proof.
  intros Hb Hp Hl Ha Ho. cbv zeta.
  destruct (eram_window a Ha) as (Wl & Wh & We & Wr & W).
  pose proof (eram_offset_range b a) as Hr.
  assert (Lt : (eram_offset_of b a <? m_external_ram_size c) = true)
    by (apply Z.ltb_lt; exact Ho).
  assert (G : Buf.get (Buf.store p (eram_offset_of b a) v) (eram_offset_of b a)
              = v) by (apply get_store_same; lia).
  assert (NW : forall k, k < 0xA000 -> (Z.land a 0xF000 =? k) = false).
  { intros k Hk. apply Z.eqb_neq. destruct W as [-> | ->]; lia. }
  unfold ram_bank in Hb. unfold CPUWrite, CPURead.
  destruct (m_mbc c) eqn:Em; try discriminate Hb.
  - (* no controller *)
    injection Hb as <-.
    change (eram_offset_of 0 a) with (Int.u16 (a - 0xA000)) in *.
    unfold MBC_NONE_Write. rewrite Wr, Hp, Lt.
    cbn [m_mbc set_external_ram]. rewrite Em.
    unfold MBC_NONE_Read. rewrite Wl, Wh, We.
    cbn [m_external_ram m_external_ram_size m_external_ram_modified
         m_mbc_data m_rtc_data m_callbacks set_external_ram].
    rewrite Lt, G. repeat split.
  - (* MBC1 *)
    destruct (MBC1.ram_enable (get_mbc1 c)) eqn:En; [ | discriminate Hb ].
    injection Hb as <-.
    unfold MBC_MBC1_Write. cbv zeta.
    rewrite !NW by lia. cbn [orb]. rewrite Wr, Hp, En.
    rewrite (eram_put_stores _ _ _ p Hp Ho).
    destruct (negb (Buf.get p _ =? v));
      cbn [m_mbc set_external_ram set_external_ram_modified];
      rewrite Em; unfold MBC_MBC1_Read; rewrite Wl, Wh, We;
      cbn [m_external_ram m_external_ram_size m_external_ram_modified
           m_mbc_data m_rtc_data m_callbacks get_mbc1 set_external_ram
           set_external_ram_modified];
      repeat change (get_mbc1 (set_external_ram ?x ?y)) with (get_mbc1 y);
      repeat change (get_mbc1 (set_external_ram_modified ?x ?y))
        with (get_mbc1 y);
      rewrite En, Lt, G;
      rewrite ?orb_true_r, ?orb_false_r; repeat split.
  - (* MBC3 *)
    destruct (MBC3.ram_rtc_enable (get_mbc3 c)) eqn:En;
      [ | discriminate Hb ].
    destruct (MBC3.ram_bank_number (get_mbc3 c) <=? 7) eqn:Es;
      [ | discriminate Hb ].
    injection Hb as <-.
    unfold MBC_MBC3_Write. cbv zeta.
    rewrite !NW by lia. cbn [orb]. rewrite Wr, En, Es.
    rewrite (eram_put_stores _ _ _ p Hp Ho).
    destruct (negb (Buf.get p _ =? v));
      cbn [m_mbc set_external_ram set_external_ram_modified];
      rewrite Em; unfold MBC_MBC3_Read, eram_get; rewrite Wl, Wh, We;
      cbn [m_external_ram m_external_ram_size m_external_ram_modified
           m_mbc_data m_rtc_data m_callbacks get_mbc3 set_external_ram
           set_external_ram_modified];
      repeat change (get_mbc3 (set_external_ram ?x ?y)) with (get_mbc3 y);
      repeat change (get_mbc3 (set_external_ram_modified ?x ?y))
        with (get_mbc3 y);
      rewrite En, Es, Lt, G;
      rewrite ?orb_true_r, ?orb_false_r; repeat split.
  - (* MBC5 *)
    destruct (MBC5.ram_enable (get_mbc5 c)) eqn:En; [ | discriminate Hb ].
    injection Hb as <-.
    unfold MBC_MBC5_Write. cbv zeta.
    rewrite !NW by lia. cbn [orb]. rewrite Wr, En.
    rewrite (eram_put_stores _ _ _ p Hp Ho).
    destruct (negb (Buf.get p _ =? v));
      cbn [m_mbc set_external_ram set_external_ram_modified];
      rewrite Em; unfold MBC_MBC5_Read, eram_get; rewrite Wl, Wh, We;
      cbn [m_external_ram m_external_ram_size m_external_ram_modified
           m_mbc_data m_rtc_data m_callbacks get_mbc5 set_external_ram
           set_external_ram_modified];
      repeat change (get_mbc5 (set_external_ram ?x ?y)) with (get_mbc5 y);
      repeat change (get_mbc5 (set_external_ram_modified ?x ?y))
        with (get_mbc5 y);
      rewrite En, Lt, G;
      rewrite ?orb_true_r, ?orb_false_r; repeat split.
Qed.

Lemma external_ram_write_read_witness :
  CPURead 0xA123 (CPUWrite 0 0xA123 0x5A mbc1_ram_open) = 0x5A.
Proof.
  refine (proj1 (external_ram_write_read mbc1_ram_open 0 0xA123 0x5A 0
                   (repeat 0 (Z.to_nat 8192)) _ _ _ _ _)).
  - vm_compute. reflexivity.
  - vm_compute. reflexivity.
  - vm_compute. reflexivity.
  - lia.
  - apply Z.ltb_lt. vm_compute. reflexivity.
Defined.

Lemma eram_offset_alias (b a : Z) :
  eram_offset_of (b + 8) a = eram_offset_of b a.
Proof.
  unfold eram_offset_of, Int.u16.
  replace ((b + 8) * 8192 + (a - 40960))
    with (b * 8192 + (a - 40960) + 1 * 65536) by lia.
  apply Z.mod_add. lia.
Qed.

Lemma MBC5_select_ram_bank (c : Cartridge) (t b : Z) :
  m_mbc c = MBC_MBC5 ->
  let c' := CPUWrite t 0x4000 b c in
  m_mbc c' = MBC_MBC5
  /\ MBC5.ram_enable (get_mbc5 c') = MBC5.ram_enable (get_mbc5 c)
  /\ MBC5.ram_bank_number (get_mbc5 c') = b
  /\ m_external_ram c' = m_external_ram c
  /\ m_external_ram_size c' = m_external_ram_size c.
Proof.
  intros Hm. cbv zeta. unfold CPUWrite. rewrite Hm.
  unfold MBC_MBC5_Write. cbv zeta.
  change (Z.land 0x4000 0xF000) with 0x4000. cbn [Z.eqb Pos.eqb orb].
  unfold MBC_MBC5_UpdateActiveBanks.
  repeat split. exact Hm.
Qed.

Lemma MBC5_ram_access (c : Cartridge) (t a v : Z) :
  m_mbc c = MBC_MBC5 -> 0xA000 <= a < 0xC000 ->
  let o := eram_offset_of (MBC5.ram_bank_number (get_mbc5 c)) a in
  CPURead a c
  = (if MBC5.ram_enable (get_mbc5 c)
     then if o <? m_external_ram_size c then eram_get c o else 0
     else 0)
  /\ m_external_ram (CPUWrite t a v c)
     = (if MBC5.ram_enable (get_mbc5 c) && (o <? m_external_ram_size c)
        then option_map (fun p => Buf.store p o v) (m_external_ram c)
        else m_external_ram c).
Proof.
  intros Hm Ha. cbv zeta.
  destruct (eram_window a Ha) as (Wl & Wh & We & Wr & W).
  assert (NW : forall k, k < 0xA000 -> (Z.land a 0xF000 =? k) = false).
  { intros k Hk. apply Z.eqb_neq. destruct W as [-> | ->]; lia. }
  unfold CPURead, CPUWrite. rewrite Hm.
  unfold MBC_MBC5_Read, MBC_MBC5_Write. cbv zeta.
  rewrite !NW by lia. cbn [orb]. rewrite Wl, Wh, We, Wr.
  split; [ reflexivity | ].
  destruct (MBC5.ram_enable _); [ | reflexivity ]. cbn [andb].
  unfold eram_put.
  destruct (eram_offset_of _ a <? m_external_ram_size c); [ | reflexivity ].
  destruct (m_external_ram c) as [ p | ] eqn:Ep; [ | exact Ep ].
  destruct (negb _); reflexivity.
Qed.

(** X22.  The RAM offset is computed in 16 bits, so RAM banks eight apart reach
    the same bytes: on an MBC5 cartridge, selecting RAM bank [b + 8] gives
    the same reads as selecting bank [b], and a write lands on the same
    byte. *)
Theorem MBC5_ram_banks_alias (c : Cartridge) (t t' b a v : Z) :
  m_mbc c = MBC_MBC5 -> 0xA000 <= a < 0xC000 ->
  let c8 := CPUWrite t 0x4000 (b + 8) c in
  let c0 := CPUWrite t 0x4000 b c in
  CPURead a c8 = CPURead a c0
  /\ m_external_ram (CPUWrite t' a v c8) = m_external_ram (CPUWrite t' a v c0).
Proof.
  intros Hm Ha. cbv zeta.
  destruct (MBC5_select_ram_bank c t (b + 8) Hm) as (M8 & E8 & B8 & R8 & S8).
  destruct (MBC5_select_ram_bank c t b Hm) as (M0 & E0 & B0 & R0 & S0).
  cbv zeta in *.
  destruct (MBC5_ram_access _ t' a v M8 Ha) as (Rd8 & Wr8).
  destruct (MBC5_ram_access _ t' a v M0 Ha) as (Rd0 & Wr0).
  cbv zeta in *.
  rewrite Rd8, Rd0, Wr8, Wr0.
  unfold eram_get.
  rewrite E8, E0, B8, B0, R8, R0, S8, S0, eram_offset_alias.
  split; reflexivity.
Qed.

Lemma MBC5_ram_banks_alias_witness :
  CPURead 0xA000 (CPUWrite 0 0x4000 (1 + 8) (cart load_mbc5_ram))
  = CPURead 0xA000 (CPUWrite 0 0x4000 1 (cart load_mbc5_ram)).
Proof.
  refine (proj1 (MBC5_ram_banks_alias (cart load_mbc5_ram) 0 0 1 0xA000 0 _ _)).
  - vm_compute. reflexivity.
  - lia.
Defined.

Lemma MBC_NONE_Write_quiet (a v : Z) (c : Cartridge) :
  let c' := MBC_NONE_Write a v c in
  m_callbacks c' = m_callbacks c
  /\ m_external_ram_modified c' = m_external_ram_modified c
  /\ m_mbc_data c' = m_mbc_data c /\ m_rtc_data c' = m_rtc_data c.
Proof.
  cbv zeta. unfold MBC_NONE_Write.
  destruct (_ && _); [ | repeat split ].
  destruct (m_external_ram c); [ | repeat split ].
  destruct (_ <? _); repeat split.
Qed.

(** X23.  A cartridge without controller never calls the host and never marks
    its RAM as modified, whatever is written to it: the RAM of a
    ROM+RAM+BATTERY cartridge is never handed over for saving. *)
Theorem no_controller_never_saves (ops : list BusOp) (c : Cartridge) :
  m_mbc c = MBC_NONE ->
  let c' := bus_run ops c in
  m_callbacks c' = m_callbacks c
  /\ m_external_ram_modified c' = m_external_ram_modified c.
Proof.
  intros Hm. cbv zeta. revert c Hm.
  induction ops as [ | op ops IH ]; intros c Hm; [ split; reflexivity | ].
  unfold bus_run. cbn [fold_left]. fold (bus_run ops (bus_step c op)).
  destruct op as [ a | t a v ]; cbn [bus_step]; [ apply IH; exact Hm | ].
  assert (E : CPUWrite t a v c = MBC_NONE_Write a v c)
    by (unfold CPUWrite; rewrite Hm; reflexivity).
  rewrite E.
  destruct (MBC_NONE_Write_quiet a v c) as (Q1 & Q2 & _).
  cbv zeta in Q1, Q2. rewrite <- Q1, <- Q2. apply IH.
  rewrite <- E.
  assert (I := CPUWrite_identity t a v c). unfold identity in I.
  injection I as -> _. exact Hm.
Qed.

Lemma no_controller_never_saves_witness :
  m_callbacks (bus_run [BusWrite 0 0xA000 0x55; BusWrite 0 0x0000 0x00]
                       (cart load_rom_ram))
  = m_callbacks (cart load_rom_ram).
Proof.
  refine (proj1 (no_controller_never_saves
                   [BusWrite 0 0xA000 0x55; BusWrite 0 0x0000 0x00]
                   (cart load_rom_ram) _)).
  vm_compute. reflexivity.
Defined.

(** ** The clock *)

Lemma GetCurrentRTCTime_range (now : Z) (c : Cartridge) :
  let v := GetCurrentRTCTime now c in
  0 <= seconds v < 60 /\ 0 <= minutes v < 60 /\ 0 <= hours v < 24
  /\ 0 <= days v < 4294967296.
Proof.
  cbv zeta. unfold GetCurrentRTCTime. cbv zeta.
  cbn [seconds minutes hours days].
  set (d := Int.u64 (_ + Int.u64 (Int.s32 (offset_days (m_rtc_data c) * 86400)))).
  pose proof (Z.mod_pos_bound d 60 ltac:(lia)).
  pose proof (Z.mod_pos_bound (d / 60) 60 ltac:(lia)).
  pose proof (Z.mod_pos_bound (d / 3600) 24 ltac:(lia)).
  unfold Int.u32.
  rewrite (Z.mod_small (d mod 60)) by lia.
  rewrite (Z.mod_small ((d / 60) mod 60)) by lia.
  rewrite (Z.mod_small ((d / 3600) mod 24)) by lia.
  pose proof (Z.mod_pos_bound (d / 86400) 4294967296 ltac:(lia)).
  lia.
Qed.

(** X24.  Whatever the clock fields and the host clock hold, a latching write
    leaves five latched registers with seconds and minutes below 60, hours
    below 24, a byte of days, and a last register in which only bit 0 (day
    bit 8) and bit 7 (day counter at 512 or more) can be set. *)
Theorem latched_registers_in_range (c : Cartridge) (t a : Z) :
  m_mbc c = MBC_MBC3 -> 0x6000 <= a <= 0x7FFF ->
  MBC3.rtc_latch (get_mbc3 c) <> 0x01 ->
  let l := MBC3.rtc_latch_data (get_mbc3 (CPUWrite t a 0x01 c)) in
  length l = 5%nat
  /\ 0 <= Buf.get l 0 < 60 /\ 0 <= Buf.get l 1 < 60 /\ 0 <= Buf.get l 2 < 24
  /\ 0 <= Buf.get l 3 < 256
  /\ In (Buf.get l 4) [0x00; 0x01; 0x80; 0x81].
Proof.
  intros Hm Ha Hl. cbv zeta.
  assert (E : CPUWrite t a 1 c = MBC_MBC3_Write t a 1 c)
    by (unfold CPUWrite; rewrite Hm; reflexivity).
  rewrite E.
  destruct (MBC3_write_latch c t a 1) as [L _]. cbv zeta in L. rewrite L.
  assert (Edge : latch_edge c (BusWrite t a 1) = true).
  { unfold latch_edge.
    destruct (window_pair a 3 ltac:(lia) ltac:(lia)) as [-> | ->];
      cbn [Z.mul Z.add Pos.mul Pos.add Z.eqb Pos.eqb orb andb];
      rewrite andb_true_r; apply negb_true_iff, Z.eqb_neq; exact Hl. }
  rewrite Edge.
  destruct (GetCurrentRTCTime_range t c) as (Hs & Hmi & Hh & Hd).
  cbv zeta in *.
  rewrite latch_bytes_exact by (assumption || lia).
  cbn [length]. unfold Buf.get.
  cbn [Z.to_nat Pos.to_nat Pos.iter_op Nat.add nth].
  split; [ reflexivity | ].
  split; [ assumption | ]. split; [ assumption | ]. split; [ assumption | ].
  split; [ apply Z.mod_pos_bound; lia | ].
  pose proof (Z.mod_pos_bound (days (GetCurrentRTCTime t c) / 256) 2
                ltac:(lia)) as B.
  assert (C : (days (GetCurrentRTCTime t c) / 256) mod 2 = 0
              \/ (days (GetCurrentRTCTime t c) / 256) mod 2 = 1) by lia.
  destruct C as [-> | ->];
    destruct (days (GetCurrentRTCTime t c) >=? 512); cbn; tauto.
Qed.

Lemma latched_registers_in_range_witness :
  length (MBC3.rtc_latch_data
            (get_mbc3 (CPUWrite 4661 0x6000 0x01 (cart load_mbc3)))) = 5%nat.
Proof.
  refine (proj1 (latched_registers_in_range (cart load_mbc3) 4661 0x6000 _ _ _)).
  - vm_compute. reflexivity.
  - lia.
  - vm_compute. discriminate.
Defined.

Lemma byte_of_0 (x : Z) : Stream.byte_of x 0 = x mod 256.
Proof. unfold Stream.byte_of. cbn [Z.mul Z.pow]. rewrite Z.div_1_r. reflexivity. Qed.

Lemma byte_of_1 (x : Z) : Stream.byte_of x 1 = (x / 256) mod 256.
Proof. reflexivity. Qed.

(** X25.  [SaveRTC] and [LoadRTC] do not agree on the order of the fields.
    [SaveRTC] hands the host 16 bytes: the base time, then days (2 bytes),
    hours, minutes, seconds and three zero bytes.  [LoadRTC] reads the base
    time, then seconds, minutes, hours, days (2 bytes) and the active flag.
    So what comes back from the bytes saved has the base time and the hours
    of what was saved, but the seconds and minutes are the two bytes of the
    saved days, the days are the saved minutes and seconds, and the clock is
    not active. *)
Theorem rtc_file_round_trip (c c0 : Cartridge) (now : Z) :
  let r := m_rtc_data c in
  timer (m_typeinfo c) = true -> timer (m_typeinfo c0) = true ->
  Int.is_u64 (base_time r) -> Int.is_u16 (offset_days r) ->
  Int.is_u8 (offset_hours r) -> Int.is_u8 (offset_minutes r) ->
  Int.is_u8 (offset_seconds r) ->
  let data := saved_rtc (SaveRTC c) in
  length data = 16%nat
  /\ m_rtc_data (LoadRTC now (Some data) c0)
     = mkRTCData (base_time r)
                 (offset_days r mod 256) (offset_days r / 256)
                 (offset_hours r)
                 (offset_minutes r + 256 * offset_seconds r)
                 false.
Proof.
  intros r Tc T0 Hb Hd Hh Hm Hs. cbv zeta.
  unfold Int.is_u64, Int.is_u16, Int.is_u8 in *.
  unfold saved_rtc, SaveRTC. rewrite Tc. cbn [negb].
  unfold call_host. cbn [m_callbacks]. rewrite last_last. fold r.
  split; [ reflexivity | ].
  unfold LoadRTC. cbn [set_rtc_data m_typeinfo]. rewrite T0. cbn [negb].
  rewrite (read_write_u64 (base_time r)) by exact Hb.
  unfold Stream.WriteUInt16, Stream.WriteUInt8, Stream.ReadUInt8,
    Stream.ReadUInt16, Stream.ReadBool.
  cbn [app m_rtc_data set_rtc_data].
  rewrite !byte_of_0, byte_of_1.
  rewrite (Z.mod_small (offset_hours r)) by lia.
  rewrite (Z.mod_small (offset_minutes r)) by lia.
  rewrite (Z.mod_small (offset_seconds r)) by lia.
  rewrite (Z.mod_small (offset_days r / 256)).
  - reflexivity.
  - split; [ apply Z.div_pos; lia | apply Z.div_lt_upper_bound; lia ].
Qed.

Lemma rtc_file_round_trip_witness :
  length (saved_rtc (SaveRTC (cart load_mbc3))) = 16%nat.
Proof.
  refine (proj1 (rtc_file_round_trip (cart load_mbc3) (cart load_mbc3) 0
                   _ _ _ _ _ _ _)).
  - vm_compute. reflexivity.
  - vm_compute. reflexivity.
  - unfold Int.is_u64. split; [ apply Z.leb_le | apply Z.ltb_lt ];
      vm_compute; reflexivity.
  - unfold Int.is_u16. split; [ apply Z.leb_le | apply Z.ltb_lt ];
      vm_compute; reflexivity.
  - unfold Int.is_u8. split; [ apply Z.leb_le | apply Z.ltb_lt ];
      vm_compute; reflexivity.
  - unfold Int.is_u8. split; [ apply Z.leb_le | apply Z.ltb_lt ];
      vm_compute; reflexivity.
  - unfold Int.is_u8. split; [ apply Z.leb_le | apply Z.ltb_lt ];
      vm_compute; reflexivity.
Defined.

(** X29.  A write to the seconds, minutes or hours register of the clock does
    not set the clock to the value written.  It replaces the offset that
    [GetCurrentRTCTime] adds to the time elapsed since the base time, and
    nothing else of the clock: the two offsets that are not selected, the
    base time, the day offset and the active mark are as before.  The
    clock reading moves by the difference between the value and the old
    offset.  When the value differs from the
    old offset and the cartridge has a timer, the clock is handed to the
    host for saving, once, as 16 bytes; otherwise the host is not called.
    The RAM and the registers of the controller stay. *)
Theorem rtc_write_is_an_offset (c : Cartridge) (t a v now : Z) :
  let sel := MBC3.ram_bank_number (get_mbc3 c) in
  let r := m_rtc_data c in
  m_mbc c = MBC_MBC3 -> MBC3.ram_rtc_enable (get_mbc3 c) = true ->
  0x08 <= sel <= 0x0A -> 0xA000 <= a < 0xC000 ->
  let c' := CPUWrite t a v c in
  let r' := m_rtc_data c' in
  rtc_offset sel r' = v
  /\ offset_seconds r' = (if sel =? 0x08 then v else offset_seconds r)
  /\ offset_minutes r' = (if sel =? 0x09 then v else offset_minutes r)
  /\ offset_hours r' = (if sel =? 0x0A then v else offset_hours r)
  /\ base_time r' = base_time r /\ offset_days r' = offset_days r
  /\ active r' = active r
  /\ rtc_seconds now r' = rtc_seconds now r + rtc_unit sel * (v - rtc_offset sel r)
  /\ (rtc_offset sel r = v \/ timer (m_typeinfo c) = false ->
      m_callbacks c' = m_callbacks c)
  /\ (rtc_offset sel r <> v -> timer (m_typeinfo c) = true ->
      m_callbacks c' = m_callbacks c ++ [SaveCartridgeRTC (saved_rtc c')]
      /\ length (saved_rtc c') = 16%nat)
  /\ m_external_ram c' = m_external_ram c
  /\ m_external_ram_modified c' = m_external_ram_modified c
  /\ m_mbc_data c' = m_mbc_data c.
Proof.
  intros sel r Hm He Hs Ha. cbv zeta.
  destruct (eram_window a Ha) as (Wl & Wh & We & Wr & W).
  assert (NW : forall k, k < 0xA000 -> (Z.land a 0xF000 =? k) = false).
  { intros k Hk. apply Z.eqb_neq. destruct W as [-> | ->]; lia. }
  unfold CPUWrite. rewrite Hm. unfold MBC_MBC3_Write. cbv zeta.
  rewrite !NW by lia. cbn [orb]. rewrite Wr, He. fold sel. fold r.
  replace (sel <=? 7) with false by (symmetry; apply Z.leb_gt; lia).
  replace (sel >=? 8) with true
    by (symmetry; rewrite Z.geb_leb; apply Z.leb_le; lia).
  replace (sel <=? 12) with true by (symmetry; apply Z.leb_le; lia).
  cbn [andb].
  assert (S : sel = 8 \/ sel = 9 \/ sel = 10) by lia.
  unfold rtc_offset, rtc_unit, rtc_seconds, rtc_offset_write, SaveRTC,
    saved_rtc, call_host.
  destruct S as [-> | [-> | ->]]; cbn [Z.eqb Pos.eqb];
    cbn [set_rtc_data m_typeinfo m_rtc_data m_callbacks].
  all: match goal with
       | |- context [ negb (?x =? ?y) ] => destruct (Z.eqb_spec x y) as [E | N]
       end; cbn [negb].
  all: try (destruct (timer (m_typeinfo c)) eqn:Et; cbn [negb]).
  all: cbn [set_rtc_data m_typeinfo m_rtc_data m_callbacks m_external_ram
            m_external_ram_modified m_mbc_data base_time offset_seconds
            offset_minutes offset_hours offset_days active].
  all: fold r; rewrite ?last_last.
  all: repeat split; try reflexivity; try lia; try congruence.
  all: try (intros [H | H]; [ contradiction | discriminate H ]).
  all: try (intros [H | H]; congruence).
  all: try (intros; contradiction).
Qed.

Lemma rtc_write_is_an_offset_witness :
  rtc_offset (MBC3.ram_bank_number (get_mbc3 rtc_selected))
             (m_rtc_data (CPUWrite 2000 0xA000 30 rtc_selected)) = 30.
Proof.
  refine (proj1 (rtc_write_is_an_offset rtc_selected 2000 0xA000 30 0
                   _ _ _ _)).
  - vm_compute. reflexivity.
  - vm_compute. reflexivity.
  - split; apply Z.leb_le; vm_compute; reflexivity.
  - lia.
Defined.

(** ** Save states: what comes back and what stays *)

(** X26.  Loading what a well-formed state [S] saved, into an object [c] for
    the same ROM, succeeds and consumes exactly the bytes saved.  It
    restores the external RAM when the cartridge has RAM, and the clock
    data when the cartridge type has a timer; for a type without a timer
    the clock data of [c] stay, also on an MBC3, where the bus can change
    them.  It restores all registers of MBC1 and MBC5, and of MBC3 the
    three bank and enable registers (the latch register and the latched
    clock registers are not part of the save state and keep the values of
    [c]). *)
Theorem save_state_restores (S c : Cartridge) (rest : list Z) :
  state_ok S -> same_rom S c ->
  exists c',
    LoadState (SaveState S ++ rest) c = Some (Done tt, rest, c')
    /\ (0 < m_external_ram_size S -> m_external_ram c' = m_external_ram S)
    /\ (m_external_ram_size S = 0 -> m_external_ram c' = m_external_ram c)
    /\ (timer (m_typeinfo S) = true -> m_rtc_data c' = m_rtc_data S)
    /\ (timer (m_typeinfo S) = false -> m_rtc_data c' = m_rtc_data c)
    /\ (m_mbc S = MBC_MBC1 -> get_mbc1 c' = get_mbc1 S)
    /\ (m_mbc S = MBC_MBC5 -> get_mbc5 c' = get_mbc5 S)
    /\ (m_mbc S = MBC_MBC3 ->
        MBC3.ram_rtc_enable (get_mbc3 c') = MBC3.ram_rtc_enable (get_mbc3 S)
        /\ MBC3.rom_bank_number (get_mbc3 c')
           = MBC3.rom_bank_number (get_mbc3 S)
        /\ MBC3.ram_bank_number (get_mbc3 c')
           = MBC3.ram_bank_number (get_mbc3 S)
        /\ MBC3.rtc_latch (get_mbc3 c') = MBC3.rtc_latch (get_mbc3 c)
        /\ MBC3.rtc_latch_data (get_mbc3 c')
           = MBC3.rtc_latch_data (get_mbc3 c)).
Proof.
  intros Ok Same. exists (loaded_from S c).
  split; [ apply save_state_round_trip; assumption | ].
  destruct (loaded_from_restores S c) as (R1 & R2 & R3 & R4 & R5).
  cbv zeta in *.
  split; [ exact R1 | ].
  split.
  { intros Z0. unfold loaded_from. rewrite Z0. cbn [Z.gtb Z.compare].
    destruct (timer (m_typeinfo S)), (m_mbc S); reflexivity. }
  split; [ exact R2 | ].
  split.
  { intros T0. unfold loaded_from. rewrite T0.
    destruct (m_external_ram_size S >? 0), (m_mbc S); reflexivity. }
  split; [ exact R3 | ]. split; [ exact R4 | exact R5 ].
Qed.

Lemma save_state_restores_witness :
  exists c',
    LoadState (SaveState latched_once ++ []) latched_twice
    = Some (Done tt, [], c')
    /\ (timer (m_typeinfo latched_once) = true ->
        m_rtc_data c' = m_rtc_data latched_once).
Proof.
  destruct (save_state_restores latched_once latched_twice []
              (proj1 example_states_ok) (proj2 example_states_ok))
    as (c' & L & _ & _ & R & _).
  exists c'. split; assumption.
Defined.

Section Keeps.

Variable R : Cartridge -> Cartridge -> Prop.
Hypothesis R_trans : forall a b c, R a b -> R b c -> R a c.
Hypothesis R_refl_r : forall a b, R a b -> R b b.

Lemma keeps_lret {A : Type} (a : A) : keeps R (lret a).
Proof. intros s c x s' c' H E. injection E as _ _ <-. exact H. Qed.

Lemma keeps_read {A : Type} (r : Stream.Reader A) : keeps R (read r).
Proof.
  intros s c x s' c' H E. unfold read in E.
  destruct (r s) as [ [y s1] | ]; [ | discriminate E ].
  injection E as _ _ <-. exact H.
Qed.

Lemma keeps_this : keeps R this.
Proof. intros s c x s' c' H E. injection E as _ _ <-. exact H. Qed.

Lemma keeps_update (f : Cartridge -> Cartridge) :
  (forall c, R c c -> R c (f c)) -> keeps R (update f).
Proof. intros Hf s c x s' c' H E. injection E as _ _ <-. apply Hf, H. Qed.

Lemma keeps_lbind {A B : Type} (m : Loader A) (k : A -> Loader B) :
  keeps R m -> (forall a, keeps R (k a)) -> keeps R (lbind m k).
Proof.
  intros Hm Hk s c b s' c' H E. unfold lbind in E.
  destruct (m s c) as [ [[a s1] c1] | ] eqn:Em; [ | discriminate E ].
  pose proof (Hm _ _ _ _ _ H Em) as H1.
  apply (R_trans _ c1); [ exact H1 | ].
  apply (Hk a s1 c1 b s' c'); [ apply (R_refl_r c); exact H1 | exact E ].
Qed.

End Keeps.

Lemma load_state_frame_refl (c : Cartridge) : load_state_frame c c.
Proof. repeat split. Qed.

Lemma load_state_frame_trans (a b c : Cartridge) :
  load_state_frame a b -> load_state_frame b c -> load_state_frame a c.
Proof.
  unfold load_state_frame.
  intros (A1 & A2 & A3 & A4 & A5 & A6 & A7 & A8 & A9)
         (B1 & B2 & B3 & B4 & B5 & B6 & B7 & B8 & B9).
  repeat split; congruence.
Qed.

Lemma LoadState_keeps : keeps load_state_frame LoadState.
Proof.
  unfold LoadState, MBC_NONE_LoadState, MBC_MBC1_LoadState,
    MBC_MBC3_LoadState, MBC_MBC5_LoadState.
  repeat (first
            [ apply keeps_lret
            | apply keeps_read
            | apply keeps_this
            | apply keeps_update; intros ? _; repeat split
            | apply keeps_lbind;
              [ exact load_state_frame_trans
              | intros ? ? _; apply load_state_frame_refl | | intros ? ] ];
          repeat match goal with
            | |- keeps _ (if ?b then _ else _) => destruct b
            | |- keeps _ (match ?m with MBC_NONE => _ | _ => _ end) =>
                destruct m
            end).
  all: destruct (m_external_ram _); repeat split.
Qed.

(** X27.  On every stream long enough for the fields that [LoadState] reads
    from it, whether the load succeeds or ends in one of its errors,
    [LoadState] changes neither the ROM, the CRC, the type information,
    the number of banks nor the RAM size; it never calls the host, and it
    leaves the modified mark of the RAM as it is, also when it has
    replaced the contents of the RAM.  (Of a stream that ends inside a
    field the reader returns nothing, and nothing is stated.) *)
Theorem LoadState_leaves_alone (stream rest : list Z) (c c' : Cartridge)
    (r : Result unit) :
  LoadState stream c = Some (r, rest, c') ->
  m_rom_banks c' = m_rom_banks c
  /\ m_num_rom_banks c' = m_num_rom_banks c
  /\ m_crc c' = m_crc c
  /\ m_mbc c' = m_mbc c
  /\ m_typeinfo c' = m_typeinfo c
  /\ m_external_ram_size c' = m_external_ram_size c
  /\ m_external_ram_modified c' = m_external_ram_modified c
  /\ m_callbacks c' = m_callbacks c.
Proof.
  intros E.
  destruct (LoadState_keeps stream c r rest c' (load_state_frame_refl c) E)
    as (A1 & A2 & A3 & A4 & A5 & A6 & A7 & A8 & A9).
  repeat split; assumption.
Qed.

Lemma LoadState_leaves_alone_witness :
  m_rom_banks (loaded_from latched_once latched_twice)
  = m_rom_banks latched_twice.
Proof.
  refine (proj1 (LoadState_leaves_alone (SaveState latched_once ++ []) []
                   latched_twice (loaded_from latched_once latched_twice)
                   (Done tt) _)).
  apply save_state_round_trip; apply example_states_ok.
Defined.

End CartridgeFacts.

(* ================================================================== *)
(** * Properties of the frame callback *)

Section MainFacts.

Import Display.
Import Main.

Lemma copy_line_spec (pBytePixels : list Z) (n : nat) :
  forall (inLine outLine : Z) (surface : list Z),
    0 <= outLine ->
    outLine + 4 * Z.of_nat n <= Z.of_nat (length surface) ->
    let out := copy_line n pBytePixels inLine outLine surface in
    length out = length surface
    /\ (forall j k, 0 <= j < Z.of_nat n -> 0 <= k < 3 ->
          Buf.get out (outLine + 4 * j + k)
          = Buf.get pBytePixels (inLine + 4 * j + (2 - k)))
    /\ (forall i, 0 <= i ->
          (i < outLine \/ outLine + 4 * Z.of_nat n <= i
           \/ (i - outLine) mod 4 = 3) ->
          Buf.get out i = Buf.get surface i).
Proof.
  induction n as [ | n IH ]; intros inLine outLine surface Ho Hl.
  - cbn [copy_line]. cbv zeta. split; [ reflexivity | ].
    split; [ intros j k Hj; lia | reflexivity ].
  - cbn [copy_line]. cbv zeta.
    set (s3 := Buf.store (Buf.store (Buf.store surface outLine _) _ _) _ _).
    assert (L3 : length s3 = length surface)
      by (unfold s3; rewrite !store_length; reflexivity).
    destruct (IH (inLine + 4) (outLine + 4) s3 ltac:(lia)
                 ltac:(rewrite L3; lia)) as (Il & Ic & Io).
    cbv zeta in Il, Ic, Io.
    split; [ rewrite Il; exact L3 | ].
    split.
    + intros j k Hj Hk.
      destruct (Z.eq_dec j 0) as [-> | Nz].
      * rewrite Io by lia.
        replace (inLine + 4 * 0 + (2 - k)) with (inLine + (2 - k)) by lia.
        replace (outLine + 4 * 0 + k) with (outLine + k) by lia.
        unfold s3.
        assert (K : k = 0 \/ k = 1 \/ k = 2) by lia.
        destruct K as [-> | [-> | ->]].
        -- rewrite Z.add_0_r.
           rewrite !get_store_other by lia.
           rewrite get_store_same by lia. reflexivity.
        -- rewrite get_store_other by lia.
           rewrite get_store_same by (rewrite store_length; lia).
           reflexivity.
        -- rewrite get_store_same by (rewrite !store_length; lia).
           f_equal. lia.
      * replace (outLine + 4 * j + k) with (outLine + 4 + 4 * (j - 1) + k)
          by lia.
        replace (inLine + 4 * j + (2 - k))
          with (inLine + 4 + 4 * (j - 1) + (2 - k)) by lia.
        apply Ic; lia.
    + intros i Hi Hout.
      assert (M : (i - (outLine + 4)) mod 4 = (i - outLine) mod 4).
      { replace (i - (outLine + 4)) with (i - outLine + (-1) * 4) by lia.
        apply Z.mod_add. lia. }
      rewrite Io.
      * unfold s3.
        assert (N : i <> outLine /\ i <> outLine + 1 /\ i <> outLine + 2).
        { destruct Hout as [H | [H | H]]; [ lia | lia | ].
          repeat split; intros ->.
          - rewrite Z.sub_diag in H. discriminate H.
          - replace (outLine + 1 - outLine) with 1 in H by lia.
            discriminate H.
          - replace (outLine + 2 - outLine) with 2 in H by lia.
            discriminate H. }
        rewrite !get_store_other by lia. reflexivity.
      * exact Hi.
      * rewrite M.
        destruct Hout as [H | [H | H]]; [ left; lia | right; left; lia | ].
        right. right. exact H.
Qed.

Lemma copy_lines_spec (pBytePixels : list Z) (row_stride pitch : Z) (n : nat) :
  0 <= row_stride -> SCREEN_WIDTH * 4 <= pitch ->
  forall (y : Z) (surface : list Z),
    0 <= y ->
    (y + Z.of_nat n) * row_stride < 4294967296 + row_stride ->
    (y + Z.of_nat n) * pitch <= Z.of_nat (length surface) ->
    Z.of_nat (length surface) < 4294967296 ->
    let out := copy_lines n y pBytePixels row_stride pitch surface in
    length out = length surface
    /\ (forall l x k, y <= l < y + Z.of_nat n -> 0 <= x < SCREEN_WIDTH ->
          0 <= k < 3 ->
          Buf.get out (l * pitch + 4 * x + k)
          = Buf.get pBytePixels (l * row_stride + 4 * x + (2 - k)))
    /\ (forall i, 0 <= i ->
          (i < y * pitch \/ (y + Z.of_nat n) * pitch <= i
           \/ SCREEN_WIDTH * 4 <= i mod pitch \/ (i mod pitch) mod 4 = 3) ->
          Buf.get out i = Buf.get surface i).
Proof.
  unfold SCREEN_WIDTH. intros Hs Hp.
  induction n as [ | n IH ]; intros y surface Hy Hr Hl Hb.
  - cbn [copy_lines]. cbv zeta. split; [ reflexivity | ].
    split; [ intros l x k Hl'; lia | reflexivity ].
  - cbn [copy_lines]. cbv zeta.
    assert (Ei : Int.u32 (y * row_stride) = y * row_stride).
    { unfold Int.u32. apply Z.mod_small. nia. }
    assert (Eo : Int.u32 (y * Int.u32 pitch) = y * pitch).
    { unfold Int.u32. rewrite (Z.mod_small pitch) by nia.
      apply Z.mod_small. nia. }
    rewrite Ei, Eo.
    change (Z.to_nat SCREEN_WIDTH) with 160%nat.
    destruct (copy_line_spec pBytePixels 160 (y * row_stride) (y * pitch)
                surface ltac:(nia) ltac:(nia)) as (Ll & Lc & Lo).
    cbv zeta in Ll, Lc, Lo.
    set (s1 := copy_line 160 pBytePixels (y * row_stride) (y * pitch) surface)
      in *.
    destruct (IH (y + 1) s1 ltac:(lia) ltac:(nia) ltac:(rewrite Ll; nia)
                 ltac:(rewrite Ll; exact Hb)) as (Il & Ic & Io).
    cbv zeta in Il, Ic, Io.
    split; [ rewrite Il; exact Ll | ].
    split.
    + intros l x k Hl' Hx Hk.
      destruct (Z.eq_dec l y) as [-> | Ne]; [ | apply Ic; lia ].
      rewrite Io by nia. apply Lc; lia.
    + intros i Hi Hout.
      assert (Hq := Z.div_mod i pitch ltac:(lia)).
      assert (Hm := Z.mod_pos_bound i pitch ltac:(lia)).
      rewrite Io.
      * apply Lo; [ exact Hi | ].
        destruct (Z.lt_trichotomy (i / pitch) y) as [Lt | [Eq | Gt]].
        -- left. nia.
        -- assert (E : i - y * pitch = i mod pitch) by nia.
           rewrite E.
           destruct Hout as [H | [H | [H | H]]];
             [ left; lia | right; left; nia | right; left; lia
             | right; right; exact H ].
        -- right. left. nia.
      * exact Hi.
      * destruct Hout as [H | [H | [H | H]]];
          [ left; nia | right; left; nia | right; right; left; exact H
          | right; right; right; exact H ].
Qed.

Lemma PutPixel_bytes (px py color : Z) (fb : list Z) :
  0 <= (py * SCREEN_WIDTH + px) * 4 ->
  (py * SCREEN_WIDTH + px) * 4 + 4 <= Z.of_nat (length fb) ->
  let base := (py * SCREEN_WIDTH + px) * 4 in
  let fb' := PutPixel px py color fb in
  Buf.get fb' base = Z.land color 255
  /\ Buf.get fb' (base + 1) = Z.land (Z.shiftr color 8) 255
  /\ Buf.get fb' (base + 2) = Z.land (Z.shiftr color 16) 255
  /\ Buf.get fb' (base + 3) = Z.land (Z.shiftr color 24) 255.
Proof.
  intros Hb Hl. cbv zeta. unfold PutPixel. cbv zeta.
  set (base := (py * SCREEN_WIDTH + px) * 4) in *.
  repeat split.
  - rewrite !get_store_other by lia. apply get_store_same. lia.
  - rewrite !get_store_other by lia.
    apply get_store_same. rewrite !store_length. lia.
  - rewrite !get_store_other by lia.
    apply get_store_same. rewrite !store_length. lia.
  - apply get_store_same. rewrite !store_length. lia.
Qed.

(** X30.  [PresentDisplayBuffer] copies the 160 x 144 pixels of the frame to the
    surface with the first and the third byte of each pixel exchanged: the
    three colour bytes of the surface pixel are bytes 2, 1, 0 of the frame
    pixel.  The fourth byte of every surface pixel, the bytes of each
    surface line after the 160 pixels, and what lies after line 143 stay
    as they are.  So the pixel that [PutPixel] wrote with colour [color]
    shows with the bytes [color >> 16], [color >> 8], [color] (each cut to
    eight bits) in this order. *)
Theorem PresentDisplayBuffer_copies (pixels surface : list Z)
    (row_stride pitch : Z) :
  0 <= row_stride ->
  (SCREEN_HEIGHT - 1) * row_stride + SCREEN_WIDTH * 4
    <= Z.of_nat (length pixels) ->
  Z.of_nat (length pixels) < 4294967296 ->
  SCREEN_WIDTH * 4 <= pitch ->
  SCREEN_HEIGHT * pitch <= Z.of_nat (length surface) ->
  Z.of_nat (length surface) < 4294967296 ->
  let out := PresentDisplayBuffer pixels row_stride pitch surface in
  length out = length surface
  /\ (forall x y k, 0 <= x < SCREEN_WIDTH -> 0 <= y < SCREEN_HEIGHT ->
        0 <= k < 3 ->
        Buf.get out (y * pitch + 4 * x + k)
        = Buf.get pixels (y * row_stride + 4 * x + (2 - k)))
  /\ (forall i, 0 <= i ->
        (SCREEN_HEIGHT * pitch <= i \/ SCREEN_WIDTH * 4 <= i mod pitch
         \/ (i mod pitch) mod 4 = 3) ->
        Buf.get out i = Buf.get surface i)
  /\ (forall fb px py color,
        pixels = PutPixel px py color fb -> row_stride = SCREEN_WIDTH * 4 ->
        0 <= px < SCREEN_WIDTH -> 0 <= py < SCREEN_HEIGHT ->
        Buf.get out (py * pitch + 4 * px) = Z.land (Z.shiftr color 16) 255
        /\ Buf.get out (py * pitch + 4 * px + 1) = Z.land (Z.shiftr color 8) 255
        /\ Buf.get out (py * pitch + 4 * px + 2) = Z.land color 255).
Proof.
  unfold SCREEN_WIDTH, SCREEN_HEIGHT.
  intros Hs Hn Hnb Hp Hl Hb. cbv zeta.
  unfold PresentDisplayBuffer.
  change (Z.to_nat SCREEN_HEIGHT) with 144%nat.
  destruct (copy_lines_spec pixels row_stride pitch 144 Hs Hp 0 surface
              ltac:(lia) ltac:(lia) ltac:(lia) Hb) as (Cl & Cc & Co).
  cbv zeta in Cl, Cc, Co. unfold SCREEN_WIDTH in Cc, Co.
  set (out := copy_lines 144 0 pixels row_stride pitch surface) in *.
  split; [ exact Cl | ].
  split; [ intros x y k Hx Hy Hk; apply Cc; lia | ].
  split.
  { intros i Hi Hout. apply Co; [ exact Hi | ].
    destruct Hout as [H | [H | H]];
      [ right; left; lia | right; right; left; exact H
      | right; right; right; exact H ]. }
  intros fb px py color Ep Er Hx Hy.
  assert (Lf : length pixels = length fb)
    by (rewrite Ep; apply PutPixel_length).
  destruct (PutPixel_bytes px py color fb) as (B0 & B1 & B2 & _);
    [ unfold SCREEN_WIDTH; lia
    | unfold SCREEN_WIDTH; rewrite <- Lf; lia | ].
  cbv zeta in B0, B1, B2. unfold SCREEN_WIDTH in B0, B1, B2.
  rewrite <- Ep in B0, B1, B2.
  pose proof (Cc py px 0 ltac:(lia) ltac:(lia) ltac:(lia)) as C0.
  pose proof (Cc py px 1 ltac:(lia) ltac:(lia) ltac:(lia)) as C1.
  pose proof (Cc py px 2 ltac:(lia) ltac:(lia) ltac:(lia)) as C2.
  rewrite Z.add_0_r in C0. rewrite C0, C1, C2, Er.
  replace (py * (160 * 4) + 4 * px + (2 - 0)) with ((py * 160 + px) * 4 + 2)
    by lia.
  replace (py * (160 * 4) + 4 * px + (2 - 1)) with ((py * 160 + px) * 4 + 1)
    by lia.
  replace (py * (160 * 4) + 4 * px + (2 - 2)) with ((py * 160 + px) * 4)
    by lia.
  rewrite B0, B1, B2. repeat split.
Qed.

Lemma PresentDisplayBuffer_copies_witness :
  length (PresentDisplayBuffer (m_frameBuffer power_on) 640 640
            (m_frameBuffer power_on))
  = length (m_frameBuffer power_on).
Proof.
  refine (proj1 (PresentDisplayBuffer_copies (m_frameBuffer power_on)
                   (m_frameBuffer power_on) 640 640 _ _ _ _ _ _)).
  - lia.
  - apply Z.leb_le. vm_compute. reflexivity.
  - apply Z.ltb_lt. vm_compute. reflexivity.
  - unfold SCREEN_WIDTH. lia.
  - apply Z.leb_le. vm_compute. reflexivity.
  - apply Z.ltb_lt. vm_compute. reflexivity.
Defined.

End MainFacts.
